(** * liveKitCallCenter: call state machine, instance supervisor, scaling
      controller and job router

    A shallow embedding of the orchestration logic of the call center:
    - [src/models.py]                       the [Call] and [AIAgent] documents;
    - [src/database.py]                     the document store;
    - [src/api/routes/calls.py]             the status-transition endpoints;
    - [src/api/routes/sip_integration.py]   call initiation and transfer, the
                                            no-answer watchdog and the webhook
                                            with its participant handlers;
    - [src/api/routes/agent_management.py]  the instance registry, health
                                            polling, monitor loop and scaling;
    - [src/agent_worker.py]                 the job router.

    Conventions of the embedding.
    - A [datetime] is a number of microseconds since the epoch (Python's
      resolution); [datetime.utcnow()] is an explicit argument [now] of the
      operation that reads the clock.
    - [Optional[T]] is [option T]; [str] is [string]; Python [int] is [Z].
    - The document store is a finite map from ids to documents; [X.get(id)]
      is a lookup and [x.save()] an insert under [x.id] of the document as
      the handler holds it. The store is MongoDB ([src/database.py]), which
      keeps a [datetime] in whole milliseconds: what a later request reads
      back is [Database.stored] of what was saved.
    - A decoded JSON body ([Dict[str, Any]]) is a [PyDict.t Py.value]; a
      method called on a value that does not have it raises
      [AttributeError].
    - The in-memory [agent_instances] dict is an insertion-ordered
      association list, because [sorted] is stable and iterates it in
      insertion order. *)

From Stdlib Require Import ZArith String List Bool Lia Permutation Sorted Floats.
From Stdlib Require Import Ascii.
From stdpp Require Import base strings gmap list pretty.

Local Open Scope string_scope.
Local Open Scope list_scope.
Local Open Scope Z_scope.

(** ** Python primitives *)

Module Py.

(** Microseconds since the epoch. *)
Definition datetime := Z.

Definition second : Z := 1000000.

(** The resolution of a BSON date: MongoDB stores a [datetime] as a whole
    number of milliseconds since the epoch, and the driver drops the
    microseconds below the millisecond when it encodes one. *)
Definition millisecond : Z := 1000.

Definition bson_datetime (t : datetime) : datetime :=
  t / millisecond * millisecond.

(** [int((a - b).total_seconds())]: [int] truncates toward zero. *)
Definition int_total_seconds (a b : datetime) : Z := Z.quot (a - b) second.

(** [(a - b).total_seconds() > n] for a whole number of seconds [n]. *)
Definition total_seconds_gt (a b : datetime) (n : Z) : bool :=
  n * second <? a - b.

(** Truthiness of an [Optional[str]]: [None] and [""] are falsy. *)
Definition truthy_str (s : option string) : bool :=
  match s with
  | Some s => negb (String.eqb s "")
  | None => false
  end.

(** Truthiness of an [Optional[int]]: [None] and [0] are falsy. *)
Definition truthy_int (n : option Z) : bool :=
  match n with
  | Some n => negb (n =? 0)
  | None => false
  end.

(** [x in xs] for a list of string literals. *)
Definition str_in (x : string) (xs : list string) : bool :=
  existsb (String.eqb x) xs.

(** [s.startswith(p)]. *)
Definition startswith (s p : string) : bool := String.prefix p s.

(** The values a handler puts in a response body. *)
Inductive json :=
| JNull
| JStr (s : string)
| JInt (n : Z).

Definition json_of_opt_int (n : option Z) : json :=
  match n with Some n => JInt n | None => JNull end.

(** What a route handler gives back: a body, or a raised [HTTPException]. *)
Inductive response :=
| Return (body : list (string * json))
| HTTPException (status_code : Z) (detail : string).

(** [str(e)] for an [HTTPException]: Starlette's [__str__] gives the status
    code, a colon and the detail. *)
Definition str_HTTPException (status_code : Z) (detail : string) : string :=
  pretty status_code +:+ ": " +:+ detail.

(** The double quote, for the text of a JSON document. *)
Definition dquote : string := String (ascii_of_nat 34) EmptyString.

(** A decoded JSON value, as a handler receives it in a [Dict[str, Any]];
    an object is a [dict], here the list of its items. Values are only
    told apart by cases, so no induction scheme is generated. *)
Local Unset Elimination Schemes.

Inductive value :=
| VNone
| VBool (b : bool)
| VInt (n : Z)
| VFloat (x : float)
| VStr (s : string)
| VList (items : list value)
| VDict (items : list (string * value)).

Local Set Elimination Schemes.

(** [type(v).__name__]. *)
Definition type_name (v : value) : string :=
  match v with
  | VNone => "NoneType"
  | VBool _ => "bool"
  | VInt _ => "int"
  | VFloat _ => "float"
  | VStr _ => "str"
  | VList _ => "list"
  | VDict _ => "dict"
  end.

(** Truthiness of a value: [None], [False], zero and the empty string, list
    and dict are falsy. *)
Definition truthy (v : value) : bool :=
  match v with
  | VNone => false
  | VBool b => b
  | VInt n => negb (n =? 0)
  | VFloat x => negb (PrimFloat.eqb x 0%float)
  | VStr s => negb (String.eqb s "")
  | VList items => match items with [] => false | _ => true end
  | VDict items => match items with [] => false | _ => true end
  end.

(** [v == "literal"]: only an equal [str] compares equal to a [str]. *)
Definition eq_str (v : option value) (literal : string) : bool :=
  match v with
  | Some (VStr s) => String.eqb s literal
  | _ => false
  end.

(** [str(e)] for the [AttributeError] of [v.attribute] on a value that has
    no such attribute. *)
Definition attribute_error (v : value) (attribute : string) : string :=
  "'" +:+ type_name v +:+ "' object has no attribute '" +:+ attribute +:+ "'".

(** [s.replace(old, new)]: every non-overlapping occurrence of [old], found
    from the left, becomes [new]. [skip] counts the characters of a matched
    occurrence still to be passed over. With an empty [old], [new] goes
    before every character and at the end. *)
Fixpoint replace_from (old new : string) (skip : nat) (s : string) : string :=
  match s with
  | EmptyString => EmptyString
  | String c rest =>
      match skip with
      | S skip => replace_from old new skip rest
      | O =>
          if String.prefix old s
          then new +:+ replace_from old new (String.length old - 1) rest
          else String c (replace_from old new 0 rest)
      end
  end.

Fixpoint replace_empty (new s : string) : string :=
  match s with
  | EmptyString => new
  | String c rest => new +:+ String c (replace_empty new rest)
  end.

Definition replace (s old new : string) : string :=
  if String.eqb old "" then replace_empty new s else replace_from old new 0 s.

End Py.

(** ** Python's insertion-ordered [dict] *)

Module PyDict.
Section Dict.
Context {V : Type}.

Definition t := list (string * V).

(** [d.get(k)] / [k in d]. *)
Fixpoint get (k : string) (d : t) : option V :=
  match d with
  | [] => None
  | (k', v) :: d => if String.eqb k k' then Some v else get k d
  end.

Definition mem (k : string) (d : t) : bool :=
  match get k d with Some _ => true | None => false end.

(** [d[k] = v]: an existing key keeps its position, a new key goes last. *)
Fixpoint set (k : string) (v : V) (d : t) : t :=
  match d with
  | [] => [(k, v)]
  | (k', v') :: d =>
      if String.eqb k k' then (k', v) :: d else (k', v') :: set k v d
  end.

(** [del d[k]]. *)
Fixpoint del (k : string) (d : t) : t :=
  match d with
  | [] => []
  | (k', v') :: d =>
      if String.eqb k k' then d else (k', v') :: del k d
  end.

(** [d.values()], in insertion order. *)
Definition values (d : t) : list V := map snd d.

Definition keys (d : t) : list string := map fst d.

(** In-place mutation of the object stored under [k]. *)
Definition mutate (k : string) (f : V -> V) (d : t) : t :=
  map (fun kv => if String.eqb k (fst kv) then (fst kv, f (snd kv)) else kv) d.

(** In-place mutation of every stored object selected by [sel]. *)
Definition mutate_where (sel : V -> bool) (f : V -> V) (d : t) : t :=
  map (fun kv => if sel (snd kv) then (fst kv, f (snd kv)) else kv) d.

End Dict.
Arguments t V : clear implicits.
End PyDict.

(** ** src/models.py *)

Module Call.

Record t := mk {
  id : string;
  project_id : string;
  campaign_id : option string;
  contact_id : option string;
  ai_agent_id : option string;
  room_name : option string;
  participant_id : option string;
  sip_call_id : option string;
  call_type : string;
  phone_number : string;
  call_status : string;
  started_at : Py.datetime;
  answered_at : option Py.datetime;
  ended_at : option Py.datetime;
  duration_seconds : option Z;
  recording_url : option string;
  transcript : option string;
  sentiment_score : option float;
  call_summary : option string;
  key_points : list string;
  action_items : list string;
  call_outcome : option string;
  created_at : Py.datetime
}.

(** Attribute assignments [call.f = v], one per attribute the handlers
    write. *)
Definition set_room_name (v : option string) (c : t) : t :=
  let 'mk a1 a2 a3 a4 a5 _ a7 a8 a9 a10 a11 a12 a13 a14 a15 a16 a17 a18 a19 a20 a21 a22 a23 := c in
  mk a1 a2 a3 a4 a5 v a7 a8 a9 a10 a11 a12 a13 a14 a15 a16 a17 a18 a19 a20 a21 a22 a23.

Definition set_participant_id (v : option string) (c : t) : t :=
  let 'mk a1 a2 a3 a4 a5 a6 _ a8 a9 a10 a11 a12 a13 a14 a15 a16 a17 a18 a19 a20 a21 a22 a23 := c in
  mk a1 a2 a3 a4 a5 a6 v a8 a9 a10 a11 a12 a13 a14 a15 a16 a17 a18 a19 a20 a21 a22 a23.

Definition set_call_status (v : string) (c : t) : t :=
  let 'mk a1 a2 a3 a4 a5 a6 a7 a8 a9 a10 _ a12 a13 a14 a15 a16 a17 a18 a19 a20 a21 a22 a23 := c in
  mk a1 a2 a3 a4 a5 a6 a7 a8 a9 a10 v a12 a13 a14 a15 a16 a17 a18 a19 a20 a21 a22 a23.

Definition set_started_at (v : Py.datetime) (c : t) : t :=
  let 'mk a1 a2 a3 a4 a5 a6 a7 a8 a9 a10 a11 _ a13 a14 a15 a16 a17 a18 a19 a20 a21 a22 a23 := c in
  mk a1 a2 a3 a4 a5 a6 a7 a8 a9 a10 a11 v a13 a14 a15 a16 a17 a18 a19 a20 a21 a22 a23.

Definition set_answered_at (v : option Py.datetime) (c : t) : t :=
  let 'mk a1 a2 a3 a4 a5 a6 a7 a8 a9 a10 a11 a12 _ a14 a15 a16 a17 a18 a19 a20 a21 a22 a23 := c in
  mk a1 a2 a3 a4 a5 a6 a7 a8 a9 a10 a11 a12 v a14 a15 a16 a17 a18 a19 a20 a21 a22 a23.

Definition set_ended_at (v : option Py.datetime) (c : t) : t :=
  let 'mk a1 a2 a3 a4 a5 a6 a7 a8 a9 a10 a11 a12 a13 _ a15 a16 a17 a18 a19 a20 a21 a22 a23 := c in
  mk a1 a2 a3 a4 a5 a6 a7 a8 a9 a10 a11 a12 a13 v a15 a16 a17 a18 a19 a20 a21 a22 a23.

Definition set_duration_seconds (v : option Z) (c : t) : t :=
  let 'mk a1 a2 a3 a4 a5 a6 a7 a8 a9 a10 a11 a12 a13 a14 _ a16 a17 a18 a19 a20 a21 a22 a23 := c in
  mk a1 a2 a3 a4 a5 a6 a7 a8 a9 a10 a11 a12 a13 a14 v a16 a17 a18 a19 a20 a21 a22 a23.

Definition set_call_outcome (v : option string) (c : t) : t :=
  let 'mk a1 a2 a3 a4 a5 a6 a7 a8 a9 a10 a11 a12 a13 a14 a15 a16 a17 a18 a19 a20 a21 _ a23 := c in
  mk a1 a2 a3 a4 a5 a6 a7 a8 a9 a10 a11 a12 a13 a14 a15 a16 a17 a18 a19 a20 a21 v a23.

Definition set_sip_call_id (v : option string) (c : t) : t :=
  let 'mk a1 a2 a3 a4 a5 a6 a7 _ a9 a10 a11 a12 a13 a14 a15 a16 a17 a18 a19 a20 a21 a22 a23 := c in
  mk a1 a2 a3 a4 a5 a6 a7 v a9 a10 a11 a12 a13 a14 a15 a16 a17 a18 a19 a20 a21 a22 a23.

Definition set_created_at (v : Py.datetime) (c : t) : t :=
  let 'mk a1 a2 a3 a4 a5 a6 a7 a8 a9 a10 a11 a12 a13 a14 a15 a16 a17 a18 a19 a20 a21 a22 _ := c in
  mk a1 a2 a3 a4 a5 a6 a7 a8 a9 a10 a11 a12 a13 a14 a15 a16 a17 a18 a19 a20 a21 a22 v.

(** The terminal statuses of the call state machine. *)
Definition terminal_statuses : list string :=
  ["completed"; "failed"; "no_answer"; "transferred"].

Definition is_terminal (c : t) : bool :=
  Py.str_in (call_status c) terminal_statuses.

End Call.

Module AIAgent.

(** [voice_settings] and [behavior_settings] (free-form dicts) and the two
    timestamps are left out: no operation below reads or writes them. *)
Record t := mk {
  id : string;
  project_id : string;
  name : string;
  prompt : string;
  is_active : bool
}.

End AIAgent.

Module Project.

(** [description], [created_by] and the timestamps are left out. *)
Record t := mk {
  id : string;
  name : string;
  is_active : bool
}.

End Project.

Module Contact.

(** The fields [initiate_sip_call] copies into the room metadata are left
    out but for the name; the handlers below only test that the contact
    exists. *)
Record t := mk {
  id : string;
  name : string
}.

End Contact.

(** ** src/database.py

    The documents are kept in MongoDB through Beanie and Motor. A document
    read back is the document that was saved with every [datetime] cut to
    the millisecond. *)

Module Database.

Definition stored_call (c : Call.t) : Call.t :=
  let c := Call.set_started_at (Py.bson_datetime (Call.started_at c)) c in
  let c := Call.set_answered_at (Py.bson_datetime <$> Call.answered_at c) c in
  let c := Call.set_ended_at (Py.bson_datetime <$> Call.ended_at c) c in
  Call.set_created_at (Py.bson_datetime (Call.created_at c)) c.

(** The [Call] collection as later requests find it. *)
Definition stored (calls : gmap string Call.t) : gmap string Call.t :=
  stored_call <$> calls.

End Database.

(** ** src/api/routes/calls.py *)

Module Calls.

Definition not_found : Py.response := Py.HTTPException 404 "Call not found".

(** [start_call]: no test on the current status; [started_at] is
    over-written on every invocation. Documents are stored under their id,
    so [call.save()] writes back under [call_id]. *)
Definition start_call (now : Py.datetime) (call_id room_name : string)
    (participant_id : option string) (calls : gmap string Call.t)
  : gmap string Call.t * Py.response :=
  match calls !! call_id with
  | None => (calls, not_found)
  | Some call =>
      let call := Call.set_call_status "ringing" call in
      let call := Call.set_room_name (Some room_name) call in
      let call := Call.set_participant_id participant_id call in
      let call := Call.set_started_at now call in
      (<[call_id := call]> calls,
       Py.Return [("message", Py.JStr "Call started");
                  ("call_id", Py.JStr call_id);
                  ("room_name", Py.JStr room_name)])
  end.

Definition answer_call (now : Py.datetime) (call_id : string)
    (calls : gmap string Call.t) : gmap string Call.t * Py.response :=
  match calls !! call_id with
  | None => (calls, not_found)
  | Some call =>
      let call := Call.set_call_status "answered" call in
      let call := Call.set_answered_at (Some now) call in
      (<[call_id := call]> calls,
       Py.Return [("message", Py.JStr "Call answered");
                  ("call_id", Py.JStr call_id)])
  end.

(** The mutation [end_call] performs on the loaded document, between
    [Call.get] and [call.save()]. A [datetime] is always truthy, so
    [if call.answered_at:] tests for [None] alone; an empty
    [call_outcome] is falsy and records nothing. *)
Definition end_call_update (now : Py.datetime) (call_outcome : option string)
    (call : Call.t) : Call.t :=
  let call := Call.set_call_status "completed" call in
  let call := Call.set_ended_at (Some now) call in
  let call :=
    match Call.answered_at call with
    | Some answered =>
        Call.set_duration_seconds (Some (Py.int_total_seconds now answered)) call
    | None => call
    end in
  if Py.truthy_str call_outcome then Call.set_call_outcome call_outcome call
  else call.

Definition end_call (now : Py.datetime) (call_id : string)
    (call_outcome : option string) (calls : gmap string Call.t)
  : gmap string Call.t * Py.response :=
  match calls !! call_id with
  | None => (calls, not_found)
  | Some call =>
      let call := end_call_update now call_outcome call in
      (<[call_id := call]> calls,
       Py.Return [("message", Py.JStr "Call ended");
                  ("call_id", Py.JStr call_id);
                  ("duration", Py.json_of_opt_int (Call.duration_seconds call))])
  end.

Definition fail_call (now : Py.datetime) (call_id : string)
    (reason : option string) (calls : gmap string Call.t)
  : gmap string Call.t * Py.response :=
  match calls !! call_id with
  | None => (calls, not_found)
  | Some call =>
      let call := Call.set_call_status "failed" call in
      let call := Call.set_ended_at (Some now) call in
      let call :=
        match reason with
        | Some r =>
            if negb (String.eqb r "")
            then Call.set_call_outcome (Some ("Failed: " +:+ r)) call
            else call
        | None => call
        end in
      (<[call_id := call]> calls,
       Py.Return [("message", Py.JStr "Call marked as failed");
                  ("call_id", Py.JStr call_id)])
  end.

End Calls.

(** ** src/api/routes/sip_integration.py *)

Module SipIntegration.

(** *** Webhook participant handlers

    A webhook participant is a JSON object; [participant.get("identity", "")]
    reads its [identity] entry, the empty string when there is none. *)
Definition identity (participant : gmap string string) : string :=
  default "" (participant !! "identity").

(** Both handlers mutate and save the document they are handed; the
    result is the document as saved (unchanged when nothing is written). *)
Definition handle_participant_joined (now : Py.datetime) (call : Call.t)
    (participant : gmap string string) : Call.t :=
  if Py.startswith (identity participant) "customer-" then
    let call := Call.set_call_status "answered" call in
    Call.set_answered_at (Some now) call
  else call.

Definition handle_participant_left (now : Py.datetime) (call : Call.t)
    (participant : gmap string string) : Call.t :=
  if Py.startswith (identity participant) "customer-" then
    let call := Call.set_call_status "completed" call in
    let call := Call.set_ended_at (Some now) call in
    match Call.answered_at call with
    | Some answered =>
        Call.set_duration_seconds (Some (Py.int_total_seconds now answered)) call
    | None => call
    end
  else call.

Definition handle_room_finished (now : Py.datetime) (call : Call.t) : Call.t :=
  if negb (Py.str_in (Call.call_status call) ["completed"; "failed"]) then
    let call := Call.set_call_status "completed" call in
    Call.set_ended_at (Some now) call
  else call.

(** *** The no-answer watchdog [monitor_sip_call]

    The task sleeps between its reads of the store, and other handlers
    write to the store meanwhile: [db_at w] is the content of the store
    when the watchdog has slept [w] seconds in total. *)
Definition max_wait : Z := 60.

(** The [while wait_time < max_wait] loop; the result is [wait_time] at
    loop exit and the list of values of [wait_time] at which the loop read
    the store. [fuel] bounds the number of evaluations of the loop test. *)
Fixpoint wait_loop (fuel : nat) (db_at : Z -> gmap string Call.t)
    (call_id : string) (wait_time : Z) (polls : list Z) : option (Z * list Z) :=
  match fuel with
  | O => None
  | S fuel =>
      if wait_time <? max_wait then
        match db_at wait_time !! call_id with
        | None => Some (wait_time, polls ++ [wait_time])
        | Some call =>
            if Py.str_in (Call.call_status call) ["answered"; "failed"; "completed"]
            then Some (wait_time, polls ++ [wait_time])
            else wait_loop fuel db_at call_id (wait_time + 5) (polls ++ [wait_time])
        end
      else Some (wait_time, polls)
  end.

(** The document written by the final check, if any. *)
Definition mark_no_answer (now : Py.datetime) (call : Call.t) : Call.t :=
  let call := Call.set_call_status "no_answer" call in
  let call := Call.set_call_outcome (Some "No answer") call in
  Call.set_ended_at (Some now) call.

Record watchdog_result := {
  final_wait_time : Z;
  poll_times : list Z;
  final_store : gmap string Call.t
}.

(** [now] is the clock read by the final check. The final store is the
    store as the watchdog leaves it when it returns. *)
Definition monitor_sip_call (fuel : nat) (db_at : Z -> gmap string Call.t)
    (now : Py.datetime) (call_id : string) : option watchdog_result :=
  match wait_loop fuel db_at call_id 0 [] with
  | None => None
  | Some (wait_time, polls) =>
      let store := db_at wait_time in
      let store :=
        if max_wait <=? wait_time then
          match store !! call_id with
          | Some call =>
              if String.eqb (Call.call_status call) "ringing"
              then <[call_id := mark_no_answer now call]> store
              else store
          | None => store
          end
        else store in
      Some {| final_wait_time := wait_time; poll_times := polls;
              final_store := store |}
  end.

(** *** [handle_sip_webhook]

    [event_data] is the decoded JSON body. The handler reads
    [event_data.get("event")], [event_data.get("room", {}).get("name")] and
    [event_data.get("participant", {})]; a [room] entry that is not an
    object, or a truthy [name] that is not a string, raises
    [AttributeError], and the enclosing [except Exception] answers
    [status: error] with the text of the exception. *)

(** [room_name.replace("sip-call-", "")]. *)
Definition call_id_of_room (room_name : string) : string :=
  Py.replace room_name "sip-call-" "".

(** What the two participant handlers can read of [participant]: its
    [identity] entry when it is a string, nothing when there is none.
    [None] when the read itself raises (the value is not an object, or its
    [identity] is not a string): the handler's own [except Exception]
    catches that and nothing is written. *)
Definition participant_view (participant : Py.value)
  : option (gmap string string) :=
  match participant with
  | Py.VDict items =>
      match PyDict.get "identity" items with
      | None => Some ∅
      | Some (Py.VStr identity) => Some {[ "identity" := identity ]}
      | Some _ => None
      end
  | _ => None
  end.

(** The handlers save the document they changed; saving a document that was
    not changed leaves the store as it is, so the store is written with the
    handler's result in every case. Track events and the event log write
    nothing and catch their own exceptions. *)
Definition handle_sip_webhook (now : Py.datetime)
    (event_data : PyDict.t Py.value) (calls : gmap string Call.t)
  : gmap string Call.t * Py.response :=
  let ignored :=
    (calls, Py.Return [("status", Py.JStr "ignored");
                       ("reason", Py.JStr "not a SIP call room")]) in
  let failed message :=
    (calls, Py.Return [("status", Py.JStr "error");
                       ("message", Py.JStr message)]) in
  let event_type := PyDict.get "event" event_data in
  match default (Py.VDict []) (PyDict.get "room" event_data) with
  | Py.VDict room =>
      let participant :=
        default (Py.VDict []) (PyDict.get "participant" event_data) in
      match PyDict.get "name" room with
      | None => ignored
      | Some (Py.VStr room_name) =>
          if negb (Py.truthy (Py.VStr room_name))
             || negb (Py.startswith room_name "sip-call-")
          then ignored
          else
            let call_id := call_id_of_room room_name in
            match calls !! call_id with
            | None => (calls, Py.Return [("status", Py.JStr "error");
                                         ("reason", Py.JStr "call not found")])
            | Some call =>
                let call :=
                  if Py.eq_str event_type "participant_joined"
                  then match participant_view participant with
                       | Some participant =>
                           handle_participant_joined now call participant
                       | None => call
                       end
                  else if Py.eq_str event_type "participant_left"
                  then match participant_view participant with
                       | Some participant =>
                           handle_participant_left now call participant
                       | None => call
                       end
                  else if Py.eq_str event_type "room_finished"
                  then handle_room_finished now call
                  else call in
                (<[call_id := call]> calls,
                 Py.Return [("status", Py.JStr "processed");
                            ("call_id", Py.JStr call_id)])
            end
      | Some room_name =>
          if negb (Py.truthy room_name) then ignored
          else failed (Py.attribute_error room_name "startswith")
      end
  | room => failed (Py.attribute_error room "get")
  end.

(** *** [transfer_sip_call]

    [api_ok] tells whether building the [LiveKitAPI] client succeeds. Every
    exception of the body, the handler's own 404 and 400 included, leaves
    through [except Exception] as a 500. *)
Definition transfer_failed : Py.response :=
  Py.HTTPException 500 "Failed to transfer call".

Definition transfer_sip_call (api_ok : bool) (call_id destination : string)
    (transfer_type : string) (calls : gmap string Call.t)
  : gmap string Call.t * Py.response :=
  match calls !! call_id with
  | None => (calls, transfer_failed)
  | Some call =>
      if negb (Py.str_in (Call.call_status call) ["answered"; "ringing"])
      then (calls, transfer_failed)
      else if negb api_ok then (calls, transfer_failed)
      else
        let call :=
          Call.set_call_outcome
            (Some ("Transferred to " +:+ destination +:+ " (" +:+ transfer_type
                   +:+ ")")) call in
        let call := Call.set_call_status "transferred" call in
        (<[call_id := call]> calls,
         Py.Return [("call_id", Py.JStr call_id);
                    ("status", Py.JStr "transfer_initiated");
                    ("destination", Py.JStr destination);
                    ("transfer_type", Py.JStr transfer_type)])
  end.

(** *** [initiate_sip_call]

    What a call to the LiveKit API does: it returns, or it raises with the
    text [str(e)]. *)
Inductive outcome (A : Type) :=
| Returns (a : A)
| Raises (message : string).
Arguments Returns {A} a.
Arguments Raises {A} message.

(** The three uses of the API, in the order the handler makes them:
    building the client, [create_room], and [create_sip_participant], which
    gives back the [sip_call_id] and the [participant_identity]. *)
Record gateway := {
  livekit_api : outcome unit;
  create_room : outcome unit;
  create_sip_participant : outcome (string * string)
}.

(** [call_options] only parameterises the request to the API and is left
    out. *)
Record SIPCallRequest := {
  request_project_id : string;
  request_agent_id : string;
  request_phone_number : string;
  request_contact_id : option string;
  request_campaign_id : option string
}.

Record SIPCallResponse := {
  response_call_id : string;
  response_sip_call_id : string;
  response_room_name : string;
  response_participant_identity : string;
  response_status : string;
  response_estimated_cost : option float
}.

(** The three rates are the doubles Python reads [0.02], [0.05] and [0.10]
    as. *)
Definition calculate_call_cost (phone_number : string) : float :=
  if Py.startswith phone_number "+1" then 0x1.47ae147ae147bp-6%float
  else if Py.startswith phone_number "+44" then 0x1.999999999999ap-5%float
  else 0x1.999999999999ap-4%float.

(** [Call(...)] as the handler builds it: [new_id] is the uuid the default
    factory draws, [now] the clock the two timestamp factories read. *)
Definition new_sip_call (new_id : string) (now : Py.datetime)
    (request : SIPCallRequest) : Call.t :=
  {| Call.id := new_id;
     Call.project_id := request_project_id request;
     Call.campaign_id := request_campaign_id request;
     Call.contact_id := request_contact_id request;
     Call.ai_agent_id := Some (request_agent_id request);
     Call.room_name := None; Call.participant_id := None;
     Call.sip_call_id := None;
     Call.call_type := "outbound";
     Call.phone_number := request_phone_number request;
     Call.call_status := "initiating";
     Call.started_at := now; Call.answered_at := None;
     Call.ended_at := None; Call.duration_seconds := None;
     Call.recording_url := None; Call.transcript := None;
     Call.sentiment_score := None; Call.call_summary := None;
     Call.key_points := []; Call.action_items := [];
     Call.call_outcome := None; Call.created_at := now |}.

(** [message] is [str(e)]. *)
Definition initiation_failed (message : string) : Py.response :=
  Py.HTTPException 500 ("Failed to initiate SIP call: " +:+ message).

(** The [except Exception] handler once the call record exists. *)
Definition mark_initiation_failed (now : Py.datetime) (message : string)
    (call : Call.t) : Call.t :=
  let call := Call.set_call_status "failed" call in
  let call := Call.set_call_outcome (Some ("Initiation failed: " +:+ message)) call in
  Call.set_ended_at (Some now) call.

(** The result: the [Call] collection, the watchdogs queued on
    [background_tasks] (call id and room name), and the response model or
    the exception raised. [now] is the clock at the creation of the record,
    [now_failed] the clock in the exception handler. *)
Definition initiate_sip_call
    (projects : gmap string Project.t) (agents : gmap string AIAgent.t)
    (contacts : gmap string Contact.t) (api : gateway) (new_id : string)
    (now now_failed : Py.datetime) (request : SIPCallRequest)
    (calls : gmap string Call.t)
  : gmap string Call.t * list (string * string)
    * (SIPCallResponse + Py.response) :=
  let project_ok :=
    match projects !! request_project_id request with
    | Some project => Project.is_active project
    | None => false
    end in
  let agent_ok :=
    match agents !! request_agent_id request with
    | Some agent => AIAgent.is_active agent
    | None => false
    end in
  let contact_ok :=
    if Py.truthy_str (request_contact_id request)
    then bool_decide (is_Some (contacts !! default "" (request_contact_id request)))
    else true in
  if negb project_ok
  then (calls, [],
        inr (initiation_failed
               (Py.str_HTTPException 404 "Project not found or inactive")))
  else if negb agent_ok
  then (calls, [],
        inr (initiation_failed
               (Py.str_HTTPException 404 "Agent not found or inactive")))
  else if negb contact_ok
  then (calls, [],
        inr (initiation_failed (Py.str_HTTPException 404 "Contact not found")))
  else
    match livekit_api api with
    | Raises message => (calls, [], inr (initiation_failed message))
    | Returns _ =>
        let call := new_sip_call new_id now request in
        let calls := <[new_id := call]> calls in
        let room_name := "sip-call-" +:+ new_id in
        let failed message :=
          (<[new_id := mark_initiation_failed now_failed message call]> calls,
           [], inr (initiation_failed message)) in
        match create_room api with
        | Raises message => failed message
        | Returns _ =>
            match create_sip_participant api with
            | Raises message => failed message
            | Returns (sip_call_id, participant_identity) =>
                let call := Call.set_room_name (Some room_name) call in
                let call := Call.set_sip_call_id (Some sip_call_id) call in
                let call := Call.set_participant_id (Some participant_identity) call in
                let call := Call.set_call_status "ringing" call in
                (<[new_id := call]> calls,
                 [(new_id, room_name)],
                 inl {| response_call_id := new_id;
                        response_sip_call_id := sip_call_id;
                        response_room_name := room_name;
                        response_participant_identity := participant_identity;
                        response_status := "ringing";
                        response_estimated_cost :=
                          Some (calculate_call_cost
                                  (request_phone_number request)) |})
            end
        end
    end.

End SipIntegration.

(** ** src/api/routes/agent_management.py *)

Module AgentDeployment.

Record t := mk {
  agent_id : string;
  project_id : string;
  deployment_type : string;
  replicas : Z;
  auto_scale : bool;
  min_replicas : Z;
  max_replicas : Z;
  cpu_limit : option string;
  memory_limit : option string;
  environment_vars : option (gmap string string)
}.

(** [AgentDeployment(agent_id=.., project_id=.., replicas=..)] with the
    class's defaults for the other fields. *)
Definition with_defaults (agent_id project_id : string) (replicas : Z) : t :=
  {| agent_id := agent_id; project_id := project_id;
     deployment_type := "worker"; replicas := replicas;
     auto_scale := false; min_replicas := 1; max_replicas := 5;
     cpu_limit := None; memory_limit := None; environment_vars := None |}.

End AgentDeployment.

Module AgentInstance.

(** [resource_usage] is never assigned and is left out. *)
Record t := mk {
  instance_id : string;
  agent_id : string;
  project_id : string;
  deployment_type : string;
  status : string;
  started_at : Py.datetime;
  process_id : option Z;
  last_heartbeat : option Py.datetime
}.

Definition set_status (v : string) (i : t) : t :=
  {| instance_id := instance_id i; agent_id := agent_id i;
     project_id := project_id i; deployment_type := deployment_type i;
     status := v; started_at := started_at i;
     process_id := process_id i; last_heartbeat := last_heartbeat i |}.

Definition set_last_heartbeat (v : option Py.datetime) (i : t) : t :=
  {| instance_id := instance_id i; agent_id := agent_id i;
     project_id := project_id i; deployment_type := deployment_type i;
     status := status i; started_at := started_at i;
     process_id := process_id i; last_heartbeat := v |}.

End AgentInstance.

Module AgentManagement.

Import AgentInstance.

(** The module-level [agent_instances] dict. *)
Definition registry := PyDict.t AgentInstance.t.

(** *** The operating system, as the supervisor sees it *)

(** The outcome of [os.kill(pid, 0)] (and of [os.getpgid(pid)]): the
    process exists, [ProcessLookupError], or any other [OSError]. *)
Inductive probe := Alive | ProcessLookupError | OtherOSError.

Inductive signal := SIGTERM | SIGKILL.

(** *** [deploy_agent_instance]

    [popen] is the result of [subprocess.Popen]: the pid of the new
    process, or [None] when it raises. The two reads of the clock
    ([started_at], [last_heartbeat]) are taken at the same instant. *)
Definition deploy_agent_instance (popen : option Z) (now : Py.datetime)
    (instance_id : string) (deployment : AgentDeployment.t)
  : option AgentInstance.t :=
  match popen with
  | Some pid =>
      Some {| instance_id := instance_id;
              agent_id := AgentDeployment.agent_id deployment;
              project_id := AgentDeployment.project_id deployment;
              deployment_type := AgentDeployment.deployment_type deployment;
              status := "starting";
              started_at := now;
              process_id := Some pid;
              last_heartbeat := Some now |}
  | None => None
  end.

(** *** [update_instance_status] (the health poll)

    [os_kill pid] is what [os.kill(pid, 0)] does now. Signal 0 probes the
    process and delivers nothing. An [OSError] other than
    [ProcessLookupError] escapes the inner [try] before the heartbeat is
    written and lands in the outer [except Exception]. *)
Definition update_instance_status (os_kill : Z -> probe) (now : Py.datetime)
    (instance : AgentInstance.t) : AgentInstance.t :=
  if Py.truthy_int (process_id instance) then
    match os_kill (default 0 (process_id instance)) with
    | Alive =>
        let instance := set_last_heartbeat (Some now) instance in
        if String.eqb (status instance) "starting" then
          if Py.total_seconds_gt now (started_at instance) 30
          then set_status "running" instance
          else instance
        else instance
    | ProcessLookupError => set_status "stopped" instance
    | OtherOSError => set_status "error" instance
    end
  else
    if negb (Py.str_in (status instance) ["stopped"; "error"])
    then set_status "error" instance
    else instance.

(** *** [monitor_agent_instances]

    The body of the [for instance in instances] loop: the health poll at
    [now], then the stale-heartbeat check with the clock read again at
    [now_check]. *)
Definition monitor_instance (os_kill : Z -> probe) (now now_check : Py.datetime)
    (instance : AgentInstance.t) : AgentInstance.t :=
  let instance := update_instance_status os_kill now instance in
  match last_heartbeat instance with
  | Some heartbeat =>
      if Py.total_seconds_gt now_check heartbeat 300
      then set_status "error" instance
      else instance
  | None => instance
  end.

(** One iteration of the [while True] loop of [monitor_agent_instances],
    up to its [sleep(30)]; every instance is polled at [now] and checked at
    [now_check]. *)
Definition monitor_agent_instances (os_kill : Z -> probe) (now now_check : Py.datetime)
    (agent : string) (agent_instances : registry) : registry :=
  PyDict.mutate_where (fun inst => String.eqb (agent_id inst) agent)
    (monitor_instance os_kill now now_check) agent_instances.

(** *** [get_agent_instances] (listInstances) *)
Definition get_agent_instances (os_kill : Z -> probe) (now : Py.datetime)
    (agent : option string) (agent_instances : registry)
  : registry * list AgentInstance.t :=
  let sel inst :=
    if Py.truthy_str agent
    then String.eqb (agent_id inst) (default "" agent)
    else true in
  let agent_instances :=
    PyDict.mutate_where sel (update_instance_status os_kill now) agent_instances in
  (agent_instances, List.filter sel (PyDict.values agent_instances)).

(** *** [stop_agent_instance]

    The coroutine suspends twice ([sleep(5)], [sleep(10)]); other tasks
    run in between, so it is modelled by its three segments. Each segment
    acts on the registry entry of [instance_id] (instance ids are unique
    keys, so the entry is the object the coroutine holds) and reports the
    signals it sent to the instance's process group. *)
Inductive stop_next :=
| AwaitGrace      (* suspended in [sleep(5)], SIGKILL still to come *)
| AwaitEviction   (* suspended in [sleep(10)], [del] still to come *)
| Finished.       (* returned, or left through [except Exception] *)

(** Up to the first suspension: the membership test, [status = "stopping"]
    and the graceful signal. A process that is already gone
    ([ProcessLookupError]) skips the grace period. *)
Definition stop_begin (os_kill : Z -> probe) (id : string)
    (agent_instances : registry)
  : registry * list (Z * signal) * stop_next :=
  match PyDict.get id agent_instances with
  | None => (agent_instances, [], Finished)
  | Some instance =>
      let stopping := PyDict.mutate id (set_status "stopping") agent_instances in
      if Py.truthy_int (process_id instance) then
        let pid := default 0 (process_id instance) in
        match os_kill pid with
        | Alive => (stopping, [(pid, SIGTERM)], AwaitGrace)
        | ProcessLookupError =>
            (PyDict.mutate id (set_status "stopped") stopping, [], AwaitEviction)
        | OtherOSError => (stopping, [], Finished)
        end
      else (PyDict.mutate id (set_status "stopped") stopping, [], AwaitEviction)
  end.

(** After the grace period: the forced signal and [status = "stopped"]. *)
Definition stop_force (os_kill : Z -> probe) (pid : Z) (id : string)
    (agent_instances : registry)
  : registry * list (Z * signal) * stop_next :=
  match os_kill pid with
  | Alive =>
      (PyDict.mutate id (set_status "stopped") agent_instances,
       [(pid, SIGKILL)], AwaitEviction)
  | ProcessLookupError =>
      (PyDict.mutate id (set_status "stopped") agent_instances, [], AwaitEviction)
  | OtherOSError => (agent_instances, [], Finished)
  end.

(** After the retention delay: [if instance_id in agent_instances: del]. *)
Definition stop_evict (id : string) (agent_instances : registry) : registry :=
  if PyDict.mem id agent_instances then PyDict.del id agent_instances
  else agent_instances.

(** *** [scale_agent] *)

(** [int(datetime.utcnow().timestamp())], the zone of the host being UTC. *)
Definition int_timestamp (now : Py.datetime) : Z := Z.quot now Py.second.

(** [f"{agent_id}-scale-{ts}-{i}"]. *)
Definition scale_instance_id (agent : string) (ts i : Z) : string :=
  agent +:+ "-scale-" +:+ pretty ts +:+ "-" +:+ pretty i.

(** [inst.agent_id == agent_id and inst.status in ["starting", "running"]]. *)
Definition is_current (agent : string) (inst : AgentInstance.t) : bool :=
  String.eqb (agent_id inst) agent
  && Py.str_in (status inst) ["starting"; "running"].

(** [sorted(xs, key=lambda x: x.started_at)]: a stable sort, ascending. *)
Fixpoint insert_by_started_at (x : AgentInstance.t) (xs : list AgentInstance.t)
  : list AgentInstance.t :=
  match xs with
  | [] => [x]
  | y :: ys =>
      if started_at x <=? started_at y then x :: y :: ys
      else y :: insert_by_started_at x ys
  end.

Definition sorted_by_started_at (xs : list AgentInstance.t)
  : list AgentInstance.t :=
  fold_right insert_by_started_at [] xs.

(** The scale-up loop [for i in range(scale_up_count)], from index [i]
    with [n] iterations to go. [popen i] is the outcome of the [i]-th
    [Popen]. The result is the registry and whether the loop ran to its
    end; an exception leaves the instances deployed so far in place. *)
Fixpoint scale_up_loop (popen : Z -> option Z) (now : Py.datetime)
    (deployment : AgentDeployment.t) (agent : string) (i : Z) (n : nat)
    (agent_instances : registry) : registry * bool :=
  match n with
  | O => (agent_instances, true)
  | S n =>
      let instance_id := scale_instance_id agent (int_timestamp now) i in
      match deploy_agent_instance (popen i) now instance_id deployment with
      | None => (agent_instances, false)
      | Some instance =>
          scale_up_loop popen now deployment agent (i + 1) n
            (PyDict.set instance_id instance agent_instances)
      end
  end.

(** [sorted(current_instances, key=...)[:scale_down_count]]. *)
Definition instances_to_stop (current_instances : list AgentInstance.t)
    (scale_down_count : Z) : list AgentInstance.t :=
  firstn (Z.to_nat scale_down_count) (sorted_by_started_at current_instances).

Definition scaling_failed (detail : string) : Py.response :=
  Py.HTTPException 500 ("Scaling failed: " +:+ detail).

(** The result is the registry, the [stop_agent_instance] calls queued on
    [background_tasks] (they run after the handler has returned), and the
    response. Every exception raised in the body, the handler's own
    [HTTPException]s included, is re-raised as a 500 by the enclosing
    [except Exception], its detail [Scaling failed: ] followed by [str(e)].
    The text of the error a failed [Popen] raises is the operating
    system's; [Popen] stands for it. *)
Definition scale_agent (agents : gmap string AIAgent.t) (popen : Z -> option Z)
    (now : Py.datetime) (agent : string) (target_replicas : Z)
    (agent_instances : registry)
  : registry * list string * Py.response :=
  if target_replicas <? 0 then
    (agent_instances, [],
     scaling_failed (Py.str_HTTPException 400 "Target replicas must be >= 0"))
  else
    let current_instances :=
      List.filter (is_current agent) (PyDict.values agent_instances) in
    let current_count := Z.of_nat (length current_instances) in
    let ok action :=
      Py.Return [("agent_id", Py.JStr agent);
                 ("previous_replicas", Py.JInt current_count);
                 ("target_replicas", Py.JInt target_replicas);
                 ("action", Py.JStr action)] in
    if current_count <? target_replicas then
      let scale_up_count := target_replicas - current_count in
      match agents !! agent with
      | None =>
          (agent_instances, [],
           scaling_failed (Py.str_HTTPException 404 "Agent not found"))
      | Some a =>
          let deployment :=
            AgentDeployment.with_defaults agent (AIAgent.project_id a)
              scale_up_count in
          match scale_up_loop popen now deployment agent 0
                  (Z.to_nat scale_up_count) agent_instances with
          | (agent_instances, true) => (agent_instances, [], ok "scale_up")
          | (agent_instances, false) =>
              (agent_instances, [], scaling_failed "Popen")
          end
      end
    else if target_replicas <? current_count then
      let scale_down_count := current_count - target_replicas in
      (agent_instances,
       map instance_id (instances_to_stop current_instances scale_down_count),
       ok "scale_down")
    else (agent_instances, [], ok "no_change").

(** *** [deploy_agent] *)

(** [f"{deployment.agent_id}-{ts}-{i}"]. *)
Definition deploy_instance_id (agent : string) (ts i : Z) : string :=
  agent +:+ "-" +:+ pretty ts +:+ "-" +:+ pretty i.

(** The loop [for i in range(deployment.replicas)], from index [i] with [n]
    iterations to go; the result is the registry, the instances deployed
    and whether the loop ran to its end. *)
Fixpoint deploy_loop (popen : Z -> option Z) (now : Py.datetime)
    (deployment : AgentDeployment.t) (i : Z) (n : nat)
    (agent_instances : registry) (deployed : list AgentInstance.t)
  : registry * list AgentInstance.t * bool :=
  match n with
  | O => (agent_instances, deployed, true)
  | S n =>
      let instance_id :=
        deploy_instance_id (AgentDeployment.agent_id deployment)
          (int_timestamp now) i in
      match deploy_agent_instance (popen i) now instance_id deployment with
      | None => (agent_instances, deployed, false)
      | Some instance =>
          deploy_loop popen now deployment (i + 1) n
            (PyDict.set instance_id instance agent_instances)
            (deployed ++ [instance])
      end
  end.

(** The tasks [deploy_agent] queues on [background_tasks]. *)
Inductive background_task :=
| SetupAutoScaling (agent : string) (min_replicas max_replicas : Z)
| MonitorAgentInstances (agent : string).

Record deployment_report := {
  deployment_id : string;
  report_agent_id : string;
  instances_deployed : Z;
  instances : list (string * string * Py.datetime);
  auto_scale_enabled : bool
}.

(** [detail] is [str(e)]; [Popen] stands for the text of the operating
    system's error when a spawn fails. *)
Definition deployment_failed (detail : string) : Py.response :=
  Py.HTTPException 500 ("Deployment failed: " +:+ detail).

(** Every exception of the body, the handler's own 404 and 400 included,
    is re-raised as a 500; the instances deployed before a failed [Popen]
    stay in the registry. *)
Definition deploy_agent (agents : gmap string AIAgent.t)
    (projects : gmap string Project.t) (popen : Z -> option Z)
    (now : Py.datetime) (deployment : AgentDeployment.t)
    (agent_instances : registry)
  : registry * list background_task * (deployment_report + Py.response) :=
  let agent := AgentDeployment.agent_id deployment in
  let agent_ok :=
    match agents !! agent with
    | Some a => AIAgent.is_active a
    | None => false
    end in
  let project_ok :=
    match projects !! AgentDeployment.project_id deployment with
    | Some project => Project.is_active project
    | None => false
    end in
  if negb agent_ok
  then (agent_instances, [],
        inr (deployment_failed
               (Py.str_HTTPException 404 "Agent not found or inactive")))
  else if negb project_ok
  then (agent_instances, [],
        inr (deployment_failed
               (Py.str_HTTPException 404 "Project not found or inactive")))
  else
    let existing_instances :=
      List.filter (is_current agent) (PyDict.values agent_instances) in
    if negb (length existing_instances =? 0)%nat
       && negb (AgentDeployment.auto_scale deployment)
    then (agent_instances, [],
          inr (deployment_failed
                 (Py.str_HTTPException 400
                    ("Agent " +:+ agent
                     +:+ " is already deployed. Use scale endpoint to modify."))))
    else
      match deploy_loop popen now deployment 0
              (Z.to_nat (AgentDeployment.replicas deployment))
              agent_instances [] with
      | (agent_instances, _, false) =>
          (agent_instances, [], inr (deployment_failed "Popen"))
      | (agent_instances, deployed_instances, true) =>
          (agent_instances,
           (if AgentDeployment.auto_scale deployment
            then [SetupAutoScaling agent
                    (AgentDeployment.min_replicas deployment)
                    (AgentDeployment.max_replicas deployment)]
            else [])
           ++ [MonitorAgentInstances agent],
           inl {| deployment_id :=
                    "deploy-" +:+ agent +:+ "-" +:+ pretty (int_timestamp now);
                  report_agent_id := agent;
                  instances_deployed := Z.of_nat (length deployed_instances);
                  instances :=
                    map (fun inst => (instance_id inst, status inst,
                                      started_at inst)) deployed_instances;
                  auto_scale_enabled := AgentDeployment.auto_scale deployment |})
      end.

(** *** [setup_auto_scaling] *)

Module ScalingRule.

Record t := mk {
  agent_id : string;
  metric_type : string;
  threshold_up : float;
  threshold_down : float;
  scale_up_replicas : Z;
  scale_down_replicas : Z;
  cooldown_minutes : Z
}.

End ScalingRule.

(** One iteration of the [while True] loop, up to its [sleep(60)].
    [current_load] is [stats.current_load] as [get_agent_stats] reports it.
    The [BackgroundTasks()] handed to [scale_agent] is a fresh object that
    nothing ever runs, so the stops a scale-down queues are dropped. An
    exception out of [scale_agent] lands in the enclosing
    [except Exception], which ends the loop: the result says whether the
    loop goes on. *)
Definition auto_scale_iteration (agents : gmap string AIAgent.t)
    (popen : Z -> option Z) (now : Py.datetime)
    (scaling_rules : gmap string ScalingRule.t) (current_load : float)
    (agent : string) (min_replicas max_replicas : Z)
    (agent_instances : registry) : registry * bool :=
  match scaling_rules !! agent with
  | None => (agent_instances, true)
  | Some rule =>
      let current_instances :=
        Z.of_nat
          (length
             (List.filter
                (fun inst => String.eqb (AgentInstance.agent_id inst) agent
                             && String.eqb (status inst) "running")
                (PyDict.values agent_instances))) in
      let scale target :=
        match scale_agent agents popen now agent target agent_instances with
        | (agent_instances, _, Py.Return _) => (agent_instances, true)
        | (agent_instances, _, Py.HTTPException _ _) => (agent_instances, false)
        end in
      if String.eqb (ScalingRule.metric_type rule) "call_queue"
         && PrimFloat.ltb (ScalingRule.threshold_up rule) current_load
      then
        if current_instances <? max_replicas
        then scale (current_instances + ScalingRule.scale_up_replicas rule)
        else (agent_instances, true)
      else if String.eqb (ScalingRule.metric_type rule) "call_queue"
              && PrimFloat.ltb current_load (ScalingRule.threshold_down rule)
      then
        if min_replicas <? current_instances
        then scale (Z.max min_replicas
                      (current_instances - ScalingRule.scale_down_replicas rule))
        else (agent_instances, true)
      else (agent_instances, true)
  end.

(** *** [set_scaling_rule] *)

Record scaling_rule_report := {
  rule_agent_id : string;
  rule_set : bool;
  rule_metric_type : string;
  rule_scale_up : float;
  rule_scale_down : float
}.

(** The handler's own 404 for a missing agent leaves through
    [except Exception] as a 500. *)
Definition set_scaling_rule (agents : gmap string AIAgent.t) (agent : string)
    (rule : ScalingRule.t) (scaling_rules : gmap string ScalingRule.t)
  : gmap string ScalingRule.t * (scaling_rule_report + Py.response) :=
  match agents !! agent with
  | None =>
      (scaling_rules, inr (Py.HTTPException 500 "Failed to set scaling rule"))
  | Some _ =>
      let rule :=
        {| ScalingRule.agent_id := agent;
           ScalingRule.metric_type := ScalingRule.metric_type rule;
           ScalingRule.threshold_up := ScalingRule.threshold_up rule;
           ScalingRule.threshold_down := ScalingRule.threshold_down rule;
           ScalingRule.scale_up_replicas := ScalingRule.scale_up_replicas rule;
           ScalingRule.scale_down_replicas :=
             ScalingRule.scale_down_replicas rule;
           ScalingRule.cooldown_minutes := ScalingRule.cooldown_minutes rule |} in
      (<[agent := rule]> scaling_rules,
       inl {| rule_agent_id := agent; rule_set := true;
              rule_metric_type := ScalingRule.metric_type rule;
              rule_scale_up := ScalingRule.threshold_up rule;
              rule_scale_down := ScalingRule.threshold_down rule |})
  end.

(** *** [stop_agent_instance], run without interruption

    The three segments in sequence, with nothing else scheduled during the
    two sleeps: [os_kill] is the operating system at the graceful signal,
    [os_kill_later] after the grace period. The result is the registry and
    the signals sent, in order. *)
Definition stop_agent_instance (os_kill os_kill_later : Z -> probe)
    (id : string) (agent_instances : registry)
  : registry * list (Z * signal) :=
  let pid :=
    match PyDict.get id agent_instances with
    | Some instance => default 0 (process_id instance)
    | None => 0
    end in
  match stop_begin os_kill id agent_instances with
  | (registry, sent, Finished) => (registry, sent)
  | (registry, sent, AwaitEviction) => (stop_evict id registry, sent)
  | (registry, sent, AwaitGrace) =>
      match stop_force os_kill_later pid id registry with
      | (registry, sent_later, AwaitEviction) =>
          (stop_evict id registry, sent ++ sent_later)
      | (registry, sent_later, _) => (registry, sent ++ sent_later)
      end
  end.

End AgentManagement.

(** ** src/agent_worker.py *)

Module RoutingEntry.

(** The [AgentInstance] dataclass of [agent_worker.py] (the routing view). *)
Record t := mk {
  agent_id : string;
  project_id : string;
  room_name : string;
  participant_count : Z;
  started_at : Py.datetime;
  status : string
}.

End RoutingEntry.

Module AgentWorker.

(** [job_request.room], the room of the job as LiveKit sends it: its name
    and its metadata, a [str] field that holds the text the room was
    created with (the empty string when it was created without). *)
Record room := {
  name : string;
  metadata : string
}.

(** The metadata [initiate_outbound_call] gives the room of a call: the
    JSON text of an object with the agent, project and call ids. An unset
    [ai_agent_id] is formatted as [None]. *)
Definition room_metadata (call : Call.t) : string :=
  "{" +:+ Py.dquote +:+ "agent_id" +:+ Py.dquote +:+ ": "
  +:+ Py.dquote +:+ default "None" (Call.ai_agent_id call) +:+ Py.dquote
  +:+ ", " +:+ Py.dquote +:+ "project_id" +:+ Py.dquote +:+ ": "
  +:+ Py.dquote +:+ Call.project_id call +:+ Py.dquote
  +:+ ", " +:+ Py.dquote +:+ "call_id" +:+ Py.dquote +:+ ": "
  +:+ Py.dquote +:+ Call.id call +:+ Py.dquote +:+ "}".

(** What [metadata = job_request.room.metadata or {}] binds: the text of
    the metadata when it is not empty, the empty dict otherwise. *)
Inductive metadata_value :=
| Text (s : string)
| Dict (d : gmap string string).

Definition metadata_or_empty (metadata : string) : metadata_value :=
  if Py.truthy_str (Some metadata) then Text metadata else Dict ∅.

(** [metadata.get(key)]: the entry of a dict ([None] when there is none); a
    [str] has no [get], and the outer [None] is the [AttributeError] that
    asking for it raises. *)
Definition metadata_get (key : string) (metadata : metadata_value)
  : option (option string) :=
  match metadata with
  | Text _ => None
  | Dict d => Some (d !! key)
  end.

(** The state [route_job] acts on: the manager's [active_agents] and the
    [Call] collection. *)
Record state := {
  active_agents : gmap string RoutingEntry.t;
  calls : gmap string Call.t
}.

(** [update_call_status(call_id, status, room_name)]. *)
Definition update_call_status (call_id status : string)
    (room_name : option string) (calls : gmap string Call.t)
  : gmap string Call.t :=
  match calls !! call_id with
  | Some call =>
      let call := Call.set_call_status status call in
      let call :=
        if Py.truthy_str room_name then Call.set_room_name room_name call
        else call in
      <[call_id := call]> calls
  | None => calls
  end.

(** [route_job]: [agents] is the [AIAgent] collection, [now] the clock.
    The metadata is not decoded before it is asked for its entries; an
    exception raised by the three reads leaves through the enclosing
    [except Exception], which returns [False]. *)
Definition route_job (agents : gmap string AIAgent.t) (now : Py.datetime)
    (job_room : room) (st : state) : state * bool :=
  let room_name := name job_room in
  let metadata := metadata_or_empty (metadata job_room) in
  match metadata_get "agent_id" metadata,
        metadata_get "project_id" metadata,
        metadata_get "call_id" metadata with
  | Some agent_id, Some project_id, Some call_id =>
      if Py.truthy_str agent_id then
        let agent_id := default "" agent_id in
        match agents !! agent_id with
        | None => (st, false)
        | Some agent_config =>
            if negb (AIAgent.is_active agent_config) then (st, false)
            else
              let calls :=
                if Py.truthy_str call_id
                then update_call_status (default "" call_id) "agent_assigned"
                       (Some room_name) (calls st)
                else calls st in
              let entry :=
                {| RoutingEntry.agent_id := agent_id;
                   RoutingEntry.project_id :=
                     if Py.truthy_str project_id then default "" project_id
                     else AIAgent.project_id agent_config;
                   RoutingEntry.room_name := room_name;
                   RoutingEntry.participant_count := 0;
                   RoutingEntry.started_at := now;
                   RoutingEntry.status := "active" |} in
              ({| active_agents := <[room_name := entry]> (active_agents st);
                  calls := calls |}, true)
        end
      else (st, true)
  | _, _, _ => (st, false)
  end.

(** [cleanup_agent_instance]: the entry is marked [stopping], every
    answered call bound to the room is completed (with its duration when
    [answered_at] is set), and the entry is deleted. *)
Definition complete_answered (now : Py.datetime) (room_name : string)
    (call : Call.t) : Call.t :=
  if bool_decide (Call.room_name call = Some room_name)
     && String.eqb (Call.call_status call) "answered"
  then
    let call := Call.set_call_status "completed" call in
    let call := Call.set_ended_at (Some now) call in
    match Call.answered_at call with
    | Some answered =>
        Call.set_duration_seconds (Some (Py.int_total_seconds now answered)) call
    | None => call
    end
  else call.

Definition cleanup_agent_instance (now : Py.datetime) (room_name : string)
    (st : state) : state :=
  match active_agents st !! room_name with
  | None => st
  | Some _ =>
      {| active_agents := delete room_name (active_agents st);
         calls := complete_answered now room_name <$> calls st |}
  end.

Definition add_participants (n : Z) (entry : RoutingEntry.t) : RoutingEntry.t :=
  {| RoutingEntry.agent_id := RoutingEntry.agent_id entry;
     RoutingEntry.project_id := RoutingEntry.project_id entry;
     RoutingEntry.room_name := RoutingEntry.room_name entry;
     RoutingEntry.participant_count := RoutingEntry.participant_count entry + n;
     RoutingEntry.started_at := RoutingEntry.started_at entry;
     RoutingEntry.status := RoutingEntry.status entry |}.

(** [handle_room_event]: the count goes up on [participant_joined], down on
    [participant_left], and a count of at most 1 after a departure triggers
    the cleanup. *)
Definition handle_room_event (now : Py.datetime) (room_name event_type : string)
    (st : state) : state :=
  match active_agents st !! room_name with
  | None => st
  | Some agent_instance =>
      if String.eqb event_type "participant_joined" then
        {| active_agents :=
             <[room_name := add_participants 1 agent_instance]> (active_agents st);
           calls := calls st |}
      else if String.eqb event_type "participant_left" then
        let agent_instance := add_participants (-1) agent_instance in
        let st :=
          {| active_agents := <[room_name := agent_instance]> (active_agents st);
             calls := calls st |} in
        if RoutingEntry.participant_count agent_instance <=? 1
        then cleanup_agent_instance now room_name st
        else st
      else st
  end.

End AgentWorker.

(** ** Concrete documents used to exercise the operations *)

Module Sample.

(** An outbound call, ringing in room [room-1]. *)
Definition ringing_call : Call.t :=
  {| Call.id := "c1"; Call.project_id := "p1"; Call.campaign_id := None;
     Call.contact_id := None; Call.ai_agent_id := Some "a1";
     Call.room_name := Some "room-1"; Call.participant_id := None;
     Call.sip_call_id := None; Call.call_type := "outbound";
     Call.phone_number := "+15550100"; Call.call_status := "ringing";
     Call.started_at := 1000 * Py.second; Call.answered_at := None;
     Call.ended_at := None; Call.duration_seconds := None;
     Call.recording_url := None; Call.transcript := None;
     Call.sentiment_score := None; Call.call_summary := None;
     Call.key_points := []; Call.action_items := [];
     Call.call_outcome := None; Call.created_at := 1000 * Py.second |}.

Definition ringing_store : gmap string Call.t := {[ "c1" := ringing_call ]}.

(** The same call, answered at second 1010. *)
Definition answered_store : gmap string Call.t :=
  fst (Calls.answer_call (1010 * Py.second) "c1" ringing_store).

(** ... and ended 42.5 seconds later with outcome [resolved]. *)
Definition completed_store : gmap string Call.t :=
  fst (Calls.end_call (1010 * Py.second + 42500000) "c1" (Some "resolved")
         answered_store).

Definition answered_call : Call.t :=
  Call.set_answered_at (Some (1010 * Py.second))
    (Call.set_call_status "answered" ringing_call).

Definition completed_call : Call.t :=
  Calls.end_call_update (1010 * Py.second + 42500000) (Some "resolved")
    answered_call.

(** Two agents of project [p1]: [a1] active, [a2] switched off. *)
Definition agents : gmap string AIAgent.t :=
  {[ "a1" := AIAgent.mk "a1" "p1" "Ada" "Be brief." true;
     "a2" := AIAgent.mk "a2" "p1" "Bob" "Be brief." false ]}.

(** The job for the room of [call], named and described as
    [initiate_outbound_call] creates it. *)
Definition job_for (call : Call.t) : AgentWorker.room :=
  {| AgentWorker.name := "call-" +:+ Call.id call;
     AgentWorker.metadata := AgentWorker.room_metadata call |}.

Definition router_state : AgentWorker.state :=
  {| AgentWorker.active_agents := ∅; AgentWorker.calls := ringing_store |}.

(** An instance of agent [a1], started at second [started] with process
    [pid], in status [status] and last seen alive at second [heartbeat]. *)
Definition instance (id status : string) (started pid heartbeat : Z)
  : AgentInstance.t :=
  {| AgentInstance.instance_id := id; AgentInstance.agent_id := "a1";
     AgentInstance.project_id := "p1";
     AgentInstance.deployment_type := "worker";
     AgentInstance.status := status;
     AgentInstance.started_at := started * Py.second;
     AgentInstance.process_id := Some pid;
     AgentInstance.last_heartbeat := Some (heartbeat * Py.second) |}.

(** A registry with three running instances of [a1], registered in the
    order of their ids; [a1-1020-0] is the oldest. *)
Definition three_running : AgentManagement.registry :=
  [("a1-1040-0", instance "a1-1040-0" "running" 1040 4301 1100);
   ("a1-1020-0", instance "a1-1020-0" "running" 1020 4302 1100);
   ("a1-1060-0", instance "a1-1060-0" "starting" 1060 4303 1100)].

Definition projects : gmap string Project.t :=
  {[ "p1" := Project.mk "p1" "Support" true ]}.

Definition contacts : gmap string Contact.t :=
  {[ "k1" := Contact.mk "k1" "Carol" ]}.

(** A request to call Carol with agent [a1]. *)
Definition sip_request : SipIntegration.SIPCallRequest :=
  {| SipIntegration.request_project_id := "p1";
     SipIntegration.request_agent_id := "a1";
     SipIntegration.request_phone_number := "+15550100";
     SipIntegration.request_contact_id := Some "k1";
     SipIntegration.request_campaign_id := None |}.

(** A gateway that accepts everything and reports the customer of call
    [c7] under the identity the handler asked for. *)
Definition gateway_ok : SipIntegration.gateway :=
  {| SipIntegration.livekit_api := SipIntegration.Returns ();
     SipIntegration.create_room := SipIntegration.Returns ();
     SipIntegration.create_sip_participant :=
       SipIntegration.Returns ("SCL_1", "customer-c7") |}.

Definition initiated :=
  SipIntegration.initiate_sip_call projects agents contacts gateway_ok "c7"
    (1000 * Py.second) (1001 * Py.second) sip_request ringing_store.

(** Room [call-c1] routed to agent [a1] with one participant counted, and
    call [c1] answered in that room. *)
Definition routed_state : AgentWorker.state :=
  {| AgentWorker.active_agents :=
       {[ "call-c1" :=
            RoutingEntry.mk "a1" "p1" "call-c1" 1 (1001 * Py.second) "active" ]};
     AgentWorker.calls :=
       {[ "c1" := Call.set_room_name (Some "call-c1") answered_call ]} |}.

End Sample.

(** ** The supervisor's operations on one instance *)




(** The status moves the code makes: none, the promotion of a starting
    instance, or an assignment of [stopping], [stopped] or [error]. *)
Definition status_move (before after : string) : Prop :=
  after = before
  \/ (before = "starting" /\ after = "running")
  \/ after = "stopping" \/ after = "stopped" \/ after = "error".

(** ** The registry, as [scale] and [listInstances] see it *)

(** The instances of [agent] counted by [scale_agent]. *)
Definition current_instances (agent : string)
    (agent_instances : AgentManagement.registry) : list AgentInstance.t :=
  List.filter (AgentManagement.is_current agent) (PyDict.values agent_instances).

(** [listInstances(agent)] restricted to {starting, running}. *)
Definition listed_active (os_kill : Z -> AgentManagement.probe)
    (now : Py.datetime) (agent : string)
    (agent_instances : AgentManagement.registry) : list AgentInstance.t :=
  List.filter
    (fun inst => Py.str_in (AgentInstance.status inst) ["starting"; "running"])
    (snd (AgentManagement.get_agent_instances os_kill now (Some agent)
            agent_instances)).

(** The processes of the counted instances of [agent] are running. *)
Definition all_live (os_kill : Z -> AgentManagement.probe) (agent : string)
    (agent_instances : AgentManagement.registry) : Prop :=
  forall inst,
    In inst (PyDict.values agent_instances) ->
    AgentManagement.is_current agent inst = true ->
    Py.truthy_int (AgentInstance.process_id inst) = true
    /\ os_kill (default 0 (AgentInstance.process_id inst)) = AgentManagement.Alive.

(** The registry is a dict (no key twice) and every instance is stored
    under its [instance_id], as [deploy_agent] and [scale_agent] store it. *)
Definition registry_wf (agent_instances : AgentManagement.registry) : Prop :=
  NoDup (PyDict.keys agent_instances)
  /\ Forall (fun kv => fst kv = AgentInstance.instance_id (snd kv))
       agent_instances.

(** The queued [stop_agent_instance] tasks, each run up to its first
    suspension, in the order they were queued. *)
Definition run_stop_begin (os_kill : Z -> AgentManagement.probe)
    (tasks : list string) (agent_instances : AgentManagement.registry)
  : AgentManagement.registry :=
  fold_left
    (fun registry id => fst (fst (AgentManagement.stop_begin os_kill id registry)))
    tasks agent_instances.

(** ** The watchdog's schedule *)

(** The instants, in seconds slept, at which a watchdog that runs to its
    timeout reads the store inside its loop: 0, 5, ..., 55. *)
Definition poll_schedule : list Z := map (fun j => 5 * Z.of_nat j) (seq 0 12).

(** The watchdog's loop leaves at a read that finds no call, or a call that
    is answered, failed or completed. *)
Definition loop_breaks (db_at : Z -> gmap string Call.t) (call_id : string)
    (t : Z) : bool :=
  match db_at t !! call_id with
  | None => true
  | Some call =>
      Py.str_in (Call.call_status call) ["answered"; "failed"; "completed"]
  end.

(** The order [sorted] puts the instances in. *)
Definition started_le (x y : AgentInstance.t) : Prop :=
  AgentInstance.started_at x <= AgentInstance.started_at y.

(** ** Call ids in room names *)

(** No character of the string is the letter [s]; true of every uuid, whose
    characters are hexadecimal digits and dashes. *)
Fixpoint no_letter_s (id : string) : bool :=
  match id with
  | EmptyString => true
  | String c rest => negb (Ascii.eqb c "s"%char) && no_letter_s rest
  end.

(** What reaches the manager of a worker: a job to route, or an event of a
    room. *)
Inductive worker_op :=
| RouteJob (now : Py.datetime) (job_room : AgentWorker.room)
| RoomEvent (now : Py.datetime) (room_name event_type : string).

Definition apply_worker_op (agents : gmap string AIAgent.t) (op : worker_op)
    (st : AgentWorker.state) : AgentWorker.state :=
  match op with
  | RouteJob now job_room => fst (AgentWorker.route_job agents now job_room st)
  | RoomEvent now room_name event_type =>
      AgentWorker.handle_room_event now room_name event_type st
  end.

Definition run_worker (agents : gmap string AIAgent.t) (ops : list worker_op)
    (st : AgentWorker.state) : AgentWorker.state :=
  fold_left (fun st op => apply_worker_op agents op st) ops st.

(** * Properties *)

(** ** Shared facts *)

Lemma str_in_cons (x y : string) (ys : list string) :
  Py.str_in x (y :: ys) = String.eqb x y || Py.str_in x ys.
Proof. reflexivity. Qed.

Lemma int_total_seconds_floor (ended answered : Py.datetime) :
  answered <= ended ->
  Py.int_total_seconds ended answered = (ended - answered) / Py.second.
Proof.
  intros Hle. unfold Py.int_total_seconds.
  apply Z.quot_div_nonneg; [lia | reflexivity].
Qed.

(** ** The call state machine ([calls.py]) *)

Lemma end_call_update_status now outcome call :
  Call.call_status (Calls.end_call_update now outcome call) = "completed".
Proof.
  unfold Calls.end_call_update. destruct call; simpl.
  destruct answered_at, (Py.truthy_str outcome); reflexivity.
Qed.

Lemma end_call_update_ended_at now outcome call :
  Call.ended_at (Calls.end_call_update now outcome call) = Some now.
Proof.
  unfold Calls.end_call_update. destruct call; simpl.
  destruct answered_at, (Py.truthy_str outcome); reflexivity.
Qed.

Lemma end_call_update_duration now outcome call :
  Call.duration_seconds (Calls.end_call_update now outcome call)
  = match Call.answered_at call with
    | Some answered => Some (Py.int_total_seconds now answered)
    | None => Call.duration_seconds call
    end.
Proof.
  unfold Calls.end_call_update. destruct call; simpl.
  destruct answered_at, (Py.truthy_str outcome); reflexivity.
Qed.

Section StoredCall.

Variable now : Py.datetime.
Variable call_id : string.
Variable calls : gmap string Call.t.
Variable call : Call.t.
Hypothesis stored : calls !! call_id = Some call.

Lemma end_call_saved (outcome : option string) :
  fst (Calls.end_call now call_id outcome calls) !! call_id
  = Some (Calls.end_call_update now outcome call).
Proof.
  unfold Calls.end_call. rewrite stored. simpl.
  apply lookup_insert_eq.
Qed.

Lemma end_call_response (outcome : option string) :
  snd (Calls.end_call now call_id outcome calls)
  = Py.Return
      [("message", Py.JStr "Call ended"); ("call_id", Py.JStr call_id);
       ("duration",
        Py.json_of_opt_int
          (Call.duration_seconds (Calls.end_call_update now outcome call)))].
Proof. unfold Calls.end_call. rewrite stored. reflexivity. Qed.

End StoredCall.

(** C5. After [answer()] has set [answered_at], a later [end()] stores the
    call with status [completed], [ended_at] the time of the call to
    [end()], and [duration_seconds] the floor of the elapsed time
    [ended_at - answered_at] in whole seconds. *)
Theorem end_after_answer_duration
    (now : Py.datetime) (call_id : string) (outcome : option string)
    (calls : gmap string Call.t) (call : Call.t) (answered : Py.datetime) :
  calls !! call_id = Some call ->
  Call.answered_at call = Some answered ->
  answered <= now ->
  exists call',
    fst (Calls.end_call now call_id outcome calls) !! call_id = Some call'
    /\ Call.call_status call' = "completed"
    /\ Call.ended_at call' = Some now
    /\ Call.duration_seconds call' = Some ((now - answered) / Py.second).
Proof.
  intros Hstored Hanswered Hle.
  exists (Calls.end_call_update now outcome call).
  split; [now apply end_call_saved |].
  split; [apply end_call_update_status |].
  split; [apply end_call_update_ended_at |].
  rewrite end_call_update_duration, Hanswered.
  f_equal. now apply int_total_seconds_floor.
Qed.

Lemma end_after_answer_duration_witness :
  exists call',
    fst (Calls.end_call (1010 * Py.second + 42500000) "c1" (Some "resolved")
           Sample.answered_store) !! "c1" = Some call'
    /\ Call.call_status call' = "completed"
    /\ Call.ended_at call' = Some (1010 * Py.second + 42500000)
    /\ Call.duration_seconds call' = Some 42.
Proof.
  apply (end_after_answer_duration (1010 * Py.second + 42500000) "c1"
           (Some "resolved") Sample.answered_store Sample.answered_call
           (1010 * Py.second)).
  - reflexivity.
  - reflexivity.
  - vm_compute. discriminate.
Defined.

(** C10. [end()] on a call whose [answered_at] is unset stores it with
    status [completed] and [ended_at] set; [duration_seconds] keeps the value
    it had (so it stays [None] when it was unset: nothing is computed from
    [started_at] and nothing defaults to 0), the outcome is replaced only by
    a non-empty [call_outcome], and every other field is as before. *)
Theorem end_unanswered_frame
    (now : Py.datetime) (call_id : string) (outcome : option string)
    (calls : gmap string Call.t) (call : Call.t) :
  calls !! call_id = Some call ->
  Call.answered_at call = None ->
  exists call',
    fst (Calls.end_call now call_id outcome calls) !! call_id = Some call'
    /\ call' =
       {| Call.id := Call.id call;
          Call.project_id := Call.project_id call;
          Call.campaign_id := Call.campaign_id call;
          Call.contact_id := Call.contact_id call;
          Call.ai_agent_id := Call.ai_agent_id call;
          Call.room_name := Call.room_name call;
          Call.participant_id := Call.participant_id call;
          Call.sip_call_id := Call.sip_call_id call;
          Call.call_type := Call.call_type call;
          Call.phone_number := Call.phone_number call;
          Call.call_status := "completed";
          Call.started_at := Call.started_at call;
          Call.answered_at := None;
          Call.ended_at := Some now;
          Call.duration_seconds := Call.duration_seconds call;
          Call.recording_url := Call.recording_url call;
          Call.transcript := Call.transcript call;
          Call.sentiment_score := Call.sentiment_score call;
          Call.call_summary := Call.call_summary call;
          Call.key_points := Call.key_points call;
          Call.action_items := Call.action_items call;
          Call.call_outcome :=
            if Py.truthy_str outcome then outcome else Call.call_outcome call;
          Call.created_at := Call.created_at call |}
    /\ (Call.duration_seconds call = None -> Call.duration_seconds call' = None).
Proof.
  intros Hstored Hunanswered.
  exists (Calls.end_call_update now outcome call).
  split; [now apply end_call_saved |].
  split.
  - unfold Calls.end_call_update. destruct call; simpl in *.
    subst answered_at. destruct (Py.truthy_str outcome); reflexivity.
  - intros Hnone. now rewrite end_call_update_duration, Hunanswered.
Qed.

Lemma end_unanswered_frame_witness :
  exists call',
    fst (Calls.end_call (1060 * Py.second) "c1" None Sample.ringing_store)
      !! "c1" = Some call'
    /\ call' =
       Call.set_ended_at (Some (1060 * Py.second))
         (Call.set_call_status "completed" Sample.ringing_call)
    /\ (Call.duration_seconds Sample.ringing_call = None ->
        Call.duration_seconds call' = None).
Proof.
  apply (end_unanswered_frame (1060 * Py.second) "c1" None
           Sample.ringing_store Sample.ringing_call); reflexivity.
Defined.

(** ** The webhook participant handlers ([sip_integration.py]) *)

(** C9. [participant_joined] marks the call answered (with [answered_at])
    and [participant_left] marks it completed (with [ended_at], and the
    duration when [answered_at] is set) exactly when the participant's
    identity starts with [customer-]; for any other identity both handlers
    give back the call record unchanged. *)
Theorem participant_handlers_customer_prefix
    (now : Py.datetime) (call : Call.t) (participant : gmap string string) :
  (Py.startswith (SipIntegration.identity participant) "customer-" = true ->
     SipIntegration.handle_participant_joined now call participant
       = Call.set_answered_at (Some now) (Call.set_call_status "answered" call)
     /\ let left := SipIntegration.handle_participant_left now call participant in
        Call.call_status left = "completed"
        /\ Call.ended_at left = Some now
        /\ Call.duration_seconds left
           = match Call.answered_at call with
             | Some answered => Some (Py.int_total_seconds now answered)
             | None => Call.duration_seconds call
             end)
  /\
  (Py.startswith (SipIntegration.identity participant) "customer-" = false ->
     SipIntegration.handle_participant_joined now call participant = call
     /\ SipIntegration.handle_participant_left now call participant = call).
Proof.
  unfold SipIntegration.handle_participant_joined,
    SipIntegration.handle_participant_left.
  split; intros Hprefix; rewrite Hprefix.
  - split; [reflexivity |].
    destruct call; simpl. destruct answered_at; simpl; repeat split.
  - split; reflexivity.
Qed.

Lemma participant_handlers_customer_prefix_witness :
  (let joined :=
     SipIntegration.handle_participant_joined (1010 * Py.second)
       Sample.ringing_call {[ "identity" := "customer-c1" ]} in
   Call.call_status joined = "answered"
   /\ Call.answered_at joined = Some (1010 * Py.second))
  /\ SipIntegration.handle_participant_left (1010 * Py.second)
       Sample.answered_call {[ "identity" := "agent-7" ]}
     = Sample.answered_call.
Proof.
  split.
  - pose proof (participant_handlers_customer_prefix (1010 * Py.second)
                  Sample.ringing_call {[ "identity" := "customer-c1" ]}) as [H _].
    destruct (H eq_refl) as [Hjoined _].
    cbv zeta. rewrite Hjoined. split; reflexivity.
  - pose proof (participant_handlers_customer_prefix (1010 * Py.second)
                  Sample.answered_call {[ "identity" := "agent-7" ]}) as [_ H].
    exact (proj2 (H eq_refl)).
Defined.

(** ** The no-answer watchdog ([sip_integration.py]) *)

Section Watchdog.

Variable db_at : Z -> gmap string Call.t.
Variable call_id : string.

Lemma wait_loop_step fuel w polls :
  SipIntegration.wait_loop (S fuel) db_at call_id w polls
  = if w <? SipIntegration.max_wait then
      if loop_breaks db_at call_id w then Some (w, polls ++ [w])
      else SipIntegration.wait_loop fuel db_at call_id (w + 5) (polls ++ [w])
    else Some (w, polls).
Proof.
  unfold loop_breaks. simpl.
  destruct (w <? SipIntegration.max_wait); [| reflexivity].
  destruct (db_at w !! call_id) as [call |]; reflexivity.
Qed.

(** From the [k]-th read on, with [n] reads to go before the timeout, a
    loop with fuel left for them stops at the first read [k'] that breaks,
    or runs through all of them and leaves with [wait_time = 60]. *)
Lemma wait_loop_spec n : forall k fuel polls,
  (k + n = 12)%nat -> (n < fuel)%nat ->
  exists k', (k <= k' <= 12)%nat
    /\ (forall j, (k <= j < k')%nat -> loop_breaks db_at call_id (5 * Z.of_nat j) = false)
    /\ ((k' = 12%nat
         /\ SipIntegration.wait_loop fuel db_at call_id (5 * Z.of_nat k) polls
            = Some (60, polls ++ map (fun j => 5 * Z.of_nat j) (seq k n)))
        \/ ((k' < 12)%nat
            /\ loop_breaks db_at call_id (5 * Z.of_nat k') = true
            /\ SipIntegration.wait_loop fuel db_at call_id (5 * Z.of_nat k) polls
               = Some (5 * Z.of_nat k',
                       polls ++ map (fun j => 5 * Z.of_nat j)
                                  (seq k (S (k' - k)))))).
Proof.
  induction n as [| n IH]; intros k fuel polls Hk Hfuel.
  - exists k. split; [lia |]. split; [intros j Hj; lia |]. left.
    split; [lia |].
    destruct fuel as [| fuel]; [lia |]. rewrite wait_loop_step.
    replace (5 * Z.of_nat k) with 60 by lia. simpl.
    now rewrite app_nil_r.
  - destruct fuel as [| fuel]; [lia |]. rewrite wait_loop_step.
    assert (Hlt : (5 * Z.of_nat k <? SipIntegration.max_wait) = true).
    { apply Z.ltb_lt. unfold SipIntegration.max_wait. lia. }
    rewrite Hlt.
    destruct (loop_breaks db_at call_id (5 * Z.of_nat k)) eqn:Hbreak.
    + exists k. split; [lia |]. split; [intros j Hj; lia |]. right.
      split; [lia |]. split; [exact Hbreak |].
      now replace (k - k)%nat with 0%nat by lia.
    + destruct (IH (S k) fuel (polls ++ [5 * Z.of_nat k])) as
        (k' & Hrange & Hbefore & Hres); [lia | lia |].
      exists k'. split; [lia |]. split.
      * intros j Hj. destruct (decide (j = k)) as [-> | Hne];
          [exact Hbreak | apply Hbefore; lia].
      * replace (5 * Z.of_nat k + 5) with (5 * Z.of_nat (S k)) by lia.
        destruct Hres as [[Hk' Hres] | (Hk' & Hbreak' & Hres)].
        -- left. split; [exact Hk' |]. rewrite Hres.
           now rewrite <- app_assoc.
        -- right. split; [exact Hk' |]. split; [exact Hbreak' |].
           rewrite Hres, <- app_assoc.
           replace (S (k' - k)) with (S (S (k' - S k))) by lia.
           reflexivity.
Qed.

End Watchdog.

Lemma firstn_seq_le (start n len : nat) :
  (n <= len)%nat -> firstn n (seq start len) = seq start n.
Proof.
  intros Hle. replace len with (n + (len - n))%nat by lia.
  rewrite seq_app, firstn_app, length_seq, Nat.sub_diag. simpl.
  rewrite app_nil_r. apply firstn_all2. rewrite length_seq. lia.
Qed.

Lemma in_poll_schedule (t : Z) :
  In t poll_schedule <-> exists j, (j < 12)%nat /\ t = 5 * Z.of_nat j.
Proof.
  unfold poll_schedule. rewrite in_map_iff. split.
  - intros (j & <- & Hj). apply in_seq in Hj. exists j. split; [lia | reflexivity].
  - intros (j & Hj & ->). exists j. split; [reflexivity | apply in_seq; lia].
Qed.

(** A run of the watchdog, for any history of the store: it returns, and
    either it read the store at every instant of the schedule without
    leaving the loop and made its final check at 60 seconds, or it left the
    loop at the first read that breaks and wrote nothing. *)
Lemma monitor_sip_call_run
    (db_at : Z -> gmap string Call.t) (now : Py.datetime) (call_id : string)
    (extra : nat) :
  exists r,
    SipIntegration.monitor_sip_call (13 + extra) db_at now call_id = Some r
    /\ ((SipIntegration.poll_times r = poll_schedule
         /\ SipIntegration.final_wait_time r = 60
         /\ (forall t, In t poll_schedule -> loop_breaks db_at call_id t = false)
         /\ SipIntegration.final_store r
            = match db_at 60 !! call_id with
              | Some call =>
                  if String.eqb (Call.call_status call) "ringing"
                  then <[call_id := SipIntegration.mark_no_answer now call]>
                         (db_at 60)
                  else db_at 60
              | None => db_at 60
              end)
        \/ (exists k, (k < 12)%nat
              /\ SipIntegration.poll_times r = firstn (S k) poll_schedule
              /\ SipIntegration.final_wait_time r = 5 * Z.of_nat k
              /\ loop_breaks db_at call_id (5 * Z.of_nat k) = true
              /\ (forall j, (j < k)%nat ->
                    loop_breaks db_at call_id (5 * Z.of_nat j) = false)
              /\ SipIntegration.final_store r = db_at (5 * Z.of_nat k))).
Proof.
  destruct (wait_loop_spec db_at call_id 12 0 (13 + extra) [])
    as (k' & Hrange & Hbefore & Hres); [reflexivity | lia |].
  unfold SipIntegration.monitor_sip_call. change (5 * Z.of_nat 0) with 0 in Hres.
  destruct Hres as [[Hk' Hres] | (Hk' & Hbreak & Hres)]; rewrite Hres; clear Hres.
  - eexists. split; [reflexivity |]. left.
    split; [reflexivity |]. split; [reflexivity |]. split; [| reflexivity].
    intros t Ht. apply in_poll_schedule in Ht as (j & Hj & ->).
    apply Hbefore. lia.
  - eexists. split; [reflexivity |]. right. exists k'.
    split; [exact Hk' |]. cbn [SipIntegration.poll_times
      SipIntegration.final_wait_time SipIntegration.final_store].
    split.
    { unfold poll_schedule.
      rewrite firstn_map, firstn_seq_le, app_nil_l by lia.
      now replace (k' - 0)%nat with k' by lia. }
    split; [reflexivity |]. split; [exact Hbreak |].
    split; [intros j Hj; apply Hbefore; lia |].
    assert (Hearly : (SipIntegration.max_wait <=? 5 * Z.of_nat k') = false).
    { apply Z.leb_gt. unfold SipIntegration.max_wait. lia. }
    now rewrite Hearly.
Qed.



(** ** Transitions on a terminal call *)

Lemma terminal_not_ringing (call : Call.t) :
  Call.is_terminal call = true -> Call.call_status call <> "ringing".
Proof.
  unfold Call.is_terminal, Call.terminal_statuses. intros Hterminal Hringing.
  rewrite Hringing in Hterminal. discriminate.
Qed.

(** C1, as the code has it. On a stored call in a terminal status only the
    watchdog (markNoAnswer) leaves the record as it is, and it reports
    nothing. [start], [answer], [end] and [fail] test no status: each
    reports success and stores the call with status [ringing], [answered],
    [completed], [failed] and its timestamp set anew; [end] recomputes the
    duration when [answered_at] is set. *)
Theorem terminal_call_transitions
    (now : Py.datetime) (call_id : string) (calls : gmap string Call.t)
    (call : Call.t) :
  calls !! call_id = Some call ->
  Call.is_terminal call = true ->
  (exists r,
     SipIntegration.monitor_sip_call 13 (fun _ => calls) now call_id = Some r
     /\ SipIntegration.final_store r = calls)
  /\ (forall room participant,
        Calls.start_call now call_id room participant calls
        = (<[call_id :=
               Call.set_started_at now
                 (Call.set_participant_id participant
                    (Call.set_room_name (Some room)
                       (Call.set_call_status "ringing" call)))]> calls,
           Py.Return [("message", Py.JStr "Call started");
                      ("call_id", Py.JStr call_id);
                      ("room_name", Py.JStr room)]))
  /\ Calls.answer_call now call_id calls
     = (<[call_id :=
            Call.set_answered_at (Some now)
              (Call.set_call_status "answered" call)]> calls,
        Py.Return [("message", Py.JStr "Call answered");
                   ("call_id", Py.JStr call_id)])
  /\ (forall outcome,
        exists call',
          Calls.end_call now call_id outcome calls
          = (<[call_id := call']> calls,
             Py.Return [("message", Py.JStr "Call ended");
                        ("call_id", Py.JStr call_id);
                        ("duration",
                         Py.json_of_opt_int (Call.duration_seconds call'))])
          /\ Call.call_status call' = "completed"
          /\ Call.ended_at call' = Some now
          /\ Call.duration_seconds call'
             = match Call.answered_at call with
               | Some answered => Some (Py.int_total_seconds now answered)
               | None => Call.duration_seconds call
               end)
  /\ (forall reason,
        exists call',
          Calls.fail_call now call_id reason calls
          = (<[call_id := call']> calls,
             Py.Return [("message", Py.JStr "Call marked as failed");
                        ("call_id", Py.JStr call_id)])
          /\ Call.call_status call' = "failed"
          /\ Call.ended_at call' = Some now).
Proof.
  intros Hstored Hterminal. repeat apply conj.
  - pose proof (terminal_not_ringing call Hterminal) as Hstatus.
    apply String.eqb_neq in Hstatus.
    destruct (monitor_sip_call_run (fun _ => calls) now call_id 0)
      as (r & Hrun & [(_ & _ & _ & Hstore) | (k & _ & _ & _ & _ & _ & Hstore)]);
      exists r; (split; [exact Hrun |]); rewrite Hstore; [| reflexivity].
    now rewrite Hstored, Hstatus.
  - intros room participant. unfold Calls.start_call. now rewrite Hstored.
  - unfold Calls.answer_call. now rewrite Hstored.
  - intros outcome. exists (Calls.end_call_update now outcome call).
    unfold Calls.end_call. rewrite Hstored.
    split; [reflexivity |]. split; [apply end_call_update_status |].
    split; [apply end_call_update_ended_at | apply end_call_update_duration].
  - intros reason. unfold Calls.fail_call. rewrite Hstored.
    eexists. split; [reflexivity |].
    destruct call; simpl.
    destruct reason as [r |]; [destruct (negb (String.eqb r "")) |]; split; reflexivity.
Qed.

Lemma terminal_call_transitions_witness :
  (exists r,
     SipIntegration.monitor_sip_call 13 (fun _ => Sample.completed_store)
       (1200 * Py.second) "c1" = Some r
     /\ SipIntegration.final_store r = Sample.completed_store)
  /\ fst (Calls.answer_call (1200 * Py.second) "c1" Sample.completed_store)
     = <["c1" := Call.set_answered_at (Some (1200 * Py.second))
                   (Call.set_call_status "answered" Sample.completed_call)]>
         Sample.completed_store.
Proof.
  pose proof (terminal_call_transitions (1200 * Py.second) "c1"
                Sample.completed_store Sample.completed_call
                eq_refl eq_refl) as (Hwatchdog & _ & Hanswer & _).
  split; [exact Hwatchdog |]. now rewrite Hanswer.
Defined.

(** C1, as stated, fails: a second [end()] on a completed call (duration 42,
    outcome [resolved]) reports success, moves [ended_at], recomputes the
    duration and replaces the outcome. *)
Lemma terminal_end_overwrites :
  let second_end :=
    Calls.end_call (1200 * Py.second) "c1" (Some "dropped")
      Sample.completed_store in
  Sample.completed_store !! "c1" = Some Sample.completed_call
  /\ Call.is_terminal Sample.completed_call = true
  /\ Call.ended_at Sample.completed_call = Some (1052500000)
  /\ Call.duration_seconds Sample.completed_call = Some 42
  /\ Call.call_outcome Sample.completed_call = Some "resolved"
  /\ (exists call',
        fst second_end !! "c1" = Some call'
        /\ Call.ended_at call' = Some (1200000000)
        /\ Call.duration_seconds call' = Some 190
        /\ Call.call_outcome call' = Some "dropped")
  /\ snd second_end
     = Py.Return [("message", Py.JStr "Call ended"); ("call_id", Py.JStr "c1");
                  ("duration", Py.JInt 190)].
Proof.
  cbv zeta. repeat split.
  exists (Calls.end_call_update (1200 * Py.second) (Some "dropped")
            Sample.completed_call).
  repeat split.
Qed.

(** ** The job router ([agent_worker.py]) *)

Lemma truthy_str_some (s : string) : s <> "" -> Py.truthy_str (Some s) = true.
Proof. intros Hne. simpl. apply String.eqb_neq in Hne. now rewrite Hne. Qed.

(** [route_job] hands the state back as it was on every input: the reads
    of the metadata raise when it is not empty, and an empty metadata has
    no [agent_id]. *)
Lemma route_job_state agents now job_room st :
  AgentWorker.route_job agents now job_room st
  = (st, String.eqb (AgentWorker.metadata job_room) "").
Proof.
  unfold AgentWorker.route_job, AgentWorker.metadata_or_empty.
  cbn [Py.truthy_str].
  destruct (String.eqb (AgentWorker.metadata job_room) ""); reflexivity.
Qed.

(** C7. The room metadata of a job is text, and [route_job] asks it for its
    [agent_id] without decoding it. For a job whose metadata is not empty,
    and so for every job whose metadata names an agent, the read raises:
    [route_job] returns [False], creates no routing entry and updates no
    call, whether the agent named is active, inactive or missing. For a job
    without metadata it returns [True], again with the routing table and
    the calls as they were. *)
Theorem route_job_undecoded_metadata
    (agents : gmap string AIAgent.t) (now : Py.datetime)
    (job_room : AgentWorker.room) (st : AgentWorker.state) :
  (AgentWorker.metadata job_room <> "" ->
   AgentWorker.route_job agents now job_room st = (st, false))
  /\ (AgentWorker.metadata job_room = "" ->
      AgentWorker.route_job agents now job_room st = (st, true)).
Proof.
  rewrite route_job_state. split.
  - intros Hne. apply String.eqb_neq in Hne. now rewrite Hne.
  - intros ->. reflexivity.
Qed.

(** The job of call [c1], whose metadata names the active agent [a1] and
    the stored call [c1]: routing fails, no entry is created and the call
    stays [ringing]. *)
Lemma route_job_undecoded_metadata_witness :
  AgentWorker.metadata (Sample.job_for Sample.ringing_call)
  = "{" +:+ Py.dquote +:+ "agent_id" +:+ Py.dquote +:+ ": " +:+ Py.dquote
    +:+ "a1" +:+ Py.dquote +:+ ", " +:+ Py.dquote +:+ "project_id"
    +:+ Py.dquote +:+ ": " +:+ Py.dquote +:+ "p1" +:+ Py.dquote +:+ ", "
    +:+ Py.dquote +:+ "call_id" +:+ Py.dquote +:+ ": " +:+ Py.dquote +:+ "c1"
    +:+ Py.dquote +:+ "}"
  /\ AIAgent.is_active <$> Sample.agents !! "a1" = Some true
  /\ AgentWorker.route_job Sample.agents (1001 * Py.second)
       (Sample.job_for Sample.ringing_call) Sample.router_state
     = (Sample.router_state, false).
Proof.
  split; [reflexivity |]. split; [reflexivity |].
  apply (proj1 (route_job_undecoded_metadata Sample.agents (1001 * Py.second)
                  (Sample.job_for Sample.ringing_call) Sample.router_state)).
  vm_compute. discriminate.
Defined.

(** ** The instance supervisor ([agent_management.py]) *)

Lemma update_instance_status_move os_kill now instance :
  status_move (AgentInstance.status instance)
    (AgentInstance.status
       (AgentManagement.update_instance_status os_kill now instance)).
Proof.
  unfold AgentManagement.update_instance_status, status_move.
  destruct (Py.truthy_int (AgentInstance.process_id instance)).
  - destruct (os_kill _); simpl; [| tauto | tauto].
    destruct (String.eqb_spec (AgentInstance.status instance) "starting")
      as [Hstarting | _]; [| tauto].
    destruct (Py.total_seconds_gt _ _ _); simpl; tauto.
  - destruct (negb _); simpl; tauto.
Qed.








(** The general form: whenever the process is alive, the monitor's check
    compares the clock with the heartbeat the poll has just written, and a
    running instance stays running unless 300 seconds pass between the two
    reads of the clock. *)
Lemma monitor_live_running_stays os_kill now now_check instance :
  Py.truthy_int (AgentInstance.process_id instance) = true ->
  os_kill (default 0 (AgentInstance.process_id instance)) = AgentManagement.Alive ->
  AgentInstance.status instance = "running" ->
  now_check - now <= 300 * Py.second ->
  AgentManagement.monitor_instance os_kill now now_check instance
  = AgentInstance.set_last_heartbeat (Some now) instance.
Proof.
  intros Hpid Halive Hrunning Hclock.
  unfold AgentManagement.monitor_instance, AgentManagement.update_instance_status.
  rewrite Hpid, Halive. simpl. rewrite Hrunning. simpl.
  unfold Py.total_seconds_gt.
  destruct (Z.ltb_spec (300 * Py.second) (now_check - now)); [lia | reflexivity].
Qed.

(** ** Oldest-first eviction ([scale_agent], scale-down) *)

Lemma insert_by_started_at_perm x xs :
  Permutation (AgentManagement.insert_by_started_at x xs) (x :: xs).
Proof.
  induction xs as [| y ys IH]; simpl; [reflexivity |].
  destruct (AgentInstance.started_at x <=? AgentInstance.started_at y);
    [reflexivity |].
  rewrite IH. apply perm_swap.
Qed.

Lemma sorted_by_started_at_perm xs :
  Permutation (AgentManagement.sorted_by_started_at xs) xs.
Proof.
  induction xs as [| x xs IH]; simpl; [reflexivity |].
  rewrite insert_by_started_at_perm. now constructor.
Qed.

Lemma insert_by_started_at_sorted x xs :
  StronglySorted started_le xs ->
  StronglySorted started_le (AgentManagement.insert_by_started_at x xs).
Proof.
  induction 1 as [| y ys Hsorted IH Hall]; simpl.
  - repeat constructor.
  - destruct (Z.leb_spec (AgentInstance.started_at x) (AgentInstance.started_at y))
      as [Hle | Hgt].
    + constructor; [now constructor |].
      constructor; [exact Hle |].
      eapply Forall_impl; [exact Hall |].
      unfold started_le. intros z Hz. lia.
    + constructor; [exact IH |].
      eapply Permutation_Forall.
      { symmetry. apply insert_by_started_at_perm. }
      constructor; [unfold started_le; lia | exact Hall].
Qed.

Lemma sorted_by_started_at_sorted xs :
  StronglySorted started_le (AgentManagement.sorted_by_started_at xs).
Proof.
  induction xs as [| x xs IH]; simpl; [constructor |].
  now apply insert_by_started_at_sorted.
Qed.

Lemma strongly_sorted_app_le {A} (R : A -> A -> Prop) (l1 l2 : list A) :
  StronglySorted R (l1 ++ l2) ->
  forall x y, In x l1 -> In y l2 -> R x y.
Proof.
  induction l1 as [| a l1 IH]; simpl; intros Hsorted x y Hx Hy; [easy |].
  apply StronglySorted_inv in Hsorted as [Htail Hhead].
  destruct Hx as [<- | Hx].
  - rewrite List.Forall_forall in Hhead. apply Hhead, in_or_app. now right.
  - now apply IH.
Qed.

Lemma strongly_sorted_app_l {A} (R : A -> A -> Prop) (l1 l2 : list A) :
  StronglySorted R (l1 ++ l2) -> StronglySorted R l1.
Proof.
  induction l1 as [| a l1 IH]; simpl; intros Hsorted; [constructor |].
  apply StronglySorted_inv in Hsorted as [Htail Hhead].
  constructor; [now apply IH |].
  apply Forall_app in Hhead. tauto.
Qed.

(** In a list whose keys are pairwise distinct, an element of a front part
    and an element of the rest have different keys. *)
Lemma nodup_map_app_neq {A B} (f : A -> B) (l1 l2 : list A) :
  NoDup (map f (l1 ++ l2)) ->
  forall x y, In x l1 -> In y l2 -> f x <> f y.
Proof.
  rewrite map_app. intros Hnodup x y Hx Hy Heq.
  apply NoDup_app in Hnodup as (_ & Hdisjoint & _).
  apply (Hdisjoint (f x)).
  - apply list_elem_of_In, in_map, Hx.
  - rewrite Heq. apply list_elem_of_In, in_map, Hy.
Qed.

(** What [sorted(...)[:n]] selects, for pairwise distinct start times. *)
Lemma instances_to_stop_oldest current (n : Z) :
  NoDup (map AgentInstance.started_at current) ->
  0 <= n <= Z.of_nat (length current) ->
  let stopped := AgentManagement.instances_to_stop current n in
  let kept := skipn (Z.to_nat n) (AgentManagement.sorted_by_started_at current) in
  Permutation current (stopped ++ kept)
  /\ Z.of_nat (length stopped) = n
  /\ (forall x y, In x stopped -> In y kept ->
        AgentInstance.started_at x < AgentInstance.started_at y)
  /\ StronglySorted
       (fun x y => AgentInstance.started_at x < AgentInstance.started_at y)
       stopped.
Proof.
  intros Hnodup Hn stopped kept.
  pose proof (sorted_by_started_at_perm current) as Hperm.
  pose proof (sorted_by_started_at_sorted current) as Hsorted.
  assert (Hsplit : AgentManagement.sorted_by_started_at current = stopped ++ kept).
  { symmetry. apply firstn_skipn. }
  assert (Hkeys : NoDup (map AgentInstance.started_at (stopped ++ kept))).
  { rewrite <- Hsplit.
    eapply NoDup_Permutation_proper; [| exact Hnodup].
    apply Permutation_map. exact Hperm. }
  rewrite Hsplit in Hperm, Hsorted.
  split; [now symmetry |]. split.
  - unfold stopped, AgentManagement.instances_to_stop.
    rewrite length_firstn, (Permutation_length (sorted_by_started_at_perm current)).
    lia.
  - split.
    + intros x y Hx Hy.
      pose proof (strongly_sorted_app_le _ _ _ Hsorted x y Hx Hy) as Hle.
      pose proof (nodup_map_app_neq _ _ _ Hkeys x y Hx Hy) as Hne.
      unfold started_le in Hle. lia.
    + apply strongly_sorted_app_l in Hsorted.
      rewrite map_app in Hkeys. apply NoDup_app in Hkeys as (Hkeys & _).
      clear - Hsorted Hkeys.
      induction Hsorted as [| a l Hsorted IH Hall]; [constructor |].
      simpl in Hkeys. apply NoDup_cons in Hkeys as [Hfresh Hkeys].
      constructor; [now apply IH |].
      rewrite List.Forall_forall in Hall |- *. intros y Hy.
      specialize (Hall y Hy). unfold started_le in Hall.
      assert (AgentInstance.started_at a <> AgentInstance.started_at y).
      { intros Heq. apply Hfresh. rewrite Heq.
        apply list_elem_of_In, in_map, Hy. }
      lia.
Qed.

(** C6. With [k] instances of the agent in {starting, running}, their start
    times pairwise distinct, scaling down to [target < k] queues for
    stopping exactly the [k - target] instances with the smallest
    [started_at], oldest first: every queued instance started before every
    instance that is kept. *)
Theorem scale_down_stops_oldest
    (agents : gmap string AIAgent.t) (popen : Z -> option Z) (now : Py.datetime)
    (agent : string) (target_replicas : Z)
    (agent_instances : AgentManagement.registry) :
  let current :=
    List.filter (AgentManagement.is_current agent)
      (PyDict.values agent_instances) in
  NoDup (map AgentInstance.started_at current) ->
  0 <= target_replicas ->
  target_replicas < Z.of_nat (length current) ->
  exists stopped kept,
    AgentManagement.scale_agent agents popen now agent target_replicas
      agent_instances
    = (agent_instances, map AgentInstance.instance_id stopped,
       Py.Return [("agent_id", Py.JStr agent);
                  ("previous_replicas", Py.JInt (Z.of_nat (length current)));
                  ("target_replicas", Py.JInt target_replicas);
                  ("action", Py.JStr "scale_down")])
    /\ Permutation current (stopped ++ kept)
    /\ Z.of_nat (length stopped) = Z.of_nat (length current) - target_replicas
    /\ (forall x y, In x stopped -> In y kept ->
          AgentInstance.started_at x < AgentInstance.started_at y)
    /\ StronglySorted
         (fun x y => AgentInstance.started_at x < AgentInstance.started_at y)
         stopped.
Proof.
  intros current Hnodup Hnonneg Hless.
  exists (AgentManagement.instances_to_stop current
            (Z.of_nat (length current) - target_replicas)),
    (skipn (Z.to_nat (Z.of_nat (length current) - target_replicas))
       (AgentManagement.sorted_by_started_at current)).
  split.
  - unfold AgentManagement.scale_agent. fold current.
    destruct (Z.ltb_spec target_replicas 0); [lia |].
    destruct (Z.ltb_spec (Z.of_nat (length current)) target_replicas); [lia |].
    destruct (Z.ltb_spec target_replicas (Z.of_nat (length current))); [| lia].
    reflexivity.
  - apply instances_to_stop_oldest; [exact Hnodup | lia].
Qed.

Lemma scale_down_stops_oldest_witness :
  snd (fst (AgentManagement.scale_agent Sample.agents (fun _ => None)
              (1200 * Py.second) "a1" 2 Sample.three_running))
  = ["a1-1020-0"]
  /\ exists stopped kept,
       AgentManagement.scale_agent Sample.agents (fun _ => None)
         (1200 * Py.second) "a1" 2 Sample.three_running
       = (Sample.three_running, map AgentInstance.instance_id stopped,
          Py.Return [("agent_id", Py.JStr "a1");
                     ("previous_replicas", Py.JInt 3);
                     ("target_replicas", Py.JInt 2);
                     ("action", Py.JStr "scale_down")])
       /\ Permutation (PyDict.values Sample.three_running) (stopped ++ kept)
       /\ Z.of_nat (length stopped) = 1
       /\ (forall x y, In x stopped -> In y kept ->
             AgentInstance.started_at x < AgentInstance.started_at y)
       /\ StronglySorted
            (fun x y => AgentInstance.started_at x < AgentInstance.started_at y)
            stopped.
Proof.
  split; [reflexivity |].
  apply (scale_down_stops_oldest Sample.agents (fun _ => None)
           (1200 * Py.second) "a1" 2 Sample.three_running).
  - compute_done.
  - lia.
  - simpl. lia.
Defined.

(** ** Facts about the insertion-ordered dict *)

Section DictFacts.

Context {V : Type}.
Implicit Types (d : PyDict.t V) (k : string) (v : V).

Lemma dict_set_fresh k v d :
  PyDict.get k d = None -> PyDict.set k v d = d ++ [(k, v)].
Proof.
  induction d as [| [k' v'] d IH]; simpl; [reflexivity |].
  destruct (String.eqb k k'); [discriminate |].
  intros Hnone. now rewrite IH.
Qed.

Lemma dict_get_set_ne k k' v d :
  k' <> k -> PyDict.get k' (PyDict.set k v d) = PyDict.get k' d.
Proof.
  intros Hne. induction d as [| [k0 v0] d IH]; simpl.
  - apply String.eqb_neq in Hne. now rewrite Hne.
  - destruct (String.eqb_spec k k0) as [-> | Hk]; simpl.
    + apply String.eqb_neq in Hne. now rewrite Hne.
    + now rewrite IH.
Qed.

Lemma dict_get_notin k d :
  k ∉ PyDict.keys d -> PyDict.get k d = None.
Proof.
  induction d as [| [k' v'] d IH]; simpl; [reflexivity |].
  rewrite not_elem_of_cons. intros [Hne Hnotin].
  apply String.eqb_neq in Hne. rewrite Hne. now apply IH.
Qed.

Lemma dict_mutate_keys k (f : V -> V) d :
  PyDict.keys (PyDict.mutate k f d) = PyDict.keys d.
Proof.
  unfold PyDict.keys, PyDict.mutate. rewrite map_map. apply map_ext.
  intros [k' v']. simpl. now destruct (String.eqb k k').
Qed.

Lemma dict_mutate_notin k (f : V -> V) d :
  k ∉ PyDict.keys d -> PyDict.mutate k f d = d.
Proof.
  induction d as [| [k' v'] d IH]; simpl; [reflexivity |].
  rewrite not_elem_of_cons. intros [Hne Hnotin].
  apply String.eqb_neq in Hne. rewrite Hne. f_equal. now apply IH.
Qed.

Lemma dict_mutate_mutate k (f g : V -> V) d :
  PyDict.mutate k g (PyDict.mutate k f d) = PyDict.mutate k (fun v => g (f v)) d.
Proof.
  unfold PyDict.mutate. rewrite map_map. apply map_ext.
  intros [k' v']. simpl. destruct (String.eqb k k') eqn:Hk; simpl; now rewrite Hk.
Qed.

Lemma dict_get_mutate_ne k k' (f : V -> V) d :
  k' <> k -> PyDict.get k' (PyDict.mutate k f d) = PyDict.get k' d.
Proof.
  intros Hne. induction d as [| [k0 v0] d IH]; simpl; [reflexivity |].
  destruct (String.eqb_spec k k0) as [-> | Hk]; simpl.
  - apply String.eqb_neq in Hne. now rewrite Hne.
  - now rewrite IH.
Qed.

(** Mutating the one object stored under [k] from selected to not selected
    takes one element off the selection. *)
Lemma dict_mutate_count k (f : V -> V) (sel : V -> bool) d v :
  NoDup (PyDict.keys d) ->
  PyDict.get k d = Some v ->
  sel v = true -> sel (f v) = false ->
  S (length (List.filter sel (PyDict.values (PyDict.mutate k f d))))
  = length (List.filter sel (PyDict.values d)).
Proof.
  induction d as [| [k' v'] d IH]; simpl; [discriminate |].
  rewrite NoDup_cons. intros [Hfresh Hnodup].
  destruct (String.eqb_spec k k') as [-> | Hne]; simpl.
  - intros [= ->] Hsel Hunsel. rewrite Hsel, Hunsel. simpl.
    fold (PyDict.mutate k' f d). now rewrite dict_mutate_notin.
  - intros Hget Hsel Hunsel. fold (PyDict.mutate k f d).
    fold (PyDict.values (PyDict.mutate k f d)). fold (PyDict.values d).
    specialize (IH Hnodup Hget Hsel Hunsel).
    destruct (sel v'); simpl; lia.
Qed.

Lemma dict_values_mutate_where (sel : V -> bool) (f : V -> V) d :
  PyDict.values (PyDict.mutate_where sel f d)
  = map (fun v => if sel v then f v else v) (PyDict.values d).
Proof.
  unfold PyDict.values, PyDict.mutate_where. rewrite !map_map.
  apply map_ext. intros [k v]. simpl. now destruct (sel v).
Qed.

End DictFacts.

(** ** Scaling followed by a listing ([scale_agent], [get_agent_instances]) *)

Lemma update_instance_status_agent_id os_kill now instance :
  AgentInstance.agent_id
    (AgentManagement.update_instance_status os_kill now instance)
  = AgentInstance.agent_id instance.
Proof.
  unfold AgentManagement.update_instance_status.
  destruct (Py.truthy_int _).
  - destruct (os_kill _); simpl; try reflexivity.
    destruct (String.eqb _ _); [| reflexivity].
    now destruct (Py.total_seconds_gt _ _ _).
  - now destruct (negb _).
Qed.

(** The poll keeps a live instance in {starting, running} and never brings
    an instance into it. *)
Lemma update_instance_status_active os_kill now instance :
  let active i :=
    Py.str_in (AgentInstance.status i) ["starting"; "running"] in
  (active instance = true ->
   Py.truthy_int (AgentInstance.process_id instance) = true
   /\ os_kill (default 0 (AgentInstance.process_id instance))
      = AgentManagement.Alive) ->
  active (AgentManagement.update_instance_status os_kill now instance)
  = active instance.
Proof.
  intros active Hlive.
  destruct (active instance) eqn:Hactive.
  - destruct (Hlive eq_refl) as [Hpid Halive].
    unfold AgentManagement.update_instance_status. rewrite Hpid, Halive.
    subst active. cbv beta in *. simpl AgentInstance.status at 1.
    destruct (String.eqb (AgentInstance.status instance) "starting") eqn:Hs.
    + destruct (Py.total_seconds_gt _ _ _); [reflexivity |].
      simpl. now rewrite Hs.
    + exact Hactive.
  - pose proof (update_instance_status_move os_kill now instance) as Hmove.
    subst active. simpl in *.
    destruct Hmove as [Hm | [[Hs Hm] | [Hm | [Hm | Hm]]]]; rewrite Hm;
      try reflexivity; [exact Hactive |].
    rewrite Hs in Hactive. discriminate.
Qed.

Lemma listed_active_count os_kill now agent agent_instances :
  agent <> "" ->
  all_live os_kill agent agent_instances ->
  length (listed_active os_kill now agent agent_instances)
  = length (current_instances agent agent_instances).
Proof.
  intros Hagent. unfold all_live, listed_active, current_instances.
  unfold AgentManagement.get_agent_instances.
  rewrite (truthy_str_some _ Hagent). simpl snd. simpl default.
  rewrite dict_values_mutate_where.
  induction (PyDict.values agent_instances) as [| inst l IH]; intros Hlive;
    [reflexivity |].
  simpl map. assert (IH' := IH (fun i Hi => Hlive i (or_intror Hi))).
  clear IH.
  destruct (String.eqb (AgentInstance.agent_id inst) agent) eqn:Hsel.
  - cbn [List.filter].
    rewrite update_instance_status_agent_id, Hsel. cbn [List.filter].
    unfold AgentManagement.is_current at 1. rewrite Hsel. cbn [andb].
    rewrite update_instance_status_active.
    + destruct (Py.str_in _ _); cbn [length]; now rewrite IH'.
    + intros Hactive. apply Hlive; [now left |].
      unfold AgentManagement.is_current. now rewrite Hsel.
  - cbn [List.filter]. rewrite Hsel.
    unfold AgentManagement.is_current at 1. rewrite Hsel. cbn [andb].
    exact IH'.
Qed.

(** Two iterations of the scale-up loop never build the same instance id. *)
Lemma scale_instance_id_inj agent ts i j :
  AgentManagement.scale_instance_id agent ts i
  = AgentManagement.scale_instance_id agent ts j ->
  i = j.
Proof.
  unfold AgentManagement.scale_instance_id. intros Heq.
  repeat apply String.app_inj in Heq.
  now apply pretty_Z_inj in Heq.
Qed.

Lemma scale_up_loop_count popen now deployment agent n :
  AgentDeployment.agent_id deployment = agent ->
  forall i agent_instances registry,
    (forall j, i <= j < i + Z.of_nat n ->
       PyDict.get
         (AgentManagement.scale_instance_id agent
            (AgentManagement.int_timestamp now) j) agent_instances = None) ->
    AgentManagement.scale_up_loop popen now deployment agent i n agent_instances
      = (registry, true) ->
    length (current_instances agent registry)
    = (length (current_instances agent agent_instances) + n)%nat.
Proof.
  intros Hagent. induction n as [| n IH]; intros i agent_instances registry Hfresh.
  - simpl. intros [= <-]. lia.
  - cbn [AgentManagement.scale_up_loop].
    destruct (popen i) as [pid |]; simpl; [| discriminate].
    intros Hloop. apply IH in Hloop.
    + rewrite Hloop. rewrite dict_set_fresh by (apply Hfresh; lia).
      unfold current_instances, PyDict.values.
      rewrite map_app, List.filter_app, length_app. simpl.
      unfold AgentManagement.is_current. simpl.
      rewrite Hagent, String.eqb_refl. simpl. lia.
    + intros j Hj. rewrite dict_get_set_ne; [apply Hfresh; lia |].
      intros Heq. apply scale_instance_id_inj in Heq. lia.
Qed.

Lemma is_current_stopped agent status instance :
  status = "stopping" \/ status = "stopped" ->
  AgentManagement.is_current agent (AgentInstance.set_status status instance)
  = false.
Proof.
  unfold AgentManagement.is_current. simpl.
  intros [-> | ->]; apply andb_false_r.
Qed.

(** The first segment of a stop takes its instance, and no other, out of
    the counted ones. *)
Lemma stop_begin_step os_kill agent id agent_instances instance :
  NoDup (PyDict.keys agent_instances) ->
  PyDict.get id agent_instances = Some instance ->
  AgentManagement.is_current agent instance = true ->
  let registry :=
    fst (fst (AgentManagement.stop_begin os_kill id agent_instances)) in
  PyDict.keys registry = PyDict.keys agent_instances
  /\ S (length (current_instances agent registry))
     = length (current_instances agent agent_instances)
  /\ (forall id', id' <> id ->
        PyDict.get id' registry = PyDict.get id' agent_instances).
Proof.
  intros Hnodup Hget Hcurrent.
  assert (Hmutate : forall s,
            s = "stopping" \/ s = "stopped" ->
            let registry :=
              PyDict.mutate id (AgentInstance.set_status s) agent_instances in
            PyDict.keys registry = PyDict.keys agent_instances
            /\ S (length (current_instances agent registry))
               = length (current_instances agent agent_instances)
            /\ (forall id', id' <> id ->
                  PyDict.get id' registry = PyDict.get id' agent_instances)).
  { intros s Hs. cbv zeta. split; [apply dict_mutate_keys |]. split.
    - unfold current_instances.
      apply dict_mutate_count with (v := instance); auto.
      now apply is_current_stopped.
    - intros id' Hne. now apply dict_get_mutate_ne. }
  unfold AgentManagement.stop_begin. rewrite Hget.
  assert (Htwice :
            PyDict.mutate id (AgentInstance.set_status "stopped")
              (PyDict.mutate id (AgentInstance.set_status "stopping")
                 agent_instances)
            = PyDict.mutate id (AgentInstance.set_status "stopped")
                agent_instances).
  { rewrite dict_mutate_mutate. reflexivity. }
  destruct (Py.truthy_int _); [destruct (os_kill _) |]; simpl fst;
    rewrite ?Htwice; apply Hmutate; auto.
Qed.

Lemma run_stop_begin_count os_kill agent tasks : forall agent_instances,
  NoDup (PyDict.keys agent_instances) ->
  NoDup tasks ->
  (forall id, In id tasks ->
     exists instance,
       PyDict.get id agent_instances = Some instance
       /\ AgentManagement.is_current agent instance = true) ->
  (length (current_instances agent
             (run_stop_begin os_kill tasks agent_instances))
   + length tasks)%nat
  = length (current_instances agent agent_instances).
Proof.
  induction tasks as [| id tasks IH]; intros agent_instances Hkeys Htasks Hall.
  - simpl. lia.
  - apply NoDup_cons in Htasks as [Hfresh Htasks].
    destruct (Hall id (or_introl eq_refl)) as (instance & Hget & Hcurrent).
    destruct (stop_begin_step os_kill agent id agent_instances instance
                Hkeys Hget Hcurrent) as (Hkeys' & Hcount & Hother).
    cbv zeta in Hkeys', Hcount, Hother.
    change (run_stop_begin os_kill (id :: tasks) agent_instances)
      with (run_stop_begin os_kill tasks
              (fst (fst (AgentManagement.stop_begin os_kill id agent_instances)))).
    specialize (IH (fst (fst (AgentManagement.stop_begin os_kill id
                                agent_instances)))).
    rewrite Hkeys' in IH. specialize (IH Hkeys Htasks).
    cbn [length]. rewrite <- Hcount, <- IH; [lia |].
    intros id' Hin. rewrite Hother; [apply Hall; now right |].
    intros ->. apply Hfresh. now apply list_elem_of_In.
Qed.

Lemma registry_wf_get agent_instances instance :
  registry_wf agent_instances ->
  In instance (PyDict.values agent_instances) ->
  PyDict.get (AgentInstance.instance_id instance) agent_instances
  = Some instance.
Proof.
  intros [Hnodup Hids].
  induction agent_instances as [| [k v] d IH]; simpl; [easy |].
  apply NoDup_cons in Hnodup as [Hfresh Hnodup].
  apply Forall_cons in Hids as [Hid Hids]. simpl in Hid. subst k.
  intros [-> | Hin].
  - now rewrite String.eqb_refl.
  - destruct (String.eqb_spec (AgentInstance.instance_id instance)
                (AgentInstance.instance_id v)) as [Heq | _]; [| now apply IH].
    exfalso. apply Hfresh. rewrite <- Heq.
    specialize (IH Hnodup Hids Hin). clear - IH.
    induction d as [| [k' v'] d IHd]; simpl in *; [discriminate |].
    destruct (String.eqb_spec (AgentInstance.instance_id instance) k')
      as [-> | Hne]; [left | right; now apply IHd].
Qed.

Lemma nodup_map_filter {A B} (f : A -> B) (p : A -> bool) (l : list A) :
  NoDup (map f l) -> NoDup (map f (List.filter p l)).
Proof.
  induction l as [| x l IH]; simpl; [easy |].
  rewrite NoDup_cons. intros [Hfresh Hnodup].
  destruct (p x); simpl; [| now apply IH].
  apply NoDup_cons. split; [| now apply IH].
  intros Hin. apply Hfresh.
  apply list_elem_of_In, in_map_iff in Hin as (y & Heq & Hy).
  apply List.filter_In in Hy as [Hy _].
  apply list_elem_of_In, in_map_iff. now exists y.
Qed.

Lemma registry_wf_ids agent_instances :
  registry_wf agent_instances ->
  NoDup (map AgentInstance.instance_id (PyDict.values agent_instances)).
Proof.
  intros [Hnodup Hids].
  replace (map AgentInstance.instance_id (PyDict.values agent_instances))
    with (PyDict.keys agent_instances); [exact Hnodup |].
  unfold PyDict.keys, PyDict.values. rewrite map_map.
  clear Hnodup.
  induction Hids as [| kv d Hid Hids IH]; simpl; [reflexivity |].
  now rewrite Hid, IH.
Qed.

(** The ids queued by a scale-down are distinct keys of counted instances. *)
Lemma instances_to_stop_tasks agent agent_instances (n : Z) :
  registry_wf agent_instances ->
  let tasks :=
    map AgentInstance.instance_id
      (AgentManagement.instances_to_stop
         (current_instances agent agent_instances) n) in
  NoDup tasks
  /\ (forall id, In id tasks ->
        exists instance,
          PyDict.get id agent_instances = Some instance
          /\ AgentManagement.is_current agent instance = true).
Proof.
  intros Hwf tasks. subst tasks. unfold AgentManagement.instances_to_stop.
  set (current := current_instances agent agent_instances).
  pose proof (sorted_by_started_at_perm current) as Hperm.
  split.
  - assert (Hall : NoDup (map AgentInstance.instance_id
                            (AgentManagement.sorted_by_started_at current))).
    { eapply NoDup_Permutation_proper; [apply Permutation_map, Hperm |].
      apply nodup_map_filter, registry_wf_ids, Hwf. }
    rewrite <- (firstn_skipn (Z.to_nat n)
                  (AgentManagement.sorted_by_started_at current)) in Hall.
    rewrite map_app in Hall. now apply NoDup_app in Hall as (Hall & _).
  - intros id Hin. apply in_map_iff in Hin as (instance & <- & Hin).
    assert (Hsorted : In instance (AgentManagement.sorted_by_started_at current)).
    { rewrite <- (firstn_skipn (Z.to_nat n)). apply in_or_app. now left. }
    clear Hin. apply (Permutation_in _ Hperm) in Hsorted as Hin.
    apply List.filter_In in Hin as [Hin Hcurrent].
    exists instance. split; [now apply registry_wf_get | exact Hcurrent].
Qed.

(** C3, as the code has it. After a successful [scale(agent, target)], with
    the processes of the counted instances running:
    - scale-up (and [target] equal to the count): provided the instance ids
      the loop builds are not in the registry yet, the listing that follows
      has exactly [target] entries in {starting, running};
    - scale-down: the handler only queues the stops and returns the
      registry as it found it, so the listing that follows still has all
      [current] entries; [current - target] stops are queued, and once each
      has run to its first suspension the listing has exactly [target]
      entries. *)
Theorem scale_then_list
    (agents : gmap string AIAgent.t) (popen : Z -> option Z)
    (os_kill : Z -> AgentManagement.probe) (now now' : Py.datetime)
    (agent : string) (target_replicas : Z)
    (agent_instances registry : AgentManagement.registry)
    (tasks : list string) (body : list (string * Py.json)) :
  agent <> "" ->
  AgentManagement.scale_agent agents popen now agent target_replicas
    agent_instances = (registry, tasks, Py.Return body) ->
  all_live os_kill agent registry ->
  let current := Z.of_nat (length (current_instances agent agent_instances)) in
  (current <= target_replicas ->
   (forall j, 0 <= j < target_replicas - current ->
      PyDict.get
        (AgentManagement.scale_instance_id agent
           (AgentManagement.int_timestamp now) j) agent_instances = None) ->
   Z.of_nat (length (listed_active os_kill now' agent registry))
   = target_replicas)
  /\
  (target_replicas < current ->
   registry_wf agent_instances ->
   registry = agent_instances
   /\ Z.of_nat (length tasks) = current - target_replicas
   /\ Z.of_nat (length (listed_active os_kill now' agent registry)) = current
   /\ (forall os_kill_stop os_kill_after now'',
         all_live os_kill_after agent
           (run_stop_begin os_kill_stop tasks registry) ->
         Z.of_nat
           (length
              (listed_active os_kill_after now'' agent
                 (run_stop_begin os_kill_stop tasks registry)))
         = target_replicas)).
Proof.
  intros Hagent Hscale Hlive current.
  unfold AgentManagement.scale_agent in Hscale.
  fold (current_instances agent agent_instances) in Hscale. fold current in Hscale.
  destruct (Z.ltb_spec target_replicas 0) as [| Hnonneg]; [discriminate |].
  rewrite (listed_active_count _ _ _ _ Hagent Hlive).
  destruct (Z.ltb_spec current target_replicas) as [Hup | Hnotup].
  - (* scale up *)
    split; [| intros; lia]. intros _ Hfresh.
    destruct (agents !! agent) as [a |]; [| discriminate].
    destruct (AgentManagement.scale_up_loop _ _ _ _ _ _ _) as [r ok] eqn:Hloop.
    destruct ok; [| discriminate].
    injection Hscale as <- _ _.
    apply scale_up_loop_count in Hloop; [| reflexivity |].
    + rewrite Hloop. fold current. lia.
    + intros j Hj. apply Hfresh. lia.
  - destruct (Z.ltb_spec target_replicas current) as [Hdown | Hsame].
    + (* scale down *)
      split; [intros; lia |]. intros _ Hwf.
      injection Hscale as <- <- _.
      split; [reflexivity |].
      destruct (instances_to_stop_tasks agent agent_instances
                  (current - target_replicas) Hwf) as [Hnodup Hkeys].
      cbv zeta in Hnodup, Hkeys.
      assert (Hlen :
                length (map AgentInstance.instance_id
                          (AgentManagement.instances_to_stop
                             (current_instances agent agent_instances)
                             (current - target_replicas)))
                = Z.to_nat (current - target_replicas)).
      { rewrite length_map. unfold AgentManagement.instances_to_stop.
        rewrite length_firstn,
          (Permutation_length (sorted_by_started_at_perm _)).
        subst current. lia. }
      split; [rewrite Hlen; lia |].
      split; [reflexivity |].
      intros os_kill_stop os_kill_after now'' Hafter.
      rewrite (listed_active_count _ _ _ _ Hagent Hafter).
      pose proof (run_stop_begin_count os_kill_stop agent _ agent_instances
                    (proj1 Hwf) Hnodup Hkeys) as Hcount.
      rewrite Hlen in Hcount. fold current in Hcount. lia.
    + (* no change *)
      split; [| intros; lia]. intros _ _.
      injection Hscale as <- _ _. fold current. lia.
Qed.

Lemma sample_three_running_wf : registry_wf Sample.three_running.
Proof. split; [compute_done | repeat constructor]. Qed.

Lemma sample_all_live agent agent_instances :
  Forall (fun inst => Py.truthy_int (AgentInstance.process_id inst) = true)
    (PyDict.values agent_instances) ->
  all_live (fun _ => AgentManagement.Alive) agent agent_instances.
Proof.
  intros Hpids inst Hin _. rewrite List.Forall_forall in Hpids.
  split; [now apply Hpids | reflexivity].
Qed.

Lemma scale_then_list_witness :
  (* down: 3 -> 2 *)
  (Z.of_nat (length (listed_active (fun _ => AgentManagement.Alive)
                       (1200 * Py.second) "a1" Sample.three_running)) = 3
   /\ Z.of_nat
        (length
           (listed_active (fun _ => AgentManagement.Alive) (1300 * Py.second)
              "a1"
              (run_stop_begin (fun _ => AgentManagement.Alive) ["a1-1020-0"]
                 Sample.three_running))) = 2)
  (* up: 3 -> 5 *)
  /\ Z.of_nat
       (length
          (listed_active (fun _ => AgentManagement.Alive) (1200 * Py.second)
             "a1"
             (fst (fst (AgentManagement.scale_agent Sample.agents
                          (fun i => Some (5000 + i)) (1200 * Py.second)
                          "a1" 5 Sample.three_running))))) = 5.
Proof.
  split.
  - destruct (scale_then_list Sample.agents (fun _ => None)
                (fun _ => AgentManagement.Alive)
                (1200 * Py.second) (1200 * Py.second) "a1" 2
                Sample.three_running Sample.three_running ["a1-1020-0"]
                [("agent_id", Py.JStr "a1"); ("previous_replicas", Py.JInt 3);
                 ("target_replicas", Py.JInt 2);
                 ("action", Py.JStr "scale_down")])
      as [_ Hdown].
    + discriminate.
    + reflexivity.
    + apply sample_all_live. repeat constructor.
    + destruct (Hdown ltac:(simpl; lia) sample_three_running_wf)
        as (_ & _ & Hsame & Hafter).
      split; [exact Hsame |].
      apply Hafter, sample_all_live. repeat constructor.
  - destruct (scale_then_list Sample.agents (fun i => Some (5000 + i))
                (fun _ => AgentManagement.Alive)
                (1200 * Py.second) (1200 * Py.second) "a1" 5
                Sample.three_running
                (fst (fst (AgentManagement.scale_agent Sample.agents
                             (fun i => Some (5000 + i)) (1200 * Py.second)
                             "a1" 5 Sample.three_running)))
                []
                [("agent_id", Py.JStr "a1"); ("previous_replicas", Py.JInt 3);
                 ("target_replicas", Py.JInt 5);
                 ("action", Py.JStr "scale_up")])
      as [Hup _].
    + discriminate.
    + vm_compute. reflexivity.
    + apply sample_all_live. vm_compute. repeat constructor.
    + apply Hup; [simpl; lia |].
      intros j Hj. simpl in Hj.
      assert (Hcases : j = 0 \/ j = 1) by lia.
      destruct Hcases as [-> | ->]; vm_compute; reflexivity.
Defined.

(** C3, as stated, fails for scale-down: [scale_agent] queues the stop on
    [background_tasks] and returns; the registry is as before, and the
    listing that follows reports all three instances, not the target 2. *)
Lemma scale_down_then_list_counts_all :
  AgentManagement.scale_agent Sample.agents (fun _ => None) (1200 * Py.second)
    "a1" 2 Sample.three_running
  = (Sample.three_running, ["a1-1020-0"],
     Py.Return [("agent_id", Py.JStr "a1"); ("previous_replicas", Py.JInt 3);
                ("target_replicas", Py.JInt 2);
                ("action", Py.JStr "scale_down")])
  /\ map AgentInstance.status
       (listed_active (fun _ => AgentManagement.Alive) (1200 * Py.second) "a1"
          Sample.three_running)
     = ["running"; "running"; "running"].
Proof. split; vm_compute; reflexivity. Qed.

(** * Further properties of the code *)

(** ** The call endpoints ([calls.py]) *)

Lemma bson_datetime_bounds (t : Py.datetime) :
  Py.bson_datetime t <= t < Py.bson_datetime t + Py.millisecond.
Proof.
  unfold Py.bson_datetime, Py.millisecond.
  pose proof (Z.div_mod t 1000 ltac:(lia)).
  pose proof (Z.mod_pos_bound t 1000 ltac:(lia)). lia.
Qed.

Lemma bson_datetime_idempotent (t : Py.datetime) :
  Py.bson_datetime (Py.bson_datetime t) = Py.bson_datetime t.
Proof.
  unfold Py.bson_datetime, Py.millisecond.
  now rewrite Z.div_mul by lia.
Qed.

(** Whole seconds counted from a stored time do not depend on the
    microseconds of the later time below the millisecond. *)
Lemma seconds_since_stored (ended answered : Py.datetime) :
  (ended - Py.bson_datetime answered) / Py.second
  = (Py.bson_datetime ended - Py.bson_datetime answered) / Py.second.
Proof.
  unfold Py.bson_datetime, Py.millisecond, Py.second.
  pose proof (Z.div_mod ended 1000 ltac:(lia)) as Hended.
  pose proof (Z.mod_pos_bound ended 1000 ltac:(lia)) as Hrest.
  set (qe := ended / 1000) in *. set (qa := answered / 1000).
  set (r := ended mod 1000) in *.
  change 1000000 with (1000 * 1000).
  rewrite <- !Z.div_div by lia.
  f_equal.
  replace (ended - qa * 1000) with ((qe - qa) * 1000 + r) by lia.
  replace (qe * 1000 - qa * 1000) with ((qe - qa) * 1000) by lia.
  rewrite Z.div_add_l, Z.div_mul by lia.
  rewrite (Z.div_small r 1000) by lia. lia.
Qed.

(** [start], [answer] and [end] as three requests in sequence, each reading
    the call as the store kept it after the one before. The call ends
    completed, bound to the room given to [start], with the outcome given
    to [end] and the three times cut to the millisecond. Its duration is
    counted from the stored answer time: it is the whole seconds between
    the stored answer and end times, and can exceed by one the whole
    seconds between the two clock readings. [end] reports that duration. *)
Theorem call_lifecycle_compose
    (started answered ended : Py.datetime) (call_id room outcome : string)
    (participant_id : option string) (calls : gmap string Call.t)
    (call : Call.t) :
  calls !! call_id = Some call ->
  answered <= ended ->
  outcome <> "" ->
  let after_start :=
    Database.stored
      (fst (Calls.start_call started call_id room participant_id calls)) in
  let after_answer :=
    Database.stored (fst (Calls.answer_call answered call_id after_start)) in
  let after_end :=
    Calls.end_call ended call_id (Some outcome) after_answer in
  let duration := (ended - Py.bson_datetime answered) / Py.second in
  exists call',
    Database.stored (fst after_end) !! call_id = Some call'
    /\ Call.call_status call' = "completed"
    /\ Call.room_name call' = Some room
    /\ Call.participant_id call' = participant_id
    /\ Call.started_at call' = Py.bson_datetime started
    /\ Call.answered_at call' = Some (Py.bson_datetime answered)
    /\ Call.ended_at call' = Some (Py.bson_datetime ended)
    /\ Call.duration_seconds call' = Some duration
    /\ Call.call_outcome call' = Some outcome
    /\ snd after_end
       = Py.Return [("message", Py.JStr "Call ended");
                    ("call_id", Py.JStr call_id);
                    ("duration", Py.JInt duration)]
    /\ duration
       = (Py.bson_datetime ended - Py.bson_datetime answered) / Py.second
    /\ (ended - answered) / Py.second <= duration
       <= (ended - answered) / Py.second + 1.
Proof.
  intros Hstored Hle Hne. cbv zeta.
  pose proof (bson_datetime_bounds answered) as Hanswered.
  unfold Database.stored.
  unfold Calls.start_call. rewrite Hstored. cbn [fst]. rewrite fmap_insert.
  unfold Calls.answer_call. rewrite lookup_insert_eq. cbn [fst].
  rewrite fmap_insert.
  unfold Calls.end_call. rewrite lookup_insert_eq. cbn [fst snd].
  rewrite fmap_insert.
  eexists. split; [apply lookup_insert_eq |].
  unfold Calls.end_call_update. rewrite (truthy_str_some _ Hne).
  destruct call; cbn.
  rewrite !bson_datetime_idempotent.
  rewrite (int_total_seconds_floor ended (Py.bson_datetime answered))
    by lia.
  repeat split.
  - apply seconds_since_stored.
  - apply Z.div_le_mono; [reflexivity | lia].
  - replace ((ended - answered) / Py.second + 1)
      with ((ended - answered + 1 * Py.second) / Py.second)
      by (rewrite Z.div_add by discriminate; reflexivity).
    apply Z.div_le_mono; [reflexivity |].
    unfold Py.millisecond, Py.second in *. lia.
Qed.

(** Answered 900 microseconds after second 1010 and ended 500 microseconds
    after second 1011, less than a second later: the stored duration is 1. *)
Lemma call_lifecycle_compose_witness :
  exists call',
    Database.stored
      (fst (Calls.end_call (1011 * Py.second + 500) "c1" (Some "resolved")
              (Database.stored
                 (fst (Calls.answer_call (1010 * Py.second + 900) "c1"
                         (Database.stored
                            (fst (Calls.start_call (1000 * Py.second) "c1"
                                    "room-1" None Sample.ringing_store))))))))
      !! "c1" = Some call'
    /\ Call.call_status call' = "completed"
    /\ Call.answered_at call' = Some (1010 * Py.second)
    /\ Call.ended_at call' = Some (1011 * Py.second)
    /\ Call.duration_seconds call' = Some 1
    /\ (1011 * Py.second + 500 - (1010 * Py.second + 900)) / Py.second = 0.
Proof.
  destruct (call_lifecycle_compose (1000 * Py.second) (1010 * Py.second + 900)
              (1011 * Py.second + 500) "c1" "room-1" "resolved" None
              Sample.ringing_store Sample.ringing_call eq_refl)
    as (call' & Hstored & Hstatus & _ & _ & _ & Hanswered & Hended
        & Hduration & _).
  - vm_compute. discriminate.
  - discriminate.
  - exists call'. repeat split; assumption.
Defined.

(** A transition on an id that is not in the store raises 404 and changes
    nothing, for each of the four endpoints. *)
Theorem transition_unknown_call
    (now : Py.datetime) (call_id room : string)
    (participant_id outcome reason : option string)
    (calls : gmap string Call.t) :
  calls !! call_id = None ->
  Calls.start_call now call_id room participant_id calls
    = (calls, Py.HTTPException 404 "Call not found")
  /\ Calls.answer_call now call_id calls
     = (calls, Py.HTTPException 404 "Call not found")
  /\ Calls.end_call now call_id outcome calls
     = (calls, Py.HTTPException 404 "Call not found")
  /\ Calls.fail_call now call_id reason calls
     = (calls, Py.HTTPException 404 "Call not found").
Proof.
  intros Hmissing.
  unfold Calls.start_call, Calls.answer_call, Calls.end_call, Calls.fail_call.
  rewrite Hmissing. repeat split.
Qed.

Lemma transition_unknown_call_witness :
  Calls.end_call (1052 * Py.second) "c9" (Some "resolved") Sample.ringing_store
  = (Sample.ringing_store, Py.HTTPException 404 "Call not found").
Proof.
  exact (proj1 (proj2 (proj2
           (transition_unknown_call (1052 * Py.second) "c9" "room-1" None
              (Some "resolved") None Sample.ringing_store eq_refl)))).
Defined.

(** A transition on one call never touches the document of another. *)
Theorem transition_other_call_untouched
    (now : Py.datetime) (call_id other room : string)
    (participant_id outcome reason : option string)
    (calls : gmap string Call.t) :
  other <> call_id ->
  fst (Calls.start_call now call_id room participant_id calls) !! other
    = calls !! other
  /\ fst (Calls.answer_call now call_id calls) !! other = calls !! other
  /\ fst (Calls.end_call now call_id outcome calls) !! other = calls !! other
  /\ fst (Calls.fail_call now call_id reason calls) !! other = calls !! other.
Proof.
  intros Hne.
  unfold Calls.start_call, Calls.answer_call, Calls.end_call, Calls.fail_call.
  destruct (calls !! call_id) as [call |]; cbn [fst]; [| repeat split].
  repeat split; apply lookup_insert_ne; congruence.
Qed.

Lemma transition_other_call_untouched_witness :
  fst (Calls.fail_call (1052 * Py.second) "c1" (Some "busy")
         (<["c2" := Sample.answered_call]> Sample.ringing_store)) !! "c2"
  = Some Sample.answered_call.
Proof.
  rewrite (proj2 (proj2 (proj2
             (transition_other_call_untouched (1052 * Py.second) "c1" "c2"
                "room-1" None None (Some "busy")
                (<["c2" := Sample.answered_call]> Sample.ringing_store)
                ltac:(discriminate))))).
  reflexivity.
Defined.

(** ** The SIP webhook and its room names ([sip_integration.py]) *)

Lemma prefix_cons_ne (a b : ascii) (s1 s2 : string) :
  a <> b -> String.prefix (String a s1) (String b s2) = false.
Proof.
  intros Hne. cbn [String.prefix].
  destruct (Ascii.ascii_dec a b) as [Heq | _]; [congruence | reflexivity].
Qed.

Lemma prefix_app (s1 s2 : string) : String.prefix s1 (s1 +:+ s2) = true.
Proof.
  induction s1 as [| a s1 IH].
  - now destruct s2.
  - change (String a s1 +:+ s2) with (String a (s1 +:+ s2)).
    cbn [String.prefix].
    destruct (Ascii.ascii_dec a a) as [_ | Hne]; [exact IH | congruence].
Qed.

Lemma replace_from_no_occurrence (id : string) :
  no_letter_s id = true -> Py.replace_from "sip-call-" "" 0 id = id.
Proof.
  induction id as [| c rest IH]; cbn [Py.replace_from no_letter_s];
    [reflexivity |].
  intros Hc. apply andb_true_iff in Hc as [Hc Hrest].
  apply negb_true_iff, Ascii.eqb_neq in Hc.
  rewrite prefix_cons_ne by congruence. now rewrite IH.
Qed.

(** Once the marker has been matched at the head of the room name, the
    rest of the name is scanned from its first character. *)
Lemma replace_from_marker (rest : string) :
  Py.replace_from "sip-call-" "" 0 ("sip-call-" +:+ rest)
  = Py.replace_from "sip-call-" "" 0 rest.
Proof.
  change ("sip-call-" +:+ rest)
    with (String "s" (String "i" (String "p" (String "-" (String "c"
            (String "a" (String "l" (String "l" (String "-" rest))))))))).
  cbn [Py.replace_from].
  change (String "s" (String "i" (String "p" (String "-" (String "c"
            (String "a" (String "l" (String "l" (String "-" rest)))))))))
    with ("sip-call-" +:+ rest).
  rewrite prefix_app. reflexivity.
Qed.

Lemma call_id_of_sip_room (id : string) :
  no_letter_s id = true ->
  Py.replace ("sip-call-" +:+ id) "sip-call-" "" = id.
Proof.
  intros Hid. unfold Py.replace.
  change (String.eqb "sip-call-" "") with false. cbv iota.
  rewrite replace_from_marker. now apply replace_from_no_occurrence.
Qed.

(** [initiate_sip_call] names the room [sip-call-<id>]; the webhook gets the
    id back from the room name by deleting [sip-call-]. *)
Theorem call_id_of_room_round_trip (id : string) :
  no_letter_s id = true ->
  SipIntegration.call_id_of_room ("sip-call-" +:+ id) = id.
Proof.
  intros Hid. unfold SipIntegration.call_id_of_room, Py.replace.
  change (String.eqb "sip-call-" "") with false. cbv iota.
  rewrite replace_from_marker. now apply replace_from_no_occurrence.
Qed.

Lemma call_id_of_room_round_trip_witness :
  SipIntegration.call_id_of_room
    ("sip-call-" +:+ "3f2b8c1e-9d4a-4e6f-8a1b-0c2d4e6f8a1b")
  = "3f2b8c1e-9d4a-4e6f-8a1b-0c2d4e6f8a1b".
Proof. apply call_id_of_room_round_trip. reflexivity. Defined.

(** The id is recovered by deleting every occurrence of [sip-call-], not
    only the leading one: a room named after an id that contains the
    marker resolves to the id with the marker removed. *)
Theorem call_id_of_room_inner_marker (front back : string) :
  no_letter_s front = true ->
  no_letter_s back = true ->
  SipIntegration.call_id_of_room
    ("sip-call-" +:+ front +:+ "sip-call-" +:+ back)
  = front +:+ back.
Proof.
  intros Hfront Hback. unfold SipIntegration.call_id_of_room, Py.replace.
  change (String.eqb "sip-call-" "") with false. cbv iota.
  rewrite replace_from_marker.
  induction front as [| c rest IH].
  - change ("" +:+ "sip-call-" +:+ back) with ("sip-call-" +:+ back).
    rewrite replace_from_marker. now apply replace_from_no_occurrence.
  - cbn [no_letter_s] in Hfront. apply andb_true_iff in Hfront as [Hc Hrest].
    apply negb_true_iff, Ascii.eqb_neq in Hc.
    change (String c rest +:+ "sip-call-" +:+ back)
      with (String c (rest +:+ "sip-call-" +:+ back)).
    cbn [Py.replace_from].
    rewrite prefix_cons_ne by congruence. now rewrite IH.
Qed.

Lemma call_id_of_room_inner_marker_witness :
  SipIntegration.call_id_of_room "sip-call-ab-sip-call-cd" = "ab-cd".
Proof.
  apply (call_id_of_room_inner_marker "ab-" "cd"); reflexivity.
Defined.

(** The webhook for the room [sip-call-<id>]: the call looked up is the
    call [id], and what is stored for it is decided by the event type. *)
Lemma handle_sip_webhook_for_call now id event_data room calls :
  no_letter_s id = true ->
  PyDict.get "room" event_data = Some (Py.VDict room) ->
  PyDict.get "name" room = Some (Py.VStr ("sip-call-" +:+ id)) ->
  SipIntegration.handle_sip_webhook now event_data calls
  = match calls !! id with
    | None => (calls, Py.Return [("status", Py.JStr "error");
                                 ("reason", Py.JStr "call not found")])
    | Some call =>
        let event_type := PyDict.get "event" event_data in
        let participant :=
          default (Py.VDict []) (PyDict.get "participant" event_data) in
        (<[id :=
             if Py.eq_str event_type "participant_joined"
             then match SipIntegration.participant_view participant with
                  | Some participant =>
                      SipIntegration.handle_participant_joined now call
                        participant
                  | None => call
                  end
             else if Py.eq_str event_type "participant_left"
             then match SipIntegration.participant_view participant with
                  | Some participant =>
                      SipIntegration.handle_participant_left now call
                        participant
                  | None => call
                  end
             else if Py.eq_str event_type "room_finished"
             then SipIntegration.handle_room_finished now call
             else call]> calls,
         Py.Return [("status", Py.JStr "processed"); ("call_id", Py.JStr id)])
    end.
Proof.
  intros Hid Hroom Hname.
  assert (Htruthy : Py.truthy (Py.VStr ("sip-call-" +:+ id)) = true)
    by reflexivity.
  assert (Hprefix : Py.startswith ("sip-call-" +:+ id) "sip-call-" = true)
    by apply prefix_app.
  pose proof (call_id_of_sip_room _ Hid) as Hround.
  fold (SipIntegration.call_id_of_room ("sip-call-" +:+ id)) in Hround.
  remember ("sip-call-" +:+ id) as name eqn:Heqname. clear Heqname.
  unfold SipIntegration.handle_sip_webhook.
  rewrite Hroom. cbn [default from_option Datatypes.id].
  rewrite Hname, Htruthy, Hprefix, Hround. cbn [negb orb].
  destruct (calls !! id); reflexivity.
Qed.

(** The webhook writes at most the call its room name resolves to, and
    every payload it does not process leaves the store as it was. A [room]
    entry that is not an object (a [null], a string) makes the read of the
    name raise, and so does a truthy name that is not a string: both are
    answered [error] with the text of the [AttributeError]. A room without
    a name, with a falsy name, or with a name that does not start with
    [sip-call-] is answered [ignored]; a name that resolves to no stored
    call is answered [error]. *)
Theorem webhook_writes_only_its_call
    (now : Py.datetime) (event_data : PyDict.t Py.value)
    (calls : gmap string Call.t) :
  let result := SipIntegration.handle_sip_webhook now event_data calls in
  let room := default (Py.VDict []) (PyDict.get "room" event_data) in
  let ignored :=
    Py.Return [("status", Py.JStr "ignored");
               ("reason", Py.JStr "not a SIP call room")] in
  let failed message :=
    Py.Return [("status", Py.JStr "error"); ("message", Py.JStr message)] in
  ((forall items, room <> Py.VDict items) ->
   result = (calls, failed (Py.attribute_error room "get")))
  /\ (forall items,
        room = Py.VDict items ->
        (PyDict.get "name" items = None -> result = (calls, ignored))
        /\ (forall name,
              PyDict.get "name" items = Some name ->
              (Py.truthy name = false -> result = (calls, ignored))
              /\ (Py.truthy name = true ->
                  (forall s, name <> Py.VStr s) ->
                  result
                  = (calls, failed (Py.attribute_error name "startswith"))))
        /\ (forall s,
              PyDict.get "name" items = Some (Py.VStr s) ->
              (Py.startswith s "sip-call-" = false ->
               result = (calls, ignored))
              /\ (Py.startswith s "sip-call-" = true ->
                  calls !! SipIntegration.call_id_of_room s = None ->
                  result
                  = (calls, Py.Return [("status", Py.JStr "error");
                                       ("reason", Py.JStr "call not found")]))
              /\ (forall other,
                    other <> SipIntegration.call_id_of_room s ->
                    fst result !! other = calls !! other))).
Proof.
  cbv zeta. unfold SipIntegration.handle_sip_webhook.
  split.
  - intros Hroom.
    destruct (default (Py.VDict []) (PyDict.get "room" event_data));
      try reflexivity.
    now contradiction (Hroom items).
  - intros items ->. split; [| split].
    + intros Hname. now rewrite Hname.
    + intros name Hname. rewrite Hname. split.
      * intros Hfalsy. destruct name; now rewrite Hfalsy.
      * intros Htruthy Hstr. destruct name; try (now rewrite Htruthy).
        now contradiction (Hstr s).
    + intros s Hname. rewrite Hname. split; [| split].
      * intros Hprefix. rewrite Hprefix. cbn [negb]. now rewrite orb_true_r.
      * intros Hprefix Hmissing. rewrite Hprefix, Hmissing.
        destruct s as [| c rest]; [discriminate Hprefix | reflexivity].
      * intros other Hne. destruct (_ || _); [reflexivity |].
        destruct (calls !! _) as [call |]; [| reflexivity].
        cbn [fst]. apply lookup_insert_ne. congruence.
Qed.

(** A payload whose [room] is [null] is answered [error]; one for the room
    [call-c1] is answered [ignored]. *)
Lemma webhook_writes_only_its_call_witness :
  SipIntegration.handle_sip_webhook (1010 * Py.second)
    [("event", Py.VStr "participant_joined"); ("room", Py.VNone)]
    Sample.ringing_store
  = (Sample.ringing_store,
     Py.Return [("status", Py.JStr "error");
                ("message",
                 Py.JStr "'NoneType' object has no attribute 'get'")])
  /\ SipIntegration.handle_sip_webhook (1010 * Py.second)
       [("event", Py.VStr "participant_joined");
        ("room", Py.VDict [("name", Py.VStr "call-c1")]);
        ("participant", Py.VDict [("identity", Py.VStr "customer-c1")])]
       Sample.ringing_store
     = (Sample.ringing_store,
        Py.Return [("status", Py.JStr "ignored");
                   ("reason", Py.JStr "not a SIP call room")]).
Proof.
  split.
  - apply (proj1 (webhook_writes_only_its_call (1010 * Py.second)
                    [("event", Py.VStr "participant_joined");
                     ("room", Py.VNone)]
                    Sample.ringing_store)).
    intros items. discriminate.
  - apply (proj1 (proj2 (proj2
             (proj2 (webhook_writes_only_its_call (1010 * Py.second)
                       [("event", Py.VStr "participant_joined");
                        ("room", Py.VDict [("name", Py.VStr "call-c1")]);
                        ("participant",
                         Py.VDict [("identity", Py.VStr "customer-c1")])]
                       Sample.ringing_store)
                [("name", Py.VStr "call-c1")] eq_refl))
             "call-c1" eq_refl)).
    reflexivity.
Defined.

(** Events for the room [sip-call-<id>] of a stored call. A customer
    joining stores the call answered at the time of the event; a
    participant that is not an object makes the participant handler raise
    and catch, and nothing changes. The room finishing stores a call that
    is neither completed nor failed as completed with [ended_at] set, and
    leaves [answered_at] and [duration_seconds] as they were: the duration
    of an answered call is not computed on this path. Any other event type
    is acknowledged as processed and changes nothing. *)
Theorem webhook_events_for_call
    (now : Py.datetime) (id : string) (event_data room : PyDict.t Py.value)
    (calls : gmap string Call.t) (call : Call.t) :
  no_letter_s id = true ->
  calls !! id = Some call ->
  PyDict.get "room" event_data = Some (Py.VDict room) ->
  PyDict.get "name" room = Some (Py.VStr ("sip-call-" +:+ id)) ->
  let event_type := PyDict.get "event" event_data in
  let participant :=
    default (Py.VDict []) (PyDict.get "participant" event_data) in
  let result := SipIntegration.handle_sip_webhook now event_data calls in
  snd result = Py.Return [("status", Py.JStr "processed");
                          ("call_id", Py.JStr id)]
  /\ (Py.eq_str event_type "participant_joined" = true ->
      (forall items identity,
         participant = Py.VDict items ->
         PyDict.get "identity" items = Some (Py.VStr identity) ->
         Py.startswith identity "customer-" = true ->
         fst result
         = <[id := Call.set_answered_at (Some now)
                     (Call.set_call_status "answered" call)]> calls)
      /\ ((forall items, participant <> Py.VDict items) ->
          fst result = calls))
  /\ (Py.eq_str event_type "room_finished" = true ->
      Py.str_in (Call.call_status call) ["completed"; "failed"] = false ->
      exists call',
        fst result = <[id := call']> calls
        /\ Call.call_status call' = "completed"
        /\ Call.ended_at call' = Some now
        /\ Call.answered_at call' = Call.answered_at call
        /\ Call.duration_seconds call' = Call.duration_seconds call)
  /\ (Py.eq_str event_type "participant_joined" = false ->
      Py.eq_str event_type "participant_left" = false ->
      Py.eq_str event_type "room_finished" = false ->
      fst result = calls).
Proof.
  intros Hid Hstored Hroom Hname. cbv zeta.
  rewrite (handle_sip_webhook_for_call now id event_data room calls Hid Hroom
             Hname), Hstored.
  cbv zeta. cbn [fst snd]. split; [reflexivity |]. split; [| split].
  - intros ->. split.
    + intros items identity -> Hidentity Hcustomer.
      cbn [SipIntegration.participant_view]. rewrite Hidentity.
      unfold SipIntegration.handle_participant_joined,
        SipIntegration.identity.
      rewrite lookup_singleton_eq. cbn [default from_option Datatypes.id].
      now rewrite Hcustomer.
    + intros Hnot.
      destruct (default (Py.VDict []) (PyDict.get "participant" event_data));
        cbn [SipIntegration.participant_view];
        try (now apply insert_id).
      now contradiction (Hnot items).
  - intros Hfinished Hopen.
    destruct (PyDict.get "event" event_data) as [[| | | | event | |] |];
      try discriminate.
    cbn [Py.eq_str] in Hfinished |- *.
    apply String.eqb_eq in Hfinished as ->.
    change (String.eqb "room_finished" "participant_joined") with false.
    change (String.eqb "room_finished" "participant_left") with false.
    change (String.eqb "room_finished" "room_finished") with true.
    cbv iota. unfold SipIntegration.handle_room_finished. rewrite Hopen.
    cbn [negb]. eexists. split; [reflexivity |].
    destruct call; repeat split.
  - intros -> -> ->. now apply insert_id.
Qed.

Lemma webhook_events_for_call_witness :
  fst (SipIntegration.handle_sip_webhook (1010 * Py.second)
         [("event", Py.VStr "participant_joined");
          ("room", Py.VDict [("name", Py.VStr "sip-call-c1")]);
          ("participant", Py.VDict [("identity", Py.VStr "customer-c1")])]
         Sample.ringing_store)
  = <["c1" := Sample.answered_call]> Sample.ringing_store.
Proof.
  apply (proj1 (proj1 (proj2
           (webhook_events_for_call (1010 * Py.second) "c1"
              [("event", Py.VStr "participant_joined");
               ("room", Py.VDict [("name", Py.VStr "sip-call-c1")]);
               ("participant", Py.VDict [("identity", Py.VStr "customer-c1")])]
              [("name", Py.VStr "sip-call-c1")]
              Sample.ringing_store Sample.ringing_call eq_refl eq_refl eq_refl
              eq_refl)) eq_refl)
           [("identity", Py.VStr "customer-c1")] "customer-c1" eq_refl eq_refl
           eq_refl).
Defined.

(** ** Starting a SIP call ([initiate_sip_call]) *)

Section InitiateSipCall.

Variable projects : gmap string Project.t.
Variable agents : gmap string AIAgent.t.
Variable contacts : gmap string Contact.t.
Variable api : SipIntegration.gateway.
Variable new_id : string.
Variable now now_failed : Py.datetime.
Variable request : SipIntegration.SIPCallRequest.
Variable calls : gmap string Call.t.

Let result :=
  SipIntegration.initiate_sip_call projects agents contacts api new_id now
    now_failed request calls.

(** What a successful return tells about the state. *)
Lemma initiate_sip_call_success (calls' : gmap string Call.t)
    (tasks : list (string * string)) (resp : SipIntegration.SIPCallResponse) :
  result = (calls', tasks, inl resp) ->
  exists sip_call_id identity,
    SipIntegration.create_sip_participant api
      = SipIntegration.Returns (sip_call_id, identity)
    /\ calls'
       = <[new_id :=
             Call.set_call_status "ringing"
               (Call.set_participant_id (Some identity)
                  (Call.set_sip_call_id (Some sip_call_id)
                     (Call.set_room_name (Some ("sip-call-" +:+ new_id))
                        (SipIntegration.new_sip_call new_id now request))))]>
           calls
    /\ tasks = [(new_id, "sip-call-" +:+ new_id)]
    /\ SipIntegration.response_call_id resp = new_id
    /\ SipIntegration.response_room_name resp = "sip-call-" +:+ new_id
    /\ SipIntegration.response_participant_identity resp = identity
    /\ SipIntegration.response_status resp = "ringing".
Proof.
  subst result. unfold SipIntegration.initiate_sip_call.
  repeat (match goal with
          | |- context [if ?b then _ else _] => destruct b
          end; [discriminate |]).
  destruct (SipIntegration.livekit_api api); [| discriminate].
  destruct (SipIntegration.create_room api); [| discriminate].
  destruct (SipIntegration.create_sip_participant api) as [[sip identity] |];
    [| discriminate].
  intros [= <- <- <-]. exists sip, identity.
  split; [reflexivity |]. split; [now rewrite insert_insert_eq |].
  repeat split.
Qed.

(** Every run ends in one of three ways. Rejected before the record is
    created (validation, or the API client): the store is unchanged.
    Failed at the gateway after the record was created: the record is kept,
    marked [failed] with [ended_at] set and the error text in its outcome.
    Succeeded: the record is stored [ringing], bound to room
    [sip-call-<id>]. The no-answer watchdog is queued in the last case
    only, and the first two raise a 500. *)
Theorem initiate_sip_call_outcomes :
  (fst (fst result) = calls
   /\ snd (fst result) = []
   /\ exists detail, snd result = inr (Py.HTTPException 500 detail))
  \/ (exists message call,
        fst (fst result) !! new_id = Some call
        /\ Call.call_status call = "failed"
        /\ Call.ended_at call = Some now_failed
        /\ Call.call_outcome call = Some ("Initiation failed: " +:+ message)
        /\ snd (fst result) = []
        /\ snd result = inr (SipIntegration.initiation_failed message))
  \/ (exists call resp,
        fst (fst result) !! new_id = Some call
        /\ Call.call_status call = "ringing"
        /\ Call.room_name call = Some ("sip-call-" +:+ new_id)
        /\ Call.started_at call = now
        /\ Call.ended_at call = None
        /\ snd (fst result) = [(new_id, "sip-call-" +:+ new_id)]
        /\ snd result = inl resp
        /\ SipIntegration.response_status resp = "ringing").
Proof.
  subst result. unfold SipIntegration.initiate_sip_call.
  repeat (match goal with
          | |- context [if ?b then _ else _] => destruct b
          end; [left; cbn [fst snd]; eauto |]).
  destruct (SipIntegration.livekit_api api) as [_ | message];
    [| left; cbn [fst snd]; unfold SipIntegration.initiation_failed; eauto].
  destruct (SipIntegration.create_room api) as [_ | message].
  - destruct (SipIntegration.create_sip_participant api)
      as [[sip identity] | message].
    + right. right. cbn [fst snd]. eexists. eexists.
      split; [apply lookup_insert_eq |]. repeat split.
    + right. left. cbn [fst snd]. exists message. eexists.
      split; [apply lookup_insert_eq |]. repeat split.
  - right. left. cbn [fst snd]. exists message. eexists.
    split; [apply lookup_insert_eq |]. repeat split.
Qed.

(** In every case the documents of the other calls are left alone. *)
Theorem initiate_sip_call_other_calls (other : string) :
  other <> new_id -> fst (fst result) !! other = calls !! other.
Proof.
  intros Hne. subst result. unfold SipIntegration.initiate_sip_call.
  repeat (match goal with
          | |- context [if ?b then _ else _] => destruct b
          end; [reflexivity |]).
  destruct (SipIntegration.livekit_api api); [| reflexivity].
  destruct (SipIntegration.create_room api);
    [destruct (SipIntegration.create_sip_participant api) as [[sip identity] |] |];
    cbn [fst]; rewrite !lookup_insert_ne by congruence; reflexivity.
Qed.

(** The webhook finds the call again: when the gateway reports the
    customer under an identity that starts with [customer-] (the handler
    asks for [customer-<id>]), the [participant_joined] event for the room
    of a call just started stores that call answered. *)
Theorem initiated_call_answered_by_webhook
    (calls' : gmap string Call.t) (tasks : list (string * string))
    (resp : SipIntegration.SIPCallResponse) (joined : Py.datetime) :
  result = (calls', tasks, inl resp) ->
  no_letter_s new_id = true ->
  Py.startswith (SipIntegration.response_participant_identity resp) "customer-"
    = true ->
  exists call,
    fst (SipIntegration.handle_sip_webhook joined
           [("event", Py.VStr "participant_joined");
            ("room",
             Py.VDict
               [("name", Py.VStr (SipIntegration.response_room_name resp))]);
            ("participant",
             Py.VDict
               [("identity",
                 Py.VStr (SipIntegration.response_participant_identity resp))])]
           calls') !! SipIntegration.response_call_id resp = Some call
    /\ Call.call_status call = "answered"
    /\ Call.answered_at call = Some joined
    /\ Call.room_name call = Some (SipIntegration.response_room_name resp).
Proof.
  intros Hresult Hid Hcustomer.
  apply initiate_sip_call_success in Hresult
    as (sip & identity & _ & -> & _ & Hcall & Hname & Hident & _).
  rewrite Hcall, Hname, Hident in *. clear Hcall Hname Hident.
  rewrite (handle_sip_webhook_for_call joined new_id
             [("event", Py.VStr "participant_joined");
              ("room", Py.VDict [("name", Py.VStr ("sip-call-" +:+ new_id))]);
              ("participant", Py.VDict [("identity", Py.VStr identity)])]
             [("name", Py.VStr ("sip-call-" +:+ new_id))] _ Hid eq_refl eq_refl).
  rewrite lookup_insert_eq. cbv zeta.
  change (PyDict.get "event" _) with (Some (Py.VStr "participant_joined")).
  change (PyDict.get "participant" _)
    with (Some (Py.VDict [("identity", Py.VStr identity)])).
  cbn [Py.eq_str default from_option Datatypes.id].
  change (String.eqb "participant_joined" "participant_joined") with true.
  cbv iota.
  change (SipIntegration.participant_view
            (Py.VDict [("identity", Py.VStr identity)]))
    with (Some ({[ "identity" := identity ]} : gmap string string)).
  cbv iota. unfold SipIntegration.handle_participant_joined.
  assert (Hidentity :
            SipIntegration.identity ({[ "identity" := identity ]}) = identity).
  { unfold SipIntegration.identity. now rewrite lookup_singleton_eq. }
  rewrite Hidentity, Hcustomer. cbn [fst].
  eexists. split; [apply lookup_insert_eq |]. repeat split.
Qed.

End InitiateSipCall.

Lemma initiate_sip_call_other_calls_witness :
  fst (fst Sample.initiated) !! "c1" = Some Sample.ringing_call.
Proof.
  unfold Sample.initiated.
  rewrite (initiate_sip_call_other_calls Sample.projects Sample.agents
             Sample.contacts Sample.gateway_ok "c7" (1000 * Py.second)
             (1001 * Py.second) Sample.sip_request Sample.ringing_store "c1")
    by discriminate.
  reflexivity.
Defined.

Lemma initiated_call_answered_by_webhook_witness :
  exists call,
    fst (SipIntegration.handle_sip_webhook (1010 * Py.second)
           [("event", Py.VStr "participant_joined");
            ("room", Py.VDict [("name", Py.VStr "sip-call-c7")]);
            ("participant", Py.VDict [("identity", Py.VStr "customer-c7")])]
           (fst (fst Sample.initiated))) !! "c7" = Some call
    /\ Call.call_status call = "answered"
    /\ Call.answered_at call = Some (1010 * Py.second)
    /\ Call.room_name call = Some "sip-call-c7".
Proof.
  apply (initiated_call_answered_by_webhook Sample.projects Sample.agents
           Sample.contacts Sample.gateway_ok "c7" (1000 * Py.second)
           (1001 * Py.second) Sample.sip_request Sample.ringing_store
           (fst (fst Sample.initiated)) (snd (fst Sample.initiated))
           {| SipIntegration.response_call_id := "c7";
              SipIntegration.response_sip_call_id := "SCL_1";
              SipIntegration.response_room_name := "sip-call-c7";
              SipIntegration.response_participant_identity := "customer-c7";
              SipIntegration.response_status := "ringing";
              SipIntegration.response_estimated_cost :=
                Some (SipIntegration.calculate_call_cost "+15550100") |}
           (1010 * Py.second)).
  - vm_compute. reflexivity.
  - reflexivity.
  - reflexivity.
Defined.

(** ** Transferring a call ([transfer_sip_call]) *)

(** A ringing or answered call is stored [transferred] with the
    destination in its outcome; [ended_at], [answered_at] and
    [duration_seconds] are not written. A call that is missing or in any
    other status, or a failure to build the API client, raises a 500 and
    leaves the store unchanged. *)
Theorem transfer_sip_call_cases
    (api_ok : bool) (call_id destination transfer_type : string)
    (calls : gmap string Call.t) :
  let result :=
    SipIntegration.transfer_sip_call api_ok call_id destination transfer_type
      calls in
  (forall call,
     calls !! call_id = Some call ->
     Py.str_in (Call.call_status call) ["answered"; "ringing"] = true ->
     api_ok = true ->
     exists call',
       fst result = <[call_id := call']> calls
       /\ Call.call_status call' = "transferred"
       /\ Call.call_outcome call'
          = Some ("Transferred to " +:+ destination +:+ " (" +:+ transfer_type
                  +:+ ")")
       /\ Call.ended_at call' = Call.ended_at call
       /\ Call.answered_at call' = Call.answered_at call
       /\ Call.duration_seconds call' = Call.duration_seconds call
       /\ exists body, snd result = Py.Return body)
  /\ (calls !! call_id = None
      \/ api_ok = false
      \/ (exists call,
            calls !! call_id = Some call
            /\ Py.str_in (Call.call_status call) ["answered"; "ringing"]
               = false) ->
      result = (calls, Py.HTTPException 500 "Failed to transfer call")).
Proof.
  cbv zeta. unfold SipIntegration.transfer_sip_call. split.
  - intros call Hstored Hactive ->. rewrite Hstored, Hactive. cbn [negb fst snd].
    eexists. split; [reflexivity |]. destruct call. repeat split. eauto.
  - intros [Hmissing | [-> | (call & Hstored & Hidle)]].
    + now rewrite Hmissing.
    + destruct (calls !! call_id) as [call |]; [| reflexivity].
      now destruct (negb _).
    + now rewrite Hstored, Hidle.
Qed.

Lemma transfer_sip_call_cases_witness :
  (exists call',
     fst (SipIntegration.transfer_sip_call true "c1" "+15550199" "blind"
            Sample.ringing_store)
     = <["c1" := call']> Sample.ringing_store
     /\ Call.call_status call' = "transferred"
     /\ Call.call_outcome call' = Some "Transferred to +15550199 (blind)"
     /\ Call.ended_at call' = None)
  /\ SipIntegration.transfer_sip_call true "c1" "+15550199" "blind"
       Sample.completed_store
     = (Sample.completed_store,
        Py.HTTPException 500 "Failed to transfer call").
Proof.
  split.
  - destruct (proj1 (transfer_sip_call_cases true "c1" "+15550199" "blind"
                       Sample.ringing_store)
                Sample.ringing_call eq_refl eq_refl eq_refl)
      as (call' & Hstore & Hstatus & Houtcome & Hended & _).
    exists call'. repeat split; assumption.
  - apply (proj2 (transfer_sip_call_cases true "c1" "+15550199" "blind"
                    Sample.completed_store)).
    right. right. exists Sample.completed_call. split; reflexivity.
Defined.

(** ** The watchdog writes one document at most *)

(** Whatever happens to the store while the watchdog sleeps, the store it
    leaves behind differs from the store it last read in the document of
    the watched call at most. *)
Theorem watchdog_other_calls_untouched
    (db_at : Z -> gmap string Call.t) (now : Py.datetime)
    (call_id other : string) (extra : nat) :
  other <> call_id ->
  exists r,
    SipIntegration.monitor_sip_call (13 + extra) db_at now call_id = Some r
    /\ SipIntegration.final_store r !! other
       = db_at (SipIntegration.final_wait_time r) !! other.
Proof.
  intros Hne.
  destruct (monitor_sip_call_run db_at now call_id extra)
    as (r & Hrun & [(_ & Hwait & _ & Hstore)
                   | (k & _ & _ & Hwait & _ & _ & Hstore)]);
    exists r; (split; [exact Hrun |]); rewrite Hstore, Hwait; [| reflexivity].
  destruct (db_at 60 !! call_id) as [call |]; [| reflexivity].
  destruct (String.eqb _ _); [| reflexivity].
  apply lookup_insert_ne. congruence.
Qed.

Lemma watchdog_other_calls_untouched_witness :
  exists r,
    SipIntegration.monitor_sip_call 13
      (fun _ => <["c2" := Sample.answered_call]> Sample.ringing_store)
      (1060 * Py.second) "c1" = Some r
    /\ SipIntegration.final_store r !! "c2" = Some Sample.answered_call.
Proof.
  destruct (watchdog_other_calls_untouched
              (fun _ => <["c2" := Sample.answered_call]> Sample.ringing_store)
              (1060 * Py.second) "c1" "c2" 0 ltac:(discriminate))
    as (r & Hrun & Hother).
  exists r. split; [exact Hrun |]. rewrite Hother. reflexivity.
Defined.

(** ** The health poll ([update_instance_status]) *)

(** Polling twice at the same instant, with the same answer from the
    operating system, is polling once. *)
Theorem update_instance_status_idempotent
    (os_kill : Z -> AgentManagement.probe) (now : Py.datetime)
    (instance : AgentInstance.t) :
  AgentManagement.update_instance_status os_kill now
    (AgentManagement.update_instance_status os_kill now instance)
  = AgentManagement.update_instance_status os_kill now instance.
Proof.
  unfold AgentManagement.update_instance_status.
  destruct instance as [id agent project kind status started pid heartbeat].
  cbn [AgentInstance.process_id AgentInstance.status AgentInstance.started_at
       AgentInstance.set_status AgentInstance.set_last_heartbeat].
  destruct (Py.truthy_int pid) eqn:Hpid.
  - destruct (os_kill (default 0 pid)) eqn:Hprobe.
    + destruct (String.eqb status "starting") eqn:Hstarting.
      * destruct (Py.total_seconds_gt now started 30) eqn:Hage;
          cbn [AgentInstance.process_id AgentInstance.status
               AgentInstance.started_at AgentInstance.set_status
               AgentInstance.set_last_heartbeat];
          rewrite Hpid, Hprobe; cbn [String.eqb]; rewrite ?Hstarting, ?Hage;
          reflexivity.
      * cbn [AgentInstance.process_id AgentInstance.status
             AgentInstance.started_at AgentInstance.set_status
             AgentInstance.set_last_heartbeat].
        now rewrite Hpid, Hprobe, Hstarting.
    + cbn [AgentInstance.process_id AgentInstance.status
           AgentInstance.set_status]. now rewrite Hpid, Hprobe.
    + cbn [AgentInstance.process_id AgentInstance.status
           AgentInstance.set_status]. now rewrite Hpid, Hprobe.
  - destruct (negb (Py.str_in status ["stopped"; "error"])) eqn:Hterminal;
      cbn [AgentInstance.process_id AgentInstance.status
           AgentInstance.set_status]; rewrite Hpid; [reflexivity |].
    now rewrite Hterminal.
Qed.

(** An instance becomes [running] in a poll only if it was [starting], its
    process id is set and its process is alive, and more than 30 seconds
    have passed since [started_at]; at 30 seconds exactly it stays
    [starting]. *)
Theorem promotion_only_after_30_seconds
    (os_kill : Z -> AgentManagement.probe) (now : Py.datetime)
    (instance : AgentInstance.t) :
  AgentInstance.status instance <> "running" ->
  AgentInstance.status
    (AgentManagement.update_instance_status os_kill now instance) = "running" ->
  AgentInstance.status instance = "starting"
  /\ Py.truthy_int (AgentInstance.process_id instance) = true
  /\ os_kill (default 0 (AgentInstance.process_id instance))
     = AgentManagement.Alive
  /\ 30 * Py.second < now - AgentInstance.started_at instance.
Proof.
  intros Hbefore. unfold AgentManagement.update_instance_status.
  destruct (Py.truthy_int _).
  - destruct (os_kill _); [| discriminate | discriminate].
    cbn [AgentInstance.status AgentInstance.set_last_heartbeat
         AgentInstance.started_at].
    destruct (String.eqb_spec (AgentInstance.status instance) "starting")
      as [Hstarting | _]; [| intros; contradiction].
    unfold Py.total_seconds_gt.
    destruct (Z.ltb_spec (30 * Py.second)
                (now - AgentInstance.started_at instance)) as [Hage | _].
    + intros _. repeat split; assumption.
    + cbn [AgentInstance.status]. intros; contradiction.
  - destruct (negb _); cbn [AgentInstance.status]; [discriminate |].
    intros; contradiction.
Qed.

Lemma promotion_only_after_30_seconds_witness :
  30 * Py.second < 1031 * Py.second - 1000 * Py.second.
Proof.
  exact (proj2 (proj2 (proj2
           (promotion_only_after_30_seconds (fun _ => AgentManagement.Alive)
              (1031 * Py.second)
              (Sample.instance "a1-1000-0" "starting" 1000 4242 1000)
              ltac:(discriminate) eq_refl)))).
Defined.

Lemma monitor_live_running_stays_witness :
  AgentManagement.monitor_instance (fun _ => AgentManagement.Alive)
    (2000 * Py.second) (2000 * Py.second + 1)
    (Sample.instance "a1-1000-0" "running" 1000 4242 1100)
  = AgentInstance.set_last_heartbeat (Some (2000 * Py.second))
      (Sample.instance "a1-1000-0" "running" 1000 4242 1100).
Proof.
  apply monitor_live_running_stays; [reflexivity | reflexivity | reflexivity |].
  vm_compute. discriminate.
Defined.

(** ** The registry stays a dict of instances keyed by their ids *)

Lemma dict_keys_mutate_where {V} (sel : V -> bool) (f : V -> V) (d : PyDict.t V) :
  PyDict.keys (PyDict.mutate_where sel f d) = PyDict.keys d.
Proof.
  unfold PyDict.keys, PyDict.mutate_where. rewrite map_map. apply map_ext.
  intros [k v]. simpl. now destruct (sel v).
Qed.

Lemma dict_keys_set {V} (k : string) (v : V) (d : PyDict.t V) :
  PyDict.keys (PyDict.set k v d)
  = if PyDict.mem k d then PyDict.keys d else PyDict.keys d ++ [k].
Proof.
  unfold PyDict.mem. induction d as [| [k' v'] d IH]; simpl; [reflexivity |].
  destruct (String.eqb_spec k k') as [-> | Hne]; simpl; [reflexivity |].
  rewrite IH. now destruct (PyDict.get k d).
Qed.

Lemma dict_get_elem_of_keys {V} (k : string) (d : PyDict.t V) :
  PyDict.get k d = None -> k ∉ PyDict.keys d.
Proof.
  induction d as [| [k' v'] d IH]; simpl; [intros _; apply not_elem_of_nil |].
  destruct (String.eqb_spec k k') as [-> | Hne]; [discriminate |].
  intros Hnone. apply not_elem_of_cons. split; [exact Hne | now apply IH].
Qed.

Lemma registry_wf_set id instance agent_instances :
  registry_wf agent_instances ->
  AgentInstance.instance_id instance = id ->
  registry_wf (PyDict.set id instance agent_instances).
Proof.
  intros [Hnodup Hids] Hid. split.
  - rewrite dict_keys_set. unfold PyDict.mem.
    destruct (PyDict.get id agent_instances) eqn:Hget; [exact Hnodup |].
    apply NoDup_app. split; [exact Hnodup |]. split; [| apply NoDup_singleton].
    intros k Hk Hin. apply list_elem_of_singleton in Hin as ->.
    now apply (dict_get_elem_of_keys _ _ Hget).
  - clear Hnodup.
    induction Hids as [| [k v] d Hkv Hids IH]; simpl.
    + repeat constructor. now simpl.
    + destruct (String.eqb_spec id k) as [<- | Hne].
      * constructor; [now simpl | exact Hids].
      * constructor; [exact Hkv | exact IH].
Qed.

Lemma registry_wf_mutate_where sel (f : AgentInstance.t -> AgentInstance.t)
    agent_instances :
  (forall instance,
     AgentInstance.instance_id (f instance) = AgentInstance.instance_id instance) ->
  registry_wf agent_instances ->
  registry_wf (PyDict.mutate_where sel f agent_instances).
Proof.
  intros Hf [Hnodup Hids]. split; [now rewrite dict_keys_mutate_where |].
  unfold PyDict.mutate_where. apply Forall_map.
  eapply Forall_impl; [exact Hids |].
  intros [k v] Hkv. simpl in *. destruct (sel v); simpl; [| exact Hkv].
  now rewrite Hf.
Qed.

Lemma registry_wf_mutate id (f : AgentInstance.t -> AgentInstance.t)
    agent_instances :
  (forall instance,
     AgentInstance.instance_id (f instance) = AgentInstance.instance_id instance) ->
  registry_wf agent_instances ->
  registry_wf (PyDict.mutate id f agent_instances).
Proof.
  intros Hf [Hnodup Hids]. split; [now rewrite dict_mutate_keys |].
  unfold PyDict.mutate. apply Forall_map.
  eapply Forall_impl; [exact Hids |].
  intros [k v] Hkv. simpl in *. destruct (String.eqb id k); simpl; [| exact Hkv].
  now rewrite Hf.
Qed.

Lemma registry_wf_del id agent_instances :
  registry_wf agent_instances -> registry_wf (PyDict.del id agent_instances).
Proof.
  intros [Hnodup Hids].
  induction agent_instances as [| [k v] d IH]; simpl; [now split |].
  apply NoDup_cons in Hnodup as [Hfresh Hnodup].
  apply Forall_cons in Hids as [Hkv Hids].
  destruct (String.eqb id k); [now split |].
  destruct (IH Hnodup Hids) as [Hnodup' Hids'].
  split; [| now constructor].
  simpl. apply NoDup_cons. split; [| exact Hnodup'].
  intros Hin. apply Hfresh. clear - Hin.
  induction d as [| [k' v'] d IHd]; simpl in *; [exact Hin |].
  destruct (String.eqb id k'); [now right |].
  simpl in Hin. apply elem_of_cons in Hin as [-> | Hin]; [left | right; auto].
Qed.

Lemma update_instance_status_id os_kill now instance :
  AgentInstance.instance_id
    (AgentManagement.update_instance_status os_kill now instance)
  = AgentInstance.instance_id instance.
Proof.
  unfold AgentManagement.update_instance_status.
  destruct (Py.truthy_int _).
  - destruct (os_kill _); simpl; try reflexivity.
    destruct (String.eqb _ _); [| reflexivity].
    now destruct (Py.total_seconds_gt _ _ _).
  - now destruct (negb _).
Qed.

Lemma monitor_instance_id os_kill now now_check instance :
  AgentInstance.instance_id
    (AgentManagement.monitor_instance os_kill now now_check instance)
  = AgentInstance.instance_id instance.
Proof.
  unfold AgentManagement.monitor_instance.
  destruct (AgentInstance.last_heartbeat _);
    [destruct (Py.total_seconds_gt _ _ _) |]; simpl;
    apply update_instance_status_id.
Qed.

Lemma scale_up_loop_wf popen now deployment agent n : forall i agent_instances,
  registry_wf agent_instances ->
  registry_wf
    (fst (AgentManagement.scale_up_loop popen now deployment agent i n
            agent_instances)).
Proof.
  induction n as [| n IH]; intros i agent_instances Hwf; simpl; [exact Hwf |].
  destruct (popen i) as [pid |]; simpl; [| exact Hwf].
  apply IH. now apply registry_wf_set.
Qed.

Lemma deploy_loop_wf popen now deployment n : forall i agent_instances deployed,
  registry_wf agent_instances ->
  registry_wf
    (fst (fst (AgentManagement.deploy_loop popen now deployment i n
                 agent_instances deployed))).
Proof.
  induction n as [| n IH]; intros i agent_instances deployed Hwf; simpl;
    [exact Hwf |].
  destruct (popen i) as [pid |]; simpl; [| exact Hwf].
  apply IH. now apply registry_wf_set.
Qed.

Lemma scale_agent_wf agents popen now agent target agent_instances :
  registry_wf agent_instances ->
  registry_wf
    (fst (fst (AgentManagement.scale_agent agents popen now agent target
                 agent_instances))).
Proof.
  intros Hwf. unfold AgentManagement.scale_agent.
  destruct (target <? 0); [exact Hwf |].
  destruct (_ <? target).
  - destruct (agents !! agent) as [a |]; [| exact Hwf].
    pose proof (scale_up_loop_wf popen now
                  (AgentDeployment.with_defaults agent (AIAgent.project_id a)
                     (target
                      - Z.of_nat
                          (length
                             (List.filter (AgentManagement.is_current agent)
                                (PyDict.values agent_instances)))))
                  agent
                  (Z.to_nat
                     (target
                      - Z.of_nat
                          (length
                             (List.filter (AgentManagement.is_current agent)
                                (PyDict.values agent_instances)))))
                  0 agent_instances Hwf) as Hloop.
    destruct (AgentManagement.scale_up_loop _ _ _ _ _ _ _) as [r ok].
    now destruct ok.
  - now destruct (target <? _).
Qed.

(** Every operation on the registry keeps it well formed: no key twice,
    every instance under its own [instance_id]. *)
Theorem registry_wf_preserved
    (agents : gmap string AIAgent.t) (projects : gmap string Project.t)
    (popen : Z -> option Z) (os_kill : Z -> AgentManagement.probe)
    (now now_check : Py.datetime) (agent : string) (listed : option string)
    (target pid : Z) (id : string) (deployment : AgentDeployment.t)
    (agent_instances : AgentManagement.registry) :
  registry_wf agent_instances ->
  registry_wf
    (fst (fst (AgentManagement.deploy_agent agents projects popen now
                 deployment agent_instances)))
  /\ registry_wf
       (fst (fst (AgentManagement.scale_agent agents popen now agent target
                    agent_instances)))
  /\ registry_wf
       (fst (AgentManagement.get_agent_instances os_kill now listed
               agent_instances))
  /\ registry_wf
       (AgentManagement.monitor_agent_instances os_kill now now_check agent
          agent_instances)
  /\ registry_wf
       (fst (fst (AgentManagement.stop_begin os_kill id agent_instances)))
  /\ registry_wf
       (fst (fst (AgentManagement.stop_force os_kill pid id agent_instances)))
  /\ registry_wf (AgentManagement.stop_evict id agent_instances).
Proof.
  intros Hwf.
  split; [| split; [| split; [| split; [| split; [| split]]]]].
  - unfold AgentManagement.deploy_agent.
    destruct (negb _); [exact Hwf |]. destruct (negb _); [exact Hwf |].
    destruct (_ && _); [exact Hwf |].
    pose proof (deploy_loop_wf popen now deployment
                  (Z.to_nat (AgentDeployment.replicas deployment)) 0
                  agent_instances [] Hwf) as Hloop.
    destruct (AgentManagement.deploy_loop _ _ _ _ _ _ _) as [[r deployed] ok].
    now destruct ok.
  - now apply scale_agent_wf.
  - unfold AgentManagement.get_agent_instances. cbn [fst].
    apply registry_wf_mutate_where; [apply update_instance_status_id | exact Hwf].
  - unfold AgentManagement.monitor_agent_instances.
    apply registry_wf_mutate_where; [apply monitor_instance_id | exact Hwf].
  - unfold AgentManagement.stop_begin.
    destruct (PyDict.get id agent_instances); [| exact Hwf].
    destruct (Py.truthy_int _); [destruct (os_kill _) |]; cbn [fst];
      repeat apply registry_wf_mutate; auto.
  - unfold AgentManagement.stop_force.
    destruct (os_kill pid); cbn [fst]; try apply registry_wf_mutate; auto.
  - unfold AgentManagement.stop_evict.
    destruct (PyDict.mem id agent_instances); [now apply registry_wf_del | exact Hwf].
Qed.

Lemma registry_wf_preserved_witness :
  registry_wf
    (fst (fst (AgentManagement.scale_agent Sample.agents
                 (fun i => Some (5000 + i)) (1200 * Py.second) "a1" 5
                 Sample.three_running)))
  /\ registry_wf (AgentManagement.stop_evict "a1-1020-0" Sample.three_running).
Proof.
  pose proof (registry_wf_preserved Sample.agents Sample.projects
                (fun i => Some (5000 + i)) (fun _ => AgentManagement.Alive)
                (1200 * Py.second) (1200 * Py.second) "a1" None 5 4302
                "a1-1020-0" (AgentDeployment.with_defaults "a1" "p1" 1)
                Sample.three_running sample_three_running_wf)
    as (_ & Hscale & _ & _ & _ & _ & Hevict).
  now split.
Defined.

(** ** Stopping an instance ([stop_agent_instance]) *)

Lemma dict_get_mutate_eq {V} (k : string) (f : V -> V) (d : PyDict.t V) :
  PyDict.get k (PyDict.mutate k f d) = option_map f (PyDict.get k d).
Proof.
  induction d as [| [k' v'] d IH]; simpl; [reflexivity |].
  destruct (String.eqb k k') eqn:Hk; simpl; now rewrite Hk.
Qed.

Lemma dict_get_del_ne {V} (k k' : string) (d : PyDict.t V) :
  k' <> k -> PyDict.get k' (PyDict.del k d) = PyDict.get k' d.
Proof.
  intros Hne. induction d as [| [k0 v0] d IH]; simpl; [reflexivity |].
  destruct (String.eqb_spec k k0) as [-> | Hk]; simpl.
  - apply String.eqb_neq in Hne. now rewrite Hne.
  - now rewrite IH.
Qed.

Lemma dict_get_del_eq {V} (k : string) (d : PyDict.t V) :
  NoDup (PyDict.keys d) -> PyDict.get k (PyDict.del k d) = None.
Proof.
  induction d as [| [k0 v0] d IH]; simpl; [reflexivity |].
  rewrite NoDup_cons. intros [Hfresh Hnodup].
  destruct (String.eqb_spec k k0) as [-> | Hk]; simpl.
  - now apply dict_get_notin.
  - apply String.eqb_neq in Hk. rewrite Hk. now apply IH.
Qed.

Lemma stop_evict_get (id other : string)
    (agent_instances : AgentManagement.registry) :
  NoDup (PyDict.keys agent_instances) ->
  PyDict.get other (AgentManagement.stop_evict id agent_instances)
  = if String.eqb other id then None else PyDict.get other agent_instances.
Proof.
  intros Hnodup. unfold AgentManagement.stop_evict, PyDict.mem.
  destruct (String.eqb_spec other id) as [-> | Hne].
  - destruct (PyDict.get id agent_instances) eqn:Hget;
      [now apply dict_get_del_eq | exact Hget].
  - destruct (PyDict.get id agent_instances); [| reflexivity].
    now apply dict_get_del_ne.
Qed.

(** The registry after the eviction that ends a stop: the entry of [id] is
    gone and every other entry is as it was before the stop began. *)
Lemma stop_evict_after_marks (id other : string) (marks : list string)
    (agent_instances : AgentManagement.registry) :
  NoDup (PyDict.keys agent_instances) ->
  PyDict.get other
    (AgentManagement.stop_evict id
       (fold_left
          (fun registry status =>
             PyDict.mutate id (AgentInstance.set_status status) registry)
          marks agent_instances))
  = if String.eqb other id then None else PyDict.get other agent_instances.
Proof.
  intros Hnodup.
  assert (Hfold : forall registry,
            PyDict.keys
              (fold_left
                 (fun registry status =>
                    PyDict.mutate id (AgentInstance.set_status status) registry)
                 marks registry) = PyDict.keys registry
            /\ (other <> id ->
                PyDict.get other
                  (fold_left
                     (fun registry status =>
                        PyDict.mutate id (AgentInstance.set_status status)
                          registry)
                     marks registry) = PyDict.get other registry)).
  { induction marks as [| status marks IH]; intros registry; simpl;
      [split; reflexivity |].
    destruct (IH (PyDict.mutate id (AgentInstance.set_status status) registry))
      as [Hkeys Hget].
    split; [now rewrite Hkeys, dict_mutate_keys |].
    intros Hne. now rewrite Hget, dict_get_mutate_ne. }
  destruct (Hfold agent_instances) as [Hkeys Hget].
  rewrite stop_evict_get by now rewrite Hkeys.
  destruct (String.eqb_spec other id) as [_ | Hne]; [reflexivity | now apply Hget].
Qed.

(** A stop that runs undisturbed. An id that is not registered: nothing
    happens and no signal is sent. A registered instance: no other entry
    is touched, every signal goes to the instance's own process, and
    unless the operating system answers with an error other than
    [ProcessLookupError] the entry is gone at the end; on such an error at
    the first signal the instance is left in the registry in status
    [stopping], with no signal sent and no eviction. *)
Theorem stop_agent_instance_run
    (os_kill os_kill_later : Z -> AgentManagement.probe) (id : string)
    (agent_instances : AgentManagement.registry) :
  NoDup (PyDict.keys agent_instances) ->
  let result :=
    AgentManagement.stop_agent_instance os_kill os_kill_later id
      agent_instances in
  (PyDict.get id agent_instances = None -> result = (agent_instances, []))
  /\ (forall instance,
        PyDict.get id agent_instances = Some instance ->
        let pid := default 0 (AgentInstance.process_id instance) in
        (forall other, other <> id ->
           PyDict.get other (fst result) = PyDict.get other agent_instances)
        /\ (forall p sig, In (p, sig) (snd result) -> p = pid)
        /\ ((Py.truthy_int (AgentInstance.process_id instance) = true ->
             os_kill pid <> AgentManagement.OtherOSError
             /\ (os_kill pid = AgentManagement.Alive ->
                 os_kill_later pid <> AgentManagement.OtherOSError)) ->
            PyDict.get id (fst result) = None)
        /\ (Py.truthy_int (AgentInstance.process_id instance) = true ->
            os_kill pid = AgentManagement.OtherOSError ->
            result
            = (PyDict.mutate id (AgentInstance.set_status "stopping")
                 agent_instances, []))).
Proof.
  intros Hnodup result. subst result.
  unfold AgentManagement.stop_agent_instance, AgentManagement.stop_begin.
  split.
  - intros Hmissing. now rewrite Hmissing.
  - intros instance Hget. rewrite Hget.
    set (pid := default 0 (AgentInstance.process_id instance)).
    pose proof (fun other =>
                  stop_evict_after_marks id other ["stopping"; "stopped"]
                    agent_instances Hnodup) as Hevicted.
    cbn [fold_left] in Hevicted.
    destruct (Py.truthy_int (AgentInstance.process_id instance)) eqn:Hpid.
    + destruct (os_kill pid) eqn:Hfirst.
      * unfold AgentManagement.stop_force.
        destruct (os_kill_later pid) eqn:Hlater; cbn [fst snd].
        -- split; [| split; [| split]].
           ++ intros other Hne. rewrite Hevicted.
              apply String.eqb_neq in Hne. now rewrite Hne.
           ++ intros p sig [[= <- _] | [[= <- _] | []]]; reflexivity.
           ++ intros _. now rewrite Hevicted, String.eqb_refl.
           ++ discriminate.
        -- split; [| split; [| split]].
           ++ intros other Hne. rewrite Hevicted.
              apply String.eqb_neq in Hne. now rewrite Hne.
           ++ intros p sig [[= <- _] | []]; reflexivity.
           ++ intros _. now rewrite Hevicted, String.eqb_refl.
           ++ discriminate.
        -- split; [| split; [| split]].
           ++ intros other Hne. now rewrite dict_get_mutate_ne.
           ++ intros p sig [[= <- _] | []]; reflexivity.
           ++ intros Hok. destruct (Hok eq_refl) as [_ Hno].
              now specialize (Hno eq_refl).
           ++ discriminate.
      * cbn [fst snd]. split; [| split; [| split]].
        -- intros other Hne. rewrite Hevicted.
           apply String.eqb_neq in Hne. now rewrite Hne.
        -- intros p sig [].
        -- intros _. now rewrite Hevicted, String.eqb_refl.
        -- discriminate.
      * cbn [fst snd]. split; [| split; [| split]].
        -- intros other Hne. now rewrite dict_get_mutate_ne.
        -- intros p sig [].
        -- intros Hok. now destruct (Hok eq_refl) as [Hno _].
        -- reflexivity.
    + cbn [fst snd]. split; [| split; [| split]].
      * intros other Hne. rewrite Hevicted.
        apply String.eqb_neq in Hne. now rewrite Hne.
      * intros p sig [].
      * intros _. now rewrite Hevicted, String.eqb_refl.
      * discriminate.
Qed.

Lemma stop_agent_instance_run_witness :
  AgentManagement.stop_agent_instance (fun _ => AgentManagement.Alive)
    (fun _ => AgentManagement.Alive) "a1-1020-0" Sample.three_running
  = (PyDict.del "a1-1020-0" Sample.three_running,
     [(4302, AgentManagement.SIGTERM); (4302, AgentManagement.SIGKILL)])
  /\ PyDict.get "a1-1020-0"
       (fst (AgentManagement.stop_agent_instance
               (fun _ => AgentManagement.Alive)
               (fun _ => AgentManagement.Alive) "a1-1020-0"
               Sample.three_running)) = None.
Proof.
  split; [reflexivity |].
  destruct (stop_agent_instance_run (fun _ => AgentManagement.Alive)
              (fun _ => AgentManagement.Alive) "a1-1020-0"
              Sample.three_running (proj1 sample_three_running_wf))
    as [_ Hstored].
  destruct (Hstored (Sample.instance "a1-1020-0" "running" 1020 4302 1100)
              eq_refl) as (_ & _ & Hgone & _).
  apply Hgone. intros _. split; [discriminate | intros _; discriminate].
Defined.

(** ** Ties in the eviction order ([sorted]) *)

Lemma insert_by_started_at_filter (t : Py.datetime) x xs :
  List.filter (fun y => AgentInstance.started_at y =? t)
    (AgentManagement.insert_by_started_at x xs)
  = List.filter (fun y => AgentInstance.started_at y =? t) (x :: xs).
Proof.
  induction xs as [| y ys IH]; [reflexivity |].
  cbn [AgentManagement.insert_by_started_at].
  destruct (Z.leb_spec (AgentInstance.started_at x) (AgentInstance.started_at y))
    as [Hle | Hgt]; [reflexivity |].
  cbn [List.filter] in IH |- *. rewrite IH.
  destruct (Z.eqb_spec (AgentInstance.started_at x) t) as [Hx | Hx];
    [| reflexivity].
  destruct (Z.eqb_spec (AgentInstance.started_at y) t) as [Hy | Hy];
    [lia | reflexivity].
Qed.

(** The sort is stable: instances with the same [started_at] come out in
    the order the registry lists them, so of two instances started at the
    same instant the one registered first is stopped first. *)
Theorem sorted_by_started_at_stable (t : Py.datetime)
    (instances : list AgentInstance.t) :
  List.filter (fun y => AgentInstance.started_at y =? t)
    (AgentManagement.sorted_by_started_at instances)
  = List.filter (fun y => AgentInstance.started_at y =? t) instances.
Proof.
  induction instances as [| x xs IH]; [reflexivity |].
  cbn [AgentManagement.sorted_by_started_at fold_right].
  rewrite insert_by_started_at_filter.
  cbn [List.filter]. fold (AgentManagement.sorted_by_started_at xs).
  now rewrite IH.
Qed.

(** ** Failures of [scale_agent] *)

(** A scale-up loop whose [m]-th [Popen] is the first to fail stops there,
    with the [m] instances deployed before it in the registry. *)
Lemma scale_up_loop_partial popen now deployment agent (m : nat) :
  AgentDeployment.agent_id deployment = agent ->
  forall n i agent_instances,
    (m < n)%nat ->
    (forall j, i <= j < i + Z.of_nat n ->
       PyDict.get
         (AgentManagement.scale_instance_id agent
            (AgentManagement.int_timestamp now) j) agent_instances = None) ->
    (forall j, i <= j < i + Z.of_nat m -> popen j <> None) ->
    popen (i + Z.of_nat m) = None ->
    exists registry,
      AgentManagement.scale_up_loop popen now deployment agent i n
        agent_instances = (registry, false)
      /\ length (current_instances agent registry)
         = (length (current_instances agent agent_instances) + m)%nat.
Proof.
  intros Hagent. induction m as [| m IH];
    intros n i agent_instances Hlt Hfresh Hok Hfail.
  - destruct n as [| n]; [lia |]. cbn [AgentManagement.scale_up_loop].
    replace (i + Z.of_nat 0) with i in Hfail by lia. rewrite Hfail.
    exists agent_instances. split; [reflexivity | lia].
  - destruct n as [| n]; [lia |]. cbn [AgentManagement.scale_up_loop].
    destruct (popen i) as [pid |] eqn:Hpid;
      [| exfalso; apply (Hok i); [lia | exact Hpid]].
    cbn [AgentManagement.deploy_agent_instance].
    set (instance :=
           {| AgentInstance.instance_id :=
                AgentManagement.scale_instance_id agent
                  (AgentManagement.int_timestamp now) i;
              AgentInstance.agent_id := AgentDeployment.agent_id deployment;
              AgentInstance.project_id := AgentDeployment.project_id deployment;
              AgentInstance.deployment_type :=
                AgentDeployment.deployment_type deployment;
              AgentInstance.status := "starting";
              AgentInstance.started_at := now;
              AgentInstance.process_id := Some pid;
              AgentInstance.last_heartbeat := Some now |}).
    destruct (IH n (i + 1)
                (PyDict.set
                   (AgentManagement.scale_instance_id agent
                      (AgentManagement.int_timestamp now) i)
                   instance agent_instances))
      as (registry & Hloop & Hcount).
    + lia.
    + intros j Hj. rewrite dict_get_set_ne; [apply Hfresh; lia |].
      intros Heq. apply scale_instance_id_inj in Heq. lia.
    + intros j Hj. apply Hok. lia.
    + replace (i + 1 + Z.of_nat m) with (i + Z.of_nat (S m)) by lia.
      exact Hfail.
    + exists registry. split; [exact Hloop |]. rewrite Hcount.
      rewrite dict_set_fresh by (apply Hfresh; lia).
      unfold current_instances, PyDict.values.
      rewrite map_app, List.filter_app, length_app. simpl.
      unfold AgentManagement.is_current. simpl.
      rewrite Hagent, String.eqb_refl. simpl. lia.
Qed.

(** [scale_agent] raises a 500 and queues nothing in three cases. A
    negative target, or a scale-up for an agent that is not stored: the
    registry is unchanged, and the detail is [Scaling failed: ] followed by
    the text of the exception. A [Popen] that fails in the scale-up loop: the
    instances deployed before the failure stay registered, so the count of
    starting and running instances has grown by the number of successful
    spawns although the request failed. *)
Theorem scale_agent_failures
    (agents : gmap string AIAgent.t) (popen : Z -> option Z)
    (now : Py.datetime) (agent : string) (target_replicas : Z)
    (agent_instances : AgentManagement.registry) :
  let current := Z.of_nat (length (current_instances agent agent_instances)) in
  let result :=
    AgentManagement.scale_agent agents popen now agent target_replicas
      agent_instances in
  (target_replicas < 0 ->
   exists text,
     result = (agent_instances, [],
               Py.HTTPException 500 ("Scaling failed: " +:+ text)))
  /\ (current < target_replicas ->
      agents !! agent = None ->
      exists text,
        result = (agent_instances, [],
                  Py.HTTPException 500 ("Scaling failed: " +:+ text)))
  /\ (forall (m : nat),
        is_Some (agents !! agent) ->
        Z.of_nat m < target_replicas - current ->
        (forall j, 0 <= j < target_replicas - current ->
           PyDict.get
             (AgentManagement.scale_instance_id agent
                (AgentManagement.int_timestamp now) j) agent_instances = None) ->
        (forall j, 0 <= j < Z.of_nat m -> popen j <> None) ->
        popen (Z.of_nat m) = None ->
        exists detail,
          snd result = Py.HTTPException 500 detail
          /\ snd (fst result) = []
          /\ length (current_instances agent (fst (fst result)))
             = (length (current_instances agent agent_instances) + m)%nat).
Proof.
  cbv zeta. unfold AgentManagement.scale_agent.
  fold (current_instances agent agent_instances).
  split; [| split].
  - intros Hneg. destruct (Z.ltb_spec target_replicas 0); [| lia].
    eexists. reflexivity.
  - intros Hup Hmissing.
    destruct (Z.ltb_spec target_replicas 0) as [Hneg | _].
    { pose proof (Nat2Z.is_nonneg
                    (length (current_instances agent agent_instances))). lia. }
    destruct (Z.ltb_spec
                (Z.of_nat (length (current_instances agent agent_instances)))
                target_replicas); [| lia].
    rewrite Hmissing. eexists. reflexivity.
  - intros m [a Hagent] Hm Hfresh Hok Hfail.
    destruct (Z.ltb_spec target_replicas 0) as [Hneg | _].
    { pose proof (Nat2Z.is_nonneg
                    (length (current_instances agent agent_instances))). lia. }
    destruct (Z.ltb_spec
                (Z.of_nat (length (current_instances agent agent_instances)))
                target_replicas); [| lia].
    rewrite Hagent.
    edestruct (scale_up_loop_partial popen now
                 (AgentDeployment.with_defaults agent (AIAgent.project_id a)
                    (target_replicas
                     - Z.of_nat
                         (length (current_instances agent agent_instances))))
                 agent m eq_refl
                 (Z.to_nat
                    (target_replicas
                     - Z.of_nat
                         (length (current_instances agent agent_instances))))
                 0 agent_instances) as (registry & Hloop & Hcount).
    + lia.
    + intros j Hj. apply Hfresh. lia.
    + intros j Hj. apply Hok. lia.
    + exact Hfail.
    + rewrite Hloop. cbn [fst snd]. eexists. split; [reflexivity |].
      split; [reflexivity | exact Hcount].
Qed.

Lemma scale_agent_failures_witness :
  exists detail,
    snd (AgentManagement.scale_agent Sample.agents
           (fun i => if i <? 1 then Some (5000 + i) else None)
           (1200 * Py.second) "a1" 6 Sample.three_running)
    = Py.HTTPException 500 detail
    /\ length
         (current_instances "a1"
            (fst (fst (AgentManagement.scale_agent Sample.agents
                         (fun i => if i <? 1 then Some (5000 + i) else None)
                         (1200 * Py.second) "a1" 6 Sample.three_running))))
       = 4%nat.
Proof.
  destruct (proj2 (proj2
              (scale_agent_failures Sample.agents
                 (fun i => if i <? 1 then Some (5000 + i) else None)
                 (1200 * Py.second) "a1" 6 Sample.three_running)) 1%nat)
    as (detail & Hresponse & _ & Hcount).
  - eexists. reflexivity.
  - vm_compute. reflexivity.
  - intros j Hj. assert (Hcases : j = 0 \/ j = 1 \/ j = 2) by (simpl in Hj; lia).
    destruct Hcases as [-> | [-> | ->]]; vm_compute; reflexivity.
  - intros j Hj. assert (j = 0) as -> by lia. discriminate.
  - reflexivity.
  - exists detail. split; [exact Hresponse | exact Hcount].
Defined.

(** ** The auto-scaler ([setup_auto_scaling]) *)

Lemma running_le_current agent (agent_instances : AgentManagement.registry) :
  (length
     (List.filter
        (fun inst => String.eqb (AgentInstance.agent_id inst) agent
                     && String.eqb (AgentInstance.status inst) "running")
        (PyDict.values agent_instances))
   <= length (current_instances agent agent_instances))%nat.
Proof.
  unfold current_instances.
  induction (PyDict.values agent_instances) as [| inst l IH]; [reflexivity |].
  cbn [List.filter]. unfold AgentManagement.is_current at 1.
  destruct (String.eqb (AgentInstance.agent_id inst) agent); cbn [andb];
    [| exact IH].
  destruct (String.eqb_spec (AgentInstance.status inst) "running") as [-> | _].
  - cbn. lia.
  - destruct (Py.str_in _ _); cbn [length]; lia.
Qed.

(** A target at or below the count of starting and running instances never
    changes the registry: [scale_agent] deploys nothing, and what it queues
    is not its business. *)
Lemma scale_agent_no_growth agents popen now agent target agent_instances :
  target <= Z.of_nat (length (current_instances agent agent_instances)) ->
  fst (fst (AgentManagement.scale_agent agents popen now agent target
              agent_instances)) = agent_instances.
Proof.
  intros Hle. unfold AgentManagement.scale_agent.
  fold (current_instances agent agent_instances).
  destruct (target <? 0); [reflexivity |].
  destruct (Z.ltb_spec
              (Z.of_nat (length (current_instances agent agent_instances)))
              target); [lia |].
  now destruct (target <? _).
Qed.

(** The count of starting and running instances after a [scale_agent] that
    returned normally. *)
Lemma scale_agent_success_count agents popen now agent target agent_instances
    registry tasks body :
  AgentManagement.scale_agent agents popen now agent target agent_instances
    = (registry, tasks, Py.Return body) ->
  (forall j,
     0 <= j < target - Z.of_nat (length (current_instances agent agent_instances)) ->
     PyDict.get
       (AgentManagement.scale_instance_id agent
          (AgentManagement.int_timestamp now) j) agent_instances = None) ->
  Z.of_nat (length (current_instances agent registry))
  = Z.max (Z.of_nat (length (current_instances agent agent_instances))) target.
Proof.
  unfold AgentManagement.scale_agent.
  fold (current_instances agent agent_instances).
  set (current := Z.of_nat (length (current_instances agent agent_instances))).
  destruct (target <? 0); [discriminate |].
  destruct (Z.ltb_spec current target) as [Hup | Hnotup].
  - destruct (agents !! agent) as [a |]; [| discriminate].
    destruct (AgentManagement.scale_up_loop _ _ _ _ _ _ _) as [r ok] eqn:Hloop.
    destruct ok; [| discriminate].
    intros [= <- _ _] Hfresh.
    apply scale_up_loop_count in Hloop; [| reflexivity |].
    + rewrite Hloop. fold current. lia.
    + intros j Hj. apply Hfresh. lia.
  - destruct (target <? current); intros [= <- _ _] _; fold current; lia.
Qed.

(** Outside its scale-up branch an iteration of the auto-scaler leaves the
    registry exactly as it was: with no rule for the agent, with a metric
    other than [call_queue], with a load that does not exceed
    [threshold_up]. In particular its scale-down decision stops no
    instance, because the stops it queues are never run. *)
Theorem auto_scale_never_removes
    (agents : gmap string AIAgent.t) (popen : Z -> option Z)
    (now : Py.datetime)
    (scaling_rules : gmap string AgentManagement.ScalingRule.t)
    (current_load : float) (agent : string) (min_replicas max_replicas : Z)
    (agent_instances : AgentManagement.registry) :
  let result :=
    AgentManagement.auto_scale_iteration agents popen now scaling_rules
      current_load agent min_replicas max_replicas agent_instances in
  (scaling_rules !! agent = None -> result = (agent_instances, true))
  /\ (forall rule,
        scaling_rules !! agent = Some rule ->
        String.eqb (AgentManagement.ScalingRule.metric_type rule) "call_queue"
        && PrimFloat.ltb (AgentManagement.ScalingRule.threshold_up rule)
             current_load = false ->
        0 <= AgentManagement.ScalingRule.scale_down_replicas rule ->
        fst result = agent_instances).
Proof.
  cbv zeta. unfold AgentManagement.auto_scale_iteration. split.
  - intros Hnone. now rewrite Hnone.
  - intros rule Hrule Hnotup Hdown. rewrite Hrule, Hnotup. cbv iota.
    destruct (String.eqb (AgentManagement.ScalingRule.metric_type rule)
                "call_queue"
              && PrimFloat.ltb current_load
                   (AgentManagement.ScalingRule.threshold_down rule));
      [| reflexivity].
    destruct (Z.ltb_spec min_replicas
                (Z.of_nat
                   (length
                      (List.filter
                         (fun inst =>
                            String.eqb (AgentInstance.agent_id inst) agent
                            && String.eqb (AgentInstance.status inst) "running")
                         (PyDict.values agent_instances)))))
      as [Hmin | _]; [| reflexivity].
    pose proof (running_le_current agent agent_instances) as Hrunning.
    pose proof (scale_agent_no_growth agents popen now agent
                  (Z.max min_replicas
                     (Z.of_nat
                        (length
                           (List.filter
                              (fun inst =>
                                 String.eqb (AgentInstance.agent_id inst) agent
                                 && String.eqb (AgentInstance.status inst)
                                      "running")
                              (PyDict.values agent_instances)))
                      - AgentManagement.ScalingRule.scale_down_replicas rule))
                  agent_instances ltac:(lia)) as Hkept.
    destruct (AgentManagement.scale_agent _ _ _ _ _ _) as [[r tasks] response].
    cbn [fst] in Hkept. now destruct response.
Qed.

Lemma auto_scale_never_removes_witness :
  fst (AgentManagement.auto_scale_iteration Sample.agents (fun _ => None)
         (1200 * Py.second)
         {[ "a1" := AgentManagement.ScalingRule.mk "a1" "call_queue"
                      2%float 0.5%float 1 1 5 ]}
         0.25%float "a1" 1 5 Sample.three_running)
  = Sample.three_running.
Proof.
  apply (proj2 (auto_scale_never_removes Sample.agents (fun _ => None)
                  (1200 * Py.second)
                  {[ "a1" := AgentManagement.ScalingRule.mk "a1" "call_queue"
                               2%float 0.5%float 1 1 5 ]}
                  0.25%float "a1" 1 5 Sample.three_running)
           (AgentManagement.ScalingRule.mk "a1" "call_queue"
              2%float 0.5%float 1 1 5)).
  - reflexivity.
  - reflexivity.
  - simpl. lia.
Defined.

(** In its scale-up branch the auto-scaler asks for the number of
    [running] instances plus the step, compared by [scale_agent] with the
    number of starting and running ones: after an iteration that did not
    fail there are as many starting and running instances as the larger of
    the two. [max_replicas] only decides whether the branch is entered; it
    does not bound the result. *)
Theorem auto_scale_up_count
    (agents : gmap string AIAgent.t) (popen : Z -> option Z)
    (now : Py.datetime)
    (scaling_rules : gmap string AgentManagement.ScalingRule.t)
    (current_load : float) (agent : string) (min_replicas max_replicas : Z)
    (agent_instances registry : AgentManagement.registry)
    (rule : AgentManagement.ScalingRule.t) :
  let running :=
    Z.of_nat
      (length
         (List.filter
            (fun inst => String.eqb (AgentInstance.agent_id inst) agent
                         && String.eqb (AgentInstance.status inst) "running")
            (PyDict.values agent_instances))) in
  let current := Z.of_nat (length (current_instances agent agent_instances)) in
  let target := running + AgentManagement.ScalingRule.scale_up_replicas rule in
  scaling_rules !! agent = Some rule ->
  String.eqb (AgentManagement.ScalingRule.metric_type rule) "call_queue"
  && PrimFloat.ltb (AgentManagement.ScalingRule.threshold_up rule) current_load
  = true ->
  running < max_replicas ->
  (forall j, 0 <= j < target - current ->
     PyDict.get
       (AgentManagement.scale_instance_id agent
          (AgentManagement.int_timestamp now) j) agent_instances = None) ->
  AgentManagement.auto_scale_iteration agents popen now scaling_rules
    current_load agent min_replicas max_replicas agent_instances
  = (registry, true) ->
  Z.of_nat (length (current_instances agent registry)) = Z.max current target.
Proof.
  intros running current target Hrule Hup Hmax Hfresh.
  unfold AgentManagement.auto_scale_iteration. rewrite Hrule, Hup.
  fold running. destruct (Z.ltb_spec running max_replicas); [| lia].
  fold target.
  destruct (AgentManagement.scale_agent agents popen now agent target
              agent_instances) as [[r tasks] response] eqn:Hscale.
  destruct response as [body | code detail]; [| discriminate].
  intros [= <-].
  exact (scale_agent_success_count _ _ _ _ _ _ _ _ _ Hscale Hfresh).
Qed.

Lemma auto_scale_up_count_witness :
  Z.of_nat
    (length
       (current_instances "a1"
          (fst (AgentManagement.auto_scale_iteration Sample.agents
                  (fun i => Some (5000 + i)) (1200 * Py.second)
                  {[ "a1" := AgentManagement.ScalingRule.mk "a1" "call_queue"
                               2%float 0.5%float 4 1 5 ]}
                  3%float "a1" 1 3 Sample.three_running))))
  = 6.
Proof.
  apply (auto_scale_up_count Sample.agents (fun i => Some (5000 + i))
           (1200 * Py.second)
           {[ "a1" := AgentManagement.ScalingRule.mk "a1" "call_queue"
                        2%float 0.5%float 4 1 5 ]}
           3%float "a1" 1 3 Sample.three_running
           (fst (AgentManagement.auto_scale_iteration Sample.agents
                   (fun i => Some (5000 + i)) (1200 * Py.second)
                   {[ "a1" := AgentManagement.ScalingRule.mk "a1" "call_queue"
                                2%float 0.5%float 4 1 5 ]}
                   3%float "a1" 1 3 Sample.three_running))
           (AgentManagement.ScalingRule.mk "a1" "call_queue"
              2%float 0.5%float 4 1 5)).
  - reflexivity.
  - reflexivity.
  - vm_compute. reflexivity.
  - intros j Hj.
    change (0 <= j < 3) in Hj.
    assert (Hcases : j = 0 \/ j = 1 \/ j = 2) by lia.
    destruct Hcases as [-> | [-> | ->]]; vm_compute; reflexivity.
  - vm_compute. reflexivity.
Defined.

(** ** Deploying an agent ([deploy_agent]) *)

Lemma deploy_instance_id_inj agent ts i j :
  AgentManagement.deploy_instance_id agent ts i
  = AgentManagement.deploy_instance_id agent ts j ->
  i = j.
Proof.
  unfold AgentManagement.deploy_instance_id. intros Heq.
  repeat apply String.app_inj in Heq.
  now apply pretty_Z_inj in Heq.
Qed.

(** A deploy loop that runs to its end appends one starting instance of
    the agent per iteration, provided the ids it builds are new. *)
Lemma deploy_loop_spec popen now deployment n :
  forall i agent_instances deployed registry deployed',
    (forall j, i <= j < i + Z.of_nat n ->
       PyDict.get
         (AgentManagement.deploy_instance_id
            (AgentDeployment.agent_id deployment)
            (AgentManagement.int_timestamp now) j) agent_instances = None) ->
    AgentManagement.deploy_loop popen now deployment i n agent_instances
      deployed = (registry, deployed', true) ->
    exists new,
      PyDict.values registry = PyDict.values agent_instances ++ new
      /\ deployed' = deployed ++ new
      /\ length new = n
      /\ Forall (fun inst =>
                   AgentInstance.status inst = "starting"
                   /\ AgentInstance.agent_id inst
                      = AgentDeployment.agent_id deployment) new.
Proof.
  induction n as [| n IH];
    intros i agent_instances deployed registry deployed' Hfresh.
  - simpl. intros [= <- <-]. exists []. rewrite !app_nil_r.
    repeat split. constructor.
  - cbn [AgentManagement.deploy_loop].
    destruct (popen i) as [pid |]; cbn [AgentManagement.deploy_agent_instance];
      [| discriminate].
    intros Hloop. apply IH in Hloop as (new & Hvalues & Hdeployed & Hlen & Hall).
    + eexists (_ :: new). rewrite Hvalues, Hdeployed.
      rewrite dict_set_fresh by (apply Hfresh; lia).
      unfold PyDict.values. rewrite map_app, <- !app_assoc. cbn [map app snd].
      split; [reflexivity |]. split; [reflexivity |].
      split; [cbn [length]; now rewrite Hlen |].
      constructor; [split; reflexivity | exact Hall].
    + intros j Hj. rewrite dict_get_set_ne; [apply Hfresh; lia |].
      intros Heq. apply deploy_instance_id_inj in Heq. lia.
Qed.

(** [deploy_agent] refuses, with a 500 and no change, to deploy an agent
    that already has starting or running instances unless [auto_scale] is
    set. When it succeeds (the ids it builds being new), it has appended
    [replicas] instances of the agent to the registry, all [starting],
    reports that number, and has queued the monitor for the agent; a
    [replicas] of zero or less deploys nothing and still succeeds. *)
Theorem deploy_agent_cases
    (agents : gmap string AIAgent.t) (projects : gmap string Project.t)
    (popen : Z -> option Z) (now : Py.datetime)
    (deployment : AgentDeployment.t)
    (agent_instances : AgentManagement.registry) :
  let agent := AgentDeployment.agent_id deployment in
  let result :=
    AgentManagement.deploy_agent agents projects popen now deployment
      agent_instances in
  (current_instances agent agent_instances <> [] ->
   AgentDeployment.auto_scale deployment = false ->
   fst (fst result) = agent_instances
   /\ snd (fst result) = []
   /\ exists detail, snd result = inr (Py.HTTPException 500 detail))
  /\ (forall registry tasks report,
        result = (registry, tasks, inl report) ->
        (forall j, 0 <= j < AgentDeployment.replicas deployment ->
           PyDict.get
             (AgentManagement.deploy_instance_id agent
                (AgentManagement.int_timestamp now) j) agent_instances = None) ->
        exists new,
          PyDict.values registry = PyDict.values agent_instances ++ new
          /\ length new = Z.to_nat (AgentDeployment.replicas deployment)
          /\ Forall (fun inst =>
                       AgentInstance.status inst = "starting"
                       /\ AgentInstance.agent_id inst = agent) new
          /\ AgentManagement.instances_deployed report
             = Z.of_nat (Z.to_nat (AgentDeployment.replicas deployment))
          /\ In (AgentManagement.MonitorAgentInstances agent) tasks
          /\ (current_instances agent agent_instances = []
              \/ AgentDeployment.auto_scale deployment = true)).
Proof.
  cbv zeta. unfold AgentManagement.deploy_agent.
  fold (current_instances (AgentDeployment.agent_id deployment) agent_instances).
  split.
  - intros Hexisting Hauto.
    destruct (negb _); [cbn; eauto |]. destruct (negb _); [cbn; eauto |].
    rewrite Hauto.
    destruct (current_instances _ _) as [| inst l]; [contradiction |].
    cbn. eauto.
  - intros registry tasks report.
    destruct (negb _); [discriminate |]. destruct (negb _); [discriminate |].
    destruct (negb (length _ =? 0)%nat && _) eqn:Hrefuse; [discriminate |].
    destruct (AgentManagement.deploy_loop _ _ _ _ _ _ _)
      as [[r deployed] ok] eqn:Hloop.
    destruct ok; [| discriminate].
    intros [= <- <- <-] Hfresh.
    apply deploy_loop_spec in Hloop as (new & Hvalues & Hdeployed & Hlen & Hall).
    + exists new. cbn [app] in Hdeployed. subst deployed.
      split; [exact Hvalues |]. split; [exact Hlen |]. split; [exact Hall |].
      cbn [AgentManagement.instances_deployed]. rewrite Hlen.
      split; [reflexivity |]. split.
      * apply in_or_app. right. now left.
      * apply andb_false_iff in Hrefuse as [Hempty | Hauto].
        -- left. apply negb_false_iff, Nat.eqb_eq in Hempty.
           now destruct (current_instances _ _).
        -- right. now apply negb_false_iff in Hauto.
    + intros j Hj. apply Hfresh. lia.
Qed.

Lemma deploy_agent_cases_witness :
  (fst (fst (AgentManagement.deploy_agent Sample.agents Sample.projects
               (fun i => Some (5000 + i)) (1200 * Py.second)
               (AgentDeployment.with_defaults "a1" "p1" 2)
               Sample.three_running))
   = Sample.three_running)
  /\ exists new,
       PyDict.values
         (fst (fst (AgentManagement.deploy_agent Sample.agents Sample.projects
                      (fun i => Some (5000 + i)) (1200 * Py.second)
                      (AgentDeployment.with_defaults "a1" "p1" 3) [])))
       = new
       /\ length new = 3%nat
       /\ Forall (fun inst =>
                    AgentInstance.status inst = "starting"
                    /\ AgentInstance.agent_id inst = "a1") new.
Proof.
  split.
  - apply (proj1 (deploy_agent_cases Sample.agents Sample.projects
                    (fun i => Some (5000 + i)) (1200 * Py.second)
                    (AgentDeployment.with_defaults "a1" "p1" 2)
                    Sample.three_running)); [discriminate | reflexivity].
  - edestruct (proj2 (deploy_agent_cases Sample.agents Sample.projects
                        (fun i => Some (5000 + i)) (1200 * Py.second)
                        (AgentDeployment.with_defaults "a1" "p1" 3) []))
      as (new & Hvalues & Hlen & Hall & _).
    + vm_compute. reflexivity.
    + intros j _. reflexivity.
    + exists new. split; [exact Hvalues |]. split; [exact Hlen | exact Hall].
Defined.

(** ** Listing instances ([get_agent_instances]) *)

Lemma dict_get_mutate_where {V} (sel : V -> bool) (f : V -> V) (k : string)
    (d : PyDict.t V) :
  PyDict.get k (PyDict.mutate_where sel f d)
  = option_map (fun v => if sel v then f v else v) (PyDict.get k d).
Proof.
  unfold PyDict.mutate_where.
  induction d as [| [k' v'] d IH]; simpl; [reflexivity |].
  destruct (sel v') eqn:Hsel; simpl; destruct (String.eqb k k'); simpl;
    rewrite ?Hsel; auto.
Qed.

(** A listing for an agent polls and returns the instances of that agent
    only: the registry keeps its keys, every instance listed is the
    agent's, and the entries of other agents are not touched. With no
    agent id, or an empty one, every instance is polled and listed. *)
Theorem get_agent_instances_scope
    (os_kill : Z -> AgentManagement.probe) (now : Py.datetime)
    (agent : string) (agent_instances : AgentManagement.registry) :
  let result :=
    AgentManagement.get_agent_instances os_kill now (Some agent)
      agent_instances in
  PyDict.keys (fst result) = PyDict.keys agent_instances
  /\ (agent <> "" ->
      Forall (fun inst => AgentInstance.agent_id inst = agent) (snd result)
      /\ (forall id inst,
            PyDict.get id agent_instances = Some inst ->
            AgentInstance.agent_id inst <> agent ->
            PyDict.get id (fst result) = Some inst))
  /\ (agent = "" ->
      result = AgentManagement.get_agent_instances os_kill now None
                 agent_instances
      /\ snd result
         = map (AgentManagement.update_instance_status os_kill now)
             (PyDict.values agent_instances)).
Proof.
  cbv zeta. unfold AgentManagement.get_agent_instances. cbn [fst snd].
  split; [apply dict_keys_mutate_where |]. split.
  - intros Hagent. rewrite (truthy_str_some _ Hagent).
    cbn [default from_option Datatypes.id]. split.
    + apply List.Forall_forall. intros inst Hin.
      apply List.filter_In in Hin as [_ Hsel]. now apply String.eqb_eq.
    + intros id inst Hget Hother. rewrite dict_get_mutate_where, Hget.
      cbn [option_map]. apply String.eqb_neq in Hother. now rewrite Hother.
  - intros ->. cbn [Py.truthy_str String.eqb negb]. split; [reflexivity |].
    rewrite dict_values_mutate_where.
    induction (PyDict.values agent_instances) as [| inst l IH];
      [reflexivity |].
    cbn [map List.filter]. now rewrite IH.
Qed.

Lemma get_agent_instances_scope_witness :
  Forall (fun inst => AgentInstance.agent_id inst = "a1")
    (snd (AgentManagement.get_agent_instances (fun _ => AgentManagement.Alive)
            (1200 * Py.second) (Some "a1")
            (Sample.three_running
             ++ [("b7-1000-0",
                  AgentInstance.mk "b7-1000-0" "b7" "p1" "worker" "running"
                    (1000 * Py.second) (Some 4400) None)])))
  /\ length
       (snd (AgentManagement.get_agent_instances
               (fun _ => AgentManagement.Alive) (1200 * Py.second) (Some "")
               Sample.three_running)) = 3%nat.
Proof.
  split.
  - apply (proj1 (proj2
             (get_agent_instances_scope (fun _ => AgentManagement.Alive)
                (1200 * Py.second) "a1"
                (Sample.three_running
                 ++ [("b7-1000-0",
                      AgentInstance.mk "b7-1000-0" "b7" "p1" "worker" "running"
                        (1000 * Py.second) (Some 4400) None)])))).
    discriminate.
  - rewrite (proj2 (proj2 (proj2
               (get_agent_instances_scope (fun _ => AgentManagement.Alive)
                  (1200 * Py.second) "" Sample.three_running)) eq_refl)).
    reflexivity.
Defined.

(** ** Room events and cleanup ([handle_room_event]) *)

(** An event for a room with no routing entry changes nothing. For a routed
    room, a departure that leaves at most one participant counted evicts
    the entry and completes, at the time of the event, every answered call
    bound to the room, with its duration when [answered_at] is set; calls
    of other rooms and calls not answered are left as they are. Every other
    event keeps the entry and leaves all calls alone. *)
Theorem room_event_cleanup
    (now : Py.datetime) (room event_type : string) (st : AgentWorker.state) :
  let st' := AgentWorker.handle_room_event now room event_type st in
  (AgentWorker.active_agents st !! room = None -> st' = st)
  /\ (forall entry,
        AgentWorker.active_agents st !! room = Some entry ->
        (event_type = "participant_left" ->
         RoutingEntry.participant_count entry <= 2 ->
         AgentWorker.active_agents st' = delete room (AgentWorker.active_agents st)
         /\ (forall id call,
               AgentWorker.calls st !! id = Some call ->
               exists call',
                 AgentWorker.calls st' !! id = Some call'
                 /\ (Call.room_name call = Some room ->
                     Call.call_status call = "answered" ->
                     Call.call_status call' = "completed"
                     /\ Call.ended_at call' = Some now
                     /\ (forall answered,
                           Call.answered_at call = Some answered ->
                           Call.duration_seconds call'
                           = Some (Py.int_total_seconds now answered)))
                 /\ (Call.room_name call <> Some room
                     \/ Call.call_status call <> "answered" ->
                     call' = call)))
        /\ (event_type <> "participant_left"
            \/ 2 < RoutingEntry.participant_count entry ->
            AgentWorker.calls st' = AgentWorker.calls st
            /\ is_Some (AgentWorker.active_agents st' !! room))).
Proof.
  cbv zeta. unfold AgentWorker.handle_room_event. split.
  - intros Hnone. now rewrite Hnone.
  - intros entry Hentry. rewrite Hentry. split.
    + intros -> Hcount.
      change (String.eqb "participant_left" "participant_joined") with false.
      change (String.eqb "participant_left" "participant_left") with true.
      cbv iota. cbn [RoutingEntry.participant_count AgentWorker.add_participants].
      destruct (Z.leb_spec (RoutingEntry.participant_count entry + -1) 1);
        [| lia].
      unfold AgentWorker.cleanup_agent_instance.
      cbn [AgentWorker.active_agents AgentWorker.calls].
      rewrite lookup_insert_eq. cbn [AgentWorker.active_agents AgentWorker.calls].
      split; [apply delete_insert_eq |].
      intros id call Hcall. rewrite lookup_fmap, Hcall.
      eexists. split; [reflexivity |].
      unfold AgentWorker.complete_answered. split.
      * intros Hroom Hstatus. rewrite Hstatus, bool_decide_eq_true_2 by exact Hroom.
        cbn [String.eqb andb].
        change (String.eqb "answered" "answered") with true. cbv iota.
        destruct call; cbn in *. destruct answered_at; repeat split;
          intros answered' [= <-]; reflexivity.
      * intros [Hroom | Hstatus].
        -- now rewrite bool_decide_eq_false_2.
        -- apply String.eqb_neq in Hstatus. rewrite Hstatus.
           now rewrite andb_false_r.
    + intros Hother.
      destruct (String.eqb event_type "participant_joined") eqn:Hjoined.
      * cbn [AgentWorker.active_agents AgentWorker.calls].
        split; [reflexivity |]. rewrite lookup_insert_eq. eauto.
      * destruct (String.eqb_spec event_type "participant_left")
          as [Hleft | Hnotleft].
        -- destruct Hother as [Hne | Hcount]; [contradiction |].
           cbn [RoutingEntry.participant_count AgentWorker.add_participants].
           destruct (Z.leb_spec (RoutingEntry.participant_count entry + -1) 1);
             [lia |].
           cbn [AgentWorker.active_agents AgentWorker.calls].
           split; [reflexivity |]. rewrite lookup_insert_eq. eauto.
        -- split; [reflexivity |]. rewrite Hentry. eauto.
Qed.

Lemma room_event_cleanup_witness :
  AgentWorker.active_agents
    (AgentWorker.handle_room_event (1100 * Py.second) "call-c1"
       "participant_left" Sample.routed_state)
  = delete "call-c1" (AgentWorker.active_agents Sample.routed_state)
  /\ exists call',
       AgentWorker.calls
         (AgentWorker.handle_room_event (1100 * Py.second) "call-c1"
            "participant_left" Sample.routed_state) !! "c1" = Some call'
       /\ Call.call_status call' = "completed"
       /\ Call.ended_at call' = Some (1100 * Py.second).
Proof.
  destruct (proj2 (room_event_cleanup (1100 * Py.second) "call-c1"
                     "participant_left" Sample.routed_state)
              (RoutingEntry.mk "a1" "p1" "call-c1" 1 (1001 * Py.second) "active")
              eq_refl) as [Hleft _].
  destruct (Hleft eq_refl ltac:(simpl; lia)) as [Hevicted Hcalls].
  split; [exact Hevicted |].
  destruct (Hcalls "c1"
              (Call.set_room_name (Some "call-c1") Sample.answered_call)
              eq_refl) as (call' & Hstored & Hdone & _).
  exists call'. split; [exact Hstored |].
  destruct (Hdone eq_refl eq_refl) as (Hstatus & Hended & _).
  now split.
Defined.

(** ** The routing table over a worker's life ([route_job] and room events) *)

Lemma handle_room_event_no_entry now room event_type st :
  AgentWorker.active_agents st !! room = None ->
  AgentWorker.handle_room_event now room event_type st = st.
Proof.
  intros Hnone. unfold AgentWorker.handle_room_event. now rewrite Hnone.
Qed.

Lemma handle_room_event_rooms now room event_type st other :
  is_Some
    (AgentWorker.active_agents
       (AgentWorker.handle_room_event now room event_type st) !! other) ->
  is_Some (AgentWorker.active_agents st !! other).
Proof.
  unfold AgentWorker.handle_room_event.
  destruct (AgentWorker.active_agents st !! room) as [entry |] eqn:Hentry;
    [| trivial].
  assert (Hinsert : forall e,
            is_Some (<[room := e]> (AgentWorker.active_agents st) !! other) ->
            is_Some (AgentWorker.active_agents st !! other)).
  { intros e. destruct (decide (room = other)) as [<- | Hne].
    - intros _. rewrite Hentry. eauto.
    - now rewrite lookup_insert_ne. }
  destruct (String.eqb event_type "participant_joined");
    [apply Hinsert |].
  destruct (String.eqb event_type "participant_left"); [| trivial].
  destruct (_ <=? 1); [| apply Hinsert].
  unfold AgentWorker.cleanup_agent_instance.
  cbn [AgentWorker.active_agents AgentWorker.calls].
  rewrite lookup_insert_eq. cbn [AgentWorker.active_agents].
  rewrite delete_insert_eq.
  destruct (decide (room = other)) as [<- | Hne].
  - now rewrite lookup_delete_eq; intros [? [=]].
  - now rewrite lookup_delete_ne.
Qed.

(** No job and no room event ever adds a room to the routing table: after
    any sequence of them, every room that has an entry had one before. A
    manager that starts with an empty table, as [AgentWorkerManager()]
    does, therefore keeps it empty, and with it no event reaches the
    cleanup: the worker never writes a call. *)
Theorem routing_table_never_grows
    (agents : gmap string AIAgent.t) (ops : list worker_op)
    (st : AgentWorker.state) :
  let st' := run_worker agents ops st in
  (forall room,
     is_Some (AgentWorker.active_agents st' !! room) ->
     is_Some (AgentWorker.active_agents st !! room))
  /\ (AgentWorker.active_agents st = ∅ -> st' = st).
Proof.
  cbv zeta. unfold run_worker. revert st.
  induction ops as [| op ops IH]; intros st; cbn [fold_left].
  - split; [trivial | reflexivity].
  - destruct (IH (apply_worker_op agents op st)) as [IHrooms IHempty].
    split.
    + intros room Hroom. apply IHrooms in Hroom.
      destruct op as [now job_room | now room_name event_type];
        cbn [apply_worker_op] in Hroom.
      * now rewrite route_job_state in Hroom.
      * now apply handle_room_event_rooms in Hroom.
    + intros Hempty.
      assert (Hstep : apply_worker_op agents op st = st).
      { destruct op as [now job_room | now room_name event_type];
          cbn [apply_worker_op].
        - now rewrite route_job_state.
        - apply handle_room_event_no_entry. rewrite Hempty.
          apply lookup_empty. }
      rewrite Hstep in IHempty |- *. now apply IHempty.
Qed.

Lemma routing_table_never_grows_witness :
  run_worker Sample.agents
    [RouteJob (1001 * Py.second) (Sample.job_for Sample.ringing_call);
     RoomEvent (1005 * Py.second) "call-c1" "participant_joined";
     RoomEvent (1006 * Py.second) "call-c1" "participant_joined";
     RoomEvent (1100 * Py.second) "call-c1" "participant_left"]
    Sample.router_state
  = Sample.router_state.
Proof.
  apply (proj2 (routing_table_never_grows Sample.agents
                  [RouteJob (1001 * Py.second)
                     (Sample.job_for Sample.ringing_call);
                   RoomEvent (1005 * Py.second) "call-c1" "participant_joined";
                   RoomEvent (1006 * Py.second) "call-c1" "participant_joined";
                   RoomEvent (1100 * Py.second) "call-c1" "participant_left"]
                  Sample.router_state)).
  reflexivity.
Defined.
